(** * multiCamController: command channel, file-transfer reader,
      broadcast coordinator, session orchestrator and S3 hand-off.

    A shallow embedding of [src/multicam_controller.py],
    [src/multicam_app.py] and [src/s3_controller.py].  Python values are
    JSON-shaped values, sockets are scripts of deliveries, the wall clock,
    the peers and the file system are an explicit environment and state,
    and [try]/[except] is an error monad over that state. *)

From Stdlib Require Import ZArith List String Ascii Floats Uint63 Lia Bool DecimalString.
From Stdlib.Strings Require Import Byte.
From stdpp Require Import base option list gmap strings.
Import ListNotations.

Set Warnings "-register-all".
Set Default Proof Using "Type".

Local Open Scope string_scope.
Local Open Scope list_scope.
Local Open Scope Z_scope.

(** ** Python values

    What [json.loads] produces and what [send_command] returns: [None],
    [bool], [int], [float], [str], [list] and [dict].  A [dict] is kept as
    the list of its items; [py_lookup] gives the last binding of a key, as
    a repeated key of a JSON object overrides the earlier one. *)

Inductive json : Type :=
| JNull
| JBool (b : bool)
| JInt (z : Z)
| JFloat (f : float)
| JStr (s : string)
| JArr (l : list json)
| JObj (o : list (string * json)).

Definition PyFalse : json := JBool false.
Definition PyTrue : json := JBool true.

Definition float_truthy (f : float) : bool := negb (PrimFloat.eqb f 0%float).

(** [bool(v)] *)
Definition truthy (v : json) : bool :=
  match v with
  | JNull => false
  | JBool b => b
  | JInt z => negb (z =? 0)
  | JFloat f => float_truthy f
  | JStr s => negb (String.eqb s "")
  | JArr l => match l with [] => false | _ => true end
  | JObj o => match o with [] => false | _ => true end
  end.

(** [isinstance(v, str)] *)
Definition is_str (v : json) : bool :=
  match v with JStr _ => true | _ => false end.

Fixpoint py_lookup (k : string) (o : list (string * json)) : option json :=
  match o with
  | [] => None
  | (k', v) :: o' =>
      match py_lookup k o' with
      | Some w => Some w
      | None => if String.eqb k k' then Some v else None
      end
  end.

Fixpoint is_infix (p s : string) : bool :=
  String.prefix p s ||
  match s with
  | EmptyString => false
  | String _ s' => is_infix p s'
  end.

Definition is_this_str (k : string) (v : json) : bool :=
  match v with JStr s => String.eqb k s | _ => false end.

(** ** Faults and the state-and-error monad *)

Inductive exn : Type :=
| ConnectionError
| SendError
| RecvError
| SocketTimeout
| JSONDecodeError
| TypeError
| KeyError
| ValueError
| OverflowError
| OSError.

(** A call returns, raises, or (a loop of the model that ran out of its
    fuel) hangs; no [except] clause catches the last. *)
Inductive outcome (A : Type) : Type :=
| Ret (a : A)
| Raise (e : exn)
| Hang.
Arguments Ret {A} a.
Arguments Raise {A} e.
Arguments Hang {A}.

(** [k in v]: a key of a dict, an element of a list, a substring of a
    string; anything else is not iterable. *)
Definition py_contains (k : string) (v : json) : outcome bool :=
  match v with
  | JObj o => Ret (bool_decide (is_Some (py_lookup k o)))
  | JArr l => Ret (existsb (is_this_str k) l)
  | JStr s => Ret (is_infix k s)
  | _ => Raise TypeError
  end.

(** [v[k]] for a string [k] *)
Definition py_getitem (v : json) (k : string) : outcome json :=
  match v with
  | JObj o => match py_lookup k o with Some w => Ret w | None => Raise KeyError end
  | _ => Raise TypeError
  end.

(** ** The wire: envelopes, peers and sockets *)

Record Envelope : Type := {
  env_command : string;
  env_timestamp : float;
  env_deviceId : string;
  env_fileId : option string
}.

Inductive Delivery : Type :=
| Data (bs : list byte)
| TimedOut
| Reset.

(** How the far end of one connection behaves. *)
Record Script : Type := {
  accepts : bool;
  takes_send : bool;
  incoming : list Delivery
}.

Record Device : Type := {
  ip : string;
  port : Z
}.

(** One entry per socket the controller opened. *)
Record ConnEvent : Type := {
  ev_ip : string;
  ev_port : Z;
  ev_msg : Envelope;
  ev_connected : bool;
  ev_sent : bool
}.

(** What the code cannot see into: the decoder of the [json] module, the
    wall clock, the peers, and the file system's refusals.
    [json_loads data] is [json.loads(data.decode('utf-8'))], [None] when
    it raises; [other_fault data] tells, for bytes on which it raises,
    that the exception is neither [json.JSONDecodeError] nor
    [UnicodeDecodeError] (a plain [ValueError], as for an integer literal
    beyond the interpreter's digit limit, or a [RecursionError]). *)
Record Env : Type := {
  json_loads : list byte -> option json;
  other_fault : list byte -> bool;
  wall_clock : nat -> float;
  peer : nat -> string -> Z -> Envelope -> Script;
  py_str : json -> string;
  downloads_dir : string;
  makedirs_ok : bool;
  can_open : string -> bool;
  s3_client : bool;
  put_object_ok : string -> string -> bool;
  remove_ok : string -> bool;
  generated_folder : string;
  path_name : string -> string
}.

Record State : Type := {
  ticks : nat;
  net_log : list ConnEvent;
  files : gmap string (list byte)
}.

Definition M (A : Type) : Type := State -> outcome A * State.

Definition ret {A} (a : A) : M A := fun s => (Ret a, s).
Definition raise {A} (e : exn) : M A := fun s => (Raise e, s).
Definition bind {A B} (m : M A) (k : A -> M B) : M B :=
  fun s => match m s with
           | (Ret a, s') => k a s'
           | (Raise e, s') => (Raise e, s')
           | (Hang, s') => (Hang, s')
           end.
Definition lift {A} (o : outcome A) : M A := fun s => (o, s).

(** [try: m except Exception: h] *)
Definition try_except {A} (m : M A) (h : exn -> M A) : M A :=
  fun s => match m s with
           | (Ret a, s') => (Ret a, s')
           | (Raise e, s') => h e s'
           | (Hang, s') => (Hang, s')
           end.

Notation "'let!' x ':=' m 'in' k" := (bind m (fun x => k))
  (at level 10, x pattern, m at level 100, k at level 200).

(** [sock.recv(n)] on what is still to come. *)
Definition recv (n : Z) (sock : list Delivery) : outcome (list byte) * list Delivery :=
  match sock with
  | [] => (Ret [], [])
  | Data bs :: rest =>
      if Z.of_nat (length bs) <=? n then (Ret bs, rest)
      else (Ret (take (Z.to_nat n) bs), Data (drop (Z.to_nat n) bs) :: rest)
  | TimedOut :: rest => (Raise SocketTimeout, rest)
  | Reset :: rest => (Raise RecvError, rest)
  end.

(** An upper bound on the number of [recv] calls a socket can answer
    before it reports the end of the stream. *)
Fixpoint weight (sock : list Delivery) : nat :=
  match sock with
  | [] => 0
  | Data bs :: rest => S (length bs + weight rest)
  | _ :: rest => S (weight rest)
  end.

Section Controller.

Context (E : Env).

(** [time.time()] *)
Definition time_time : M float :=
  fun s => (Ret (wall_clock E (ticks s)),
            {| ticks := S (ticks s); net_log := net_log s; files := files s |}).

(** [timestamp or time.time()] *)
Definition or_now (timestamp : option float) : M float :=
  match timestamp with
  | Some t => if float_truthy t then ret t else time_time
  | None => time_time
  end.

Definition str_truthy (x : option string) : option string :=
  match x with
  | Some f => if String.eqb f "" then None else Some f
  | None => None
  end.

Definition build_message (command : string) (timestamp : option float)
    (file_id : option string) : M Envelope :=
  let! ts := or_now timestamp in
  ret {| env_command := command; env_timestamp := ts;
         env_deviceId := "controller"; env_fileId := str_truthy file_id |}.

(** The instant [build_message] puts into the envelope, and the clock
    reads it has made by then. *)
Definition stamp (timestamp : option float) (s : State) : float :=
  match timestamp with
  | Some t => if float_truthy t then t else wall_clock E (ticks s)
  | None => wall_clock E (ticks s)
  end.

Definition stamp_ticks (timestamp : option float) (s : State) : nat :=
  match timestamp with
  | Some t => if float_truthy t then ticks s else S (ticks s)
  | None => S (ticks s)
  end.

(** [socket(...)], [connect] and [send]: the attempt is logged, and the
    stream of the peer's deliveries is the open socket. *)
Definition connect_and_send (ip : string) (port : Z) (msg : Envelope) : M (list Delivery) :=
  fun s =>
    let sc := peer E (length (net_log s)) ip port msg in
    let ev := {| ev_ip := ip; ev_port := port; ev_msg := msg;
                 ev_connected := accepts sc;
                 ev_sent := accepts sc && takes_send sc |} in
    let s' := {| ticks := ticks s; net_log := ev :: net_log s; files := files s |} in
    if accepts sc then
      if takes_send sc then (Ret (incoming sc), s') else (Raise SendError, s')
    else (Raise ConnectionError, s').

(** *** File Transfer Reader *)

(** [struct.unpack('>I', bs)[0]] *)
Definition unpack_be32 (bs : list byte) : Z :=
  fold_left (fun acc b => acc * 256 + Z.of_N (Byte.to_N b)) bs 0.

(** The declared [fileSize] as the arithmetic of the download loop sees
    it.  The two [print] lines before the loop format it with [:,] and
    divide it by 1024: that faults on anything but a number, and on an
    [int] too large to divide into a [float]. *)
Inductive pynum : Type :=
| NInt (z : Z)
| NFloat (f : float).

Definition as_size (v : json) : outcome pynum :=
  match v with
  | JInt z => if Z.abs z <? 2 ^ 1034 - 2 ^ 980 then Ret (NInt z) else Raise OverflowError
  | JBool b => Ret (NInt (Z.b2z b))
  | JFloat f => Ret (NFloat f)
  | JStr _ => Raise ValueError
  | _ => Raise TypeError
  end.

(** [float(n)] for a byte count (exact below 2^53). *)
Definition count_to_float (n : Z) : float := PrimFloat.of_uint63 (Uint63.of_Z n).

(** [bytes_received < file_size] *)
Definition count_lt (bytes_received : Z) (file_size : pynum) : bool :=
  match file_size with
  | NInt z => bytes_received <? z
  | NFloat f => PrimFloat.ltb (count_to_float bytes_received) f
  end.

(** [min(8192, file_size - bytes_received)], as the argument of [recv]:
    a [float] there is a [TypeError]. *)
Definition chunk_size (bytes_received : Z) (file_size : pynum) : outcome Z :=
  match file_size with
  | NInt z => Ret (Z.min 8192 (z - bytes_received))
  | NFloat f =>
      if PrimFloat.ltb (PrimFloat.sub f (count_to_float bytes_received)) 8192%float
      then Raise TypeError else Ret 8192
  end.

(** [device_ip.replace('.', '_')] *)
Fixpoint dots_to_underscores (s : string) : string :=
  match s with
  | EmptyString => EmptyString
  | String c s' =>
      String (if Ascii.eqb c "."%char then "_"%char else c) (dots_to_underscores s')
  end.

(** [os.path.join(a, b)] *)
Definition path_join (a b : string) : string :=
  if String.prefix "/" b then b
  else if String.eqb a "" then b
  else if String.eqb (String.substring (String.length a - 1) 1 a) "/" then a +:+ b
  else a +:+ "/" +:+ b.

(** the f-string rendering of a value *)
Definition render (v : json) : string :=
  match v with JStr s => s | _ => py_str E v end.

Definition local_path_for (device_ip : string) (file_name : json) : string :=
  path_join (downloads_dir E)
            (dots_to_underscores device_ip +:+ "_" +:+ render file_name).

(** [while len(header_data) < header_size: ...] *)
Fixpoint read_header (fuel : nat) (header_size : Z) (header_data : list byte)
    (sock : list Delivery) : outcome (list byte) * list Delivery :=
  match fuel with
  | O => (Hang, sock)
  | S fuel' =>
      if Z.of_nat (length header_data) <? header_size then
        match recv (header_size - Z.of_nat (length header_data)) sock with
        | (Ret [], sock') => (Ret header_data, sock')
        | (Ret chunk, sock') =>
            read_header fuel' header_size (header_data ++ chunk) sock'
        | (Raise e, sock') => (Raise e, sock')
        | (Hang, sock') => (Hang, sock')
        end
      else (Ret header_data, sock)
  end.

Definition open_wb (path : string) : M unit :=
  fun s =>
    if can_open E path then
      (Ret tt, {| ticks := ticks s; net_log := net_log s;
                  files := <[path := []]> (files s) |})
    else (Raise OSError, s).

Definition write (path : string) (chunk : list byte) : M unit :=
  fun s =>
    (Ret tt, {| ticks := ticks s; net_log := net_log s;
                files := <[path := default [] (files s !! path) ++ chunk]> (files s) |}).

(** [while bytes_received < file_size: ...]; gives back the count. *)
Fixpoint download_loop (fuel : nat) (file_size : pynum) (bytes_received : Z)
    (path : string) (sock : list Delivery) : M Z :=
  match fuel with
  | O => lift Hang
  | S fuel' =>
      if count_lt bytes_received file_size then
        let! n := lift (chunk_size bytes_received file_size) in
        match recv n sock with
        | (Ret [], _) => ret bytes_received
        | (Ret chunk, sock') =>
            let! _ := write path chunk in
            download_loop fuel' file_size
                          (bytes_received + Z.of_nat (length chunk)) path sock'
        | (Raise e, _) => raise e
        | (Hang, _) => lift Hang
        end
      else ret bytes_received
  end.

Definition loads (data : list byte) : M json :=
  match json_loads E data with
  | Some v => ret v
  | None => raise JSONDecodeError
  end.

Definition _handle_file_download (sock : list Delivery) (device_ip : string) : M json :=
  try_except
    (match recv 4 sock with
     | (Ret header_size_data, sock1) =>
         if negb (length header_size_data =? 4)%nat then ret PyFalse
         else
           let header_size := unpack_be32 header_size_data in
           let! (header_data, sock2) :=
             (fun s => match read_header (S (weight sock1)) header_size [] sock1 with
                       | (Ret d, k) => (Ret (d, k), s)
                       | (Raise e, _) => (Raise e, s)
                       | (Hang, _) => (Hang, s)
                       end) in
           let! header_info := loads header_data in
           let! file_name := lift (py_getitem header_info "fileName") in
           let! file_size_v := lift (py_getitem header_info "fileSize") in
           let! file_size := lift (as_size file_size_v) in
           let! _ := (if makedirs_ok E then ret tt else raise OSError) in
           let local_path := local_path_for device_ip file_name in
           let! _ := open_wb local_path in
           let! _ := download_loop (S (weight sock2)) file_size 0 local_path sock2 in
           ret (JStr local_path)
     | (Raise e, _) => raise e
     | (Hang, _) => lift Hang
     end)
    (fun _ => ret PyFalse).

(** *** Command Channel *)

(** The [LIST_FILES] branch: [while True: chunk = sock.recv(8192) ...].
    The inner [except (json.JSONDecodeError, UnicodeDecodeError)] goes
    on reading; any other fault of the decoder leaves the loop, and the
    outer [except socket.timeout] does not catch it. *)
Fixpoint recv_until_json (fuel : nat) (response_data : list byte)
    (sock : list Delivery) : outcome (list byte) * list Delivery :=
  match fuel with
  | O => (Hang, sock)
  | S fuel' =>
      match recv 8192 sock with
      | (Ret [], sock') => (Ret response_data, sock')
      | (Ret chunk, sock') =>
          match json_loads E (response_data ++ chunk) with
          | Some _ => (Ret (response_data ++ chunk), sock')
          | None =>
              if other_fault E (response_data ++ chunk)
              then (Raise ValueError, sock')
              else recv_until_json fuel' (response_data ++ chunk) sock'
          end
      | (Raise SocketTimeout, sock') => (Ret response_data, sock')
      | (Raise e, sock') => (Raise e, sock')
      | (Hang, sock') => (Hang, sock')
      end
  end.

(** What the reply branch reads before it decodes. *)
Definition read_reply (command : string) (sock : list Delivery)
  : outcome (list byte) * list Delivery :=
  if String.eqb command "LIST_FILES"
  then recv_until_json (S (weight sock)) [] sock
  else recv 4096 sock.

(** [if response_data: ...] *)
Definition interpret_reply (command : string) (response_data : list byte) : M json :=
  match response_data with
  | [] => ret PyTrue
  | _ =>
      let! response_json := loads response_data in
      if String.eqb command "STOP_RECORDING" then
        let! has := lift (py_contains "fileId" response_json) in
        if has then
          let! fid := lift (py_getitem response_json "fileId") in
          if truthy fid then ret fid else ret response_json
        else ret response_json
      else ret response_json
  end.

Definition send_command (device_ip : string) (device_port : Z) (command : string)
    (timestamp : option float) (file_id : option string) : M json :=
  try_except
    (let! message := build_message command timestamp file_id in
     let! sock := connect_and_send device_ip device_port message in
     if String.eqb command "GET_VIDEO" then _handle_file_download sock device_ip
     else
       let! response_data := lift (fst (read_reply command sock)) in
       interpret_reply command response_data)
    (fun _ => ret PyFalse).

(** *** Broadcast Coordinator *)

Fixpoint for_each {A B} (f : B -> A -> M B) (l : list A) (acc : B) : M B :=
  match l with
  | [] => ret acc
  | x :: l' => let! acc' := f acc x in for_each f l' acc'
  end.

(** The body of one thread.  A thread in which [send_command] raised would
    end without storing anything.  The threads are joined before the
    results are read; the model runs them to completion one after another,
    in the order of the registry's items. *)
Definition send_and_store_result (command : string) (sync_timestamp : float)
    (results : gmap string json) (nd : string * Device) : M (gmap string json) :=
  fun s =>
    match send_command (ip nd.2) (port nd.2) command (Some sync_timestamp) None s with
    | (Ret result, s') => (Ret (<[nd.1 := result]> results), s')
    | (Raise _, s') => (Ret results, s')
    | (Hang, s') => (Hang, s')
    end.

Definition sync_instant (command : string) (timestamp : option float)
    (sync_delay : float) : M float :=
  match timestamp with
  | None =>
      if String.eqb command "START_RECORDING"
      then let! now := time_time in ret (PrimFloat.add now sync_delay)
      else or_now timestamp
  | Some _ => or_now timestamp
  end.

(** [send_command_to_all]; [None] is the bare [return] of the empty case. *)
Definition send_command_to_all (devices : gmap string Device) (command : string)
    (timestamp : option float) (sync_delay : float)
  : M (option (gmap string json)) :=
  if decide (devices = ∅) then ret None
  else
    let! sync_timestamp := sync_instant command timestamp sync_delay in
    let! results :=
      for_each (send_and_store_result command sync_timestamp) (map_to_list devices) ∅ in
    if String.eqb command "STOP_RECORDING"
    then ret (Some (filter (fun kv : string * json => is_str kv.2) results))
    else ret (Some results).

(** One round of the loop of [download_all_files]. *)
Definition download_one (devices : gmap string Device)
    (downloaded_files : list string) (entry : string * string) : M (list string) :=
  match devices !! entry.1 with
  | Some device =>
      let! file_path :=
        send_command (ip device) (port device) "GET_VIDEO" None (Some entry.2) in
      (* [if file_path:]; a retrieval gives a path or [False] *)
      match file_path with
      | JStr p => if String.eqb p "" then ret downloaded_files
                  else ret (downloaded_files ++ [p])
      | _ => ret downloaded_files
      end
  | None => ret downloaded_files
  end.

(** [download_all_files]; the attribute [last_downloaded_files] it also
    sets is read nowhere and left out. *)
Definition download_all_files (devices : gmap string Device)
    (file_ids : gmap string string) : M (list string) :=
  for_each (download_one devices) (map_to_list file_ids) [].

(** ** S3 hand-off *)

Record UploadResult : Type := {
  success : bool;
  uploaded_files : list string;
  failed_files : list string;
  session_folder : option string
}.

Record DeleteResult : Type := {
  del_success : bool;
  deleted_files : list string;
  failed_deletions : list string
}.

Record CleanupReport : Type := {
  upload_success : bool;
  cleanup_success : bool;
  report_folder : option string;
  total_files : nat;
  uploaded_count : nat;
  deleted_count : option nat;
  failed_count : option nat
}.

Definition exists_on_disk (path : string) (s : State) : bool :=
  bool_decide (is_Some (files s !! path)).

Definition upload_file (local_path s3_key : string) : M bool :=
  fun s =>
    if negb (s3_client E) then (Ret false, s)
    else if negb (exists_on_disk local_path s) then (Ret false, s)
    else (Ret (put_object_ok E local_path s3_key), s).

Definition upload_step (folder : string) (acc : list string * list string)
    (file_path : string) : M (list string * list string) :=
  fun s =>
    if negb (exists_on_disk file_path s) then (Ret (acc.1, acc.2 ++ [file_path]), s)
    else
      match upload_file file_path (folder +:+ path_name E file_path) s with
      | (Ret true, s') => (Ret (acc.1 ++ [file_path], acc.2), s')
      | (Ret false, s') => (Ret (acc.1, acc.2 ++ [file_path]), s')
      | (Raise e, s') => (Raise e, s')
      | (Hang, s') => (Hang, s')
      end.

Definition upload_batch (file_paths : list string) (custom_folder : option string)
  : M UploadResult :=
  match file_paths with
  | [] => ret {| success := true; uploaded_files := []; failed_files := [];
                 session_folder := None |}
  | _ =>
      let folder := default (generated_folder E) (str_truthy custom_folder) in
      let! (up, failed) := for_each (upload_step folder) file_paths ([], []) in
      ret {| success := (length failed =? 0)%nat; uploaded_files := up;
             failed_files := failed; session_folder := Some folder |}
  end.

Definition delete_step (acc : list string * list string) (file_path : string)
  : M (list string * list string) :=
  fun s =>
    if exists_on_disk file_path s then
      if remove_ok E file_path then
        (Ret (acc.1 ++ [file_path], acc.2),
         {| ticks := ticks s; net_log := net_log s;
            files := delete file_path (files s) |})
      else (Ret (acc.1, acc.2 ++ [file_path]), s)
    else (Ret acc, s).

Definition delete_local_files (file_paths : list string) : M DeleteResult :=
  let! (deleted, failed) := for_each delete_step file_paths ([], []) in
  ret {| del_success := (length failed =? 0)%nat; deleted_files := deleted;
         failed_deletions := failed |}.

Definition upload_and_cleanup (file_paths : list string)
    (custom_folder : option string) : M CleanupReport :=
  let! upload_result := upload_batch file_paths custom_folder in
  if success upload_result then
    let! cleanup_result := delete_local_files (uploaded_files upload_result) in
    match session_folder upload_result with
    | None => raise KeyError
    | Some folder =>
        ret {| upload_success := true;
               cleanup_success := del_success cleanup_result;
               report_folder := Some folder;
               total_files := length file_paths;
               uploaded_count := length (uploaded_files upload_result);
               deleted_count := Some (length (deleted_files cleanup_result));
               failed_count := None |}
    end
  else
    ret {| upload_success := false;
           cleanup_success := false;
           report_folder := session_folder upload_result;
           total_files := length file_paths;
           uploaded_count := length (uploaded_files upload_result);
           deleted_count := None;
           failed_count := Some (length (failed_files upload_result)) |}.

(** ** Session Orchestrator *)

Record App : Type := {
  discovered_devices : gmap string Device;
  recording_in_progress : bool
}.

Definition set_recording (b : bool) (a : App) : App :=
  {| discovered_devices := discovered_devices a; recording_in_progress := b |}.

(** The second component of what the handlers return. *)
Inductive Status : Type :=
| Ready
| Recording.

(** The first component, one constructor per message of the source. *)
Inductive StartMsg : Type :=
| NoDevicesAvailable
| AlreadyInProgress
| Started (device_count : nat)
| FailedToStart
| ErrorStarting.

Inductive StopMsg : Type :=
| NoRecordingInProgress
| CompleteCleaned (uploaded : nat) (folder : option string)
| CompleteFilesRemain (uploaded : nat) (folder : option string)
| UploadFailedKept (downloaded : nat) (failed : nat)
| DownloadFailed (device_count file_count : nat)
| NoFilesReturned (device_count : nat)
| ErrorStopping.

(** [bool(result)] for what [send_command_to_all] returned *)
Definition results_truthy (r : option (gmap string json)) : bool :=
  match r with
  | Some m => negb (bool_decide (m = ∅))
  | None => false
  end.

Definition start_recording (a : App) : M (StartMsg * Status * App) :=
  try_except
    (if decide (discovered_devices a = ∅) then ret (NoDevicesAvailable, Ready, a)
     else if recording_in_progress a then ret (AlreadyInProgress, Recording, a)
     else
       let device_count := size (discovered_devices a) in
       let! result :=
         send_command_to_all (discovered_devices a) "START_RECORDING" None 3%float in
       if results_truthy result
       then ret (Started device_count, Recording, set_recording true a)
       else ret (FailedToStart, Ready, set_recording false a))
    (fun _ => ret (ErrorStarting, Ready, set_recording false a)).

Definition str_of (v : json) : option string :=
  match v with JStr s => Some s | _ => None end.

(** The message [stop_recording] makes of what the upload step reports. *)
Definition session_message (downloaded_files : list string) (r : CleanupReport)
  : StopMsg :=
  if upload_success r then
    if cleanup_success r
    then CompleteCleaned (uploaded_count r) (report_folder r)
    else CompleteFilesRemain (uploaded_count r) (report_folder r)
  else UploadFailedKept (length downloaded_files) (default 0%nat (failed_count r)).

Definition stop_recording (a : App) : M (StopMsg * Status * App) :=
  try_except
    (if negb (recording_in_progress a) then ret (NoRecordingInProgress, Ready, a)
     else
       let device_count := size (discovered_devices a) in
       let! file_ids :=
         send_command_to_all (discovered_devices a) "STOP_RECORDING" None 3%float in
       let a' := set_recording false a in
       if results_truthy file_ids then
         let file_count := size (default ∅ file_ids) in
         let! downloaded_files :=
           download_all_files (discovered_devices a)
                              (omap str_of (default ∅ file_ids)) in
         match downloaded_files with
         | [] => ret (DownloadFailed device_count file_count, Ready, a')
         | _ =>
             let! upload_result := upload_and_cleanup downloaded_files None in
             ret (session_message downloaded_files upload_result, Ready, a')
         end
       else ret (NoFilesReturned device_count, Ready, a'))
    (fun _ => ret (ErrorStopping, Ready, set_recording false a)).

End Controller.

(** ** Device Registry: discovery callbacks and manual registration *)

(** [self.discovered_devices] as the listener and [discover_devices]
    see it: a dict, that is its items in insertion order, every name
    once. *)

(** [name in d] *)
Definition dict_has (name : string) (items : list (string * Device)) : bool :=
  existsb (String.eqb name) items.*1.

(** [d[name] = device]: an entry that is there keeps its place, a new
    one goes to the end. *)
Fixpoint dict_set (name : string) (device : Device)
    (items : list (string * Device)) : list (string * Device) :=
  match items with
  | [] => [(name, device)]
  | (n, d) :: rest =>
      if String.eqb name n then (name, device) :: rest
      else (n, d) :: dict_set name device rest
  end.

(** [del d[name]] *)
Fixpoint dict_del (name : string) (items : list (string * Device))
  : list (string * Device) :=
  match items with
  | [] => []
  | (n, d) :: rest =>
      if String.eqb name n then dict_del name rest else (n, d) :: dict_del name rest
  end.

(** The registry as the rest of the controller reads it, by name. *)
Definition registry_of (items : list (string * Device)) : gmap string Device :=
  list_to_map items.

(** [MultiCamListener.remove_service] *)
Definition remove_service (devices : list (string * Device)) (name : string)
  : list (string * Device) :=
  if dict_has name devices then dict_del name devices else devices.

(** What [zeroconf.get_service_info] gives: packed addresses and a port. *)
Record ServiceInfo : Type := {
  addresses : list (list byte);
  info_port : Z
}.

Definition decimal (b : byte) : string :=
  NilZero.string_of_uint (N.to_uint (Byte.to_N b)).

(** [socket.inet_ntoa]: four packed bytes as dotted decimals; any other
    length is an [OSError]. *)
Definition inet_ntoa (packed : list byte) : option string :=
  match packed with
  | [a; b; c; d] =>
      Some (decimal a +:+ "." +:+ decimal b +:+ "." +:+ decimal c +:+ "." +:+ decimal d)
  | _ => None
  end.

(** [MultiCamListener.add_service]; [None] when the callback raises (no
    address at index 0, or one that is not four bytes), which happens
    before the registry is written.  The entry's third item, the [info]
    object itself, is read by no function modelled here and is left out
    of [Device]. *)
Definition add_service (devices : list (string * Device)) (name : string)
    (info : option ServiceInfo) : option (list (string * Device)) :=
  match info with
  | None => Some devices
  | Some i =>
      match addresses i with
      | [] => None
      | packed :: _ =>
          match inet_ntoa packed with
          | Some address =>
              Some (dict_set name {| ip := address; port := info_port i |} devices)
          | None => None
          end
      end
  end.

Inductive ListenerEvent : Type :=
| AddService (name : string) (info : option ServiceInfo)
| RemoveService (name : string)
| UpdateService (name : string).

(** One callback of the listener; a callback that raised has not written
    the registry. *)
Definition notify (devices : list (string * Device)) (ev : ListenerEvent)
  : list (string * Device) :=
  match ev with
  | AddService name info => default devices (add_service devices name info)
  | RemoveService name => remove_service devices name
  | UpdateService _ => devices
  end.

(** [discover_devices]: the callbacks that arrive while it sleeps, then
    [list(self.discovered_devices.values())], the devices in the order
    in which their names entered the registry. *)
Definition discover_devices (events : list ListenerEvent)
    (devices : list (string * Device)) : list Device * list (string * Device) :=
  let devices' := foldl notify devices events in
  (devices'.*2, devices').

(** [manual_connect] *)
Definition manual_connect (devices : gmap string Device) (address : string)
    (device_port : Z) : gmap string Device :=
  <["manual-" +:+ address := {| ip := address; port := device_port |}]> devices.

Section Handlers.

Context (E : Env).

(** [download_file] *)
Definition download_file (devices : gmap string Device) (device_name : string)
    (file_id : option string) : M json :=
  match devices !! device_name with
  | None => ret PyFalse
  | Some device => send_command E (ip device) (port device) "GET_VIDEO" None file_id
  end.

(** [MultiCamController.get_device_status] *)
Definition get_device_status (devices : gmap string Device)
  : M (option (gmap string json)) :=
  send_command_to_all E devices "DEVICE_STATUS" None 3%float.

Inductive StatusMsg : Type :=
| NoDevicesForStatus
| GotStatusFrom (device_count : nat)
| ErrorGettingStatus.

(** [MultiCamApp.get_device_status] *)
Definition app_get_device_status (a : App) : M StatusMsg :=
  try_except
    (if decide (discovered_devices a = ∅) then ret NoDevicesForStatus
     else
       let! status_results := get_device_status (discovered_devices a) in
       ret (GotStatusFrom (if results_truthy status_results
                           then size (default ∅ status_results) else 0%nat)))
    (fun _ => ret ErrorGettingStatus).

End Handlers.

(** ** Single-instance enforcement *)

Inductive kill_result : Type :=
| Delivered
| KillOSError
| KillOverflow.

(** What the process sees of its host. *)
Record Host : Type := {
  argv : list string;
  getpid : Z;
  pid_text : Z -> list byte;
  pid_of_text : list byte -> option Z;
  can_read : string -> bool;
  can_write : string -> bool;
  can_unlink : string -> bool;
  kill0 : Z -> kill_result
}.

Inductive Launch : Type :=
| Proceed
| ExitAlreadyRunning (existing_pid : Z)
| Crashed (e : exn).

Definition get_pid_file_path : string := "/tmp/multicam_controller.pid".

(** [' '.join(l)] *)
Fixpoint join_spaces (l : list string) : string :=
  match l with
  | [] => ""
  | [x] => x
  | x :: l' => x +:+ " " +:+ join_spaces l'
  end.

Definition in_argv (x : string) (l : list string) : bool :=
  existsb (String.eqb x) l.

Definition is_subprocess_call (l : list string) : bool :=
  (1 <? length l)%nat &&
  (is_infix "run_multicam_server.py" (join_spaces l)
   || in_argv "--port" l || in_argv "--videos-dir" l).

Definition set_files (s : State) (f : gmap string (list byte)) : State :=
  {| ticks := ticks s; net_log := net_log s; files := f |}.

(** [os.remove(pid_file)] inside a handler that swallows its [OSError] *)
Definition try_remove (H : Host) (path : string) (s : State) : State :=
  if can_unlink H path then set_files s (delete path (files s)) else s.

(** the last [try]: write the own PID, an [IOError] is only reported *)
Definition write_pid (H : Host) (s : State) : State :=
  if can_write H get_pid_file_path
  then set_files s (<[get_pid_file_path := pid_text H (getpid H)]> (files s))
  else s.

Definition check_single_instance (H : Host) (s : State) : Launch * State :=
  if is_subprocess_call (argv H) then (Proceed, s)
  else
    match files s !! get_pid_file_path with
    | None => (Proceed, write_pid H s)
    | Some content =>
        if negb (can_read H get_pid_file_path)
        then (Proceed, write_pid H (try_remove H get_pid_file_path s))
        else
          match pid_of_text H content with
          | None => (Proceed, write_pid H (try_remove H get_pid_file_path s))
          | Some existing_pid =>
              match kill0 H existing_pid with
              | Delivered => (ExitAlreadyRunning existing_pid, s)
              | KillOverflow => (Crashed OverflowError, s)
              | KillOSError =>
                  (* the stale file: [os.remove], and on its [OSError] the
                     handler's [os.remove] once more *)
                  (Proceed,
                   write_pid H
                     (if can_unlink H get_pid_file_path
                      then set_files s (delete get_pid_file_path (files s))
                      else try_remove H get_pid_file_path s))
              end
          end
    end.

Definition cleanup_pid_file (H : Host) (s : State) : State :=
  match files s !! get_pid_file_path with
  | Some _ => try_remove H get_pid_file_path s
  | None => s
  end.

(** ** A reference decoder

    The theorems below hold for every decoder [json_loads].  Their
    instances are stated with this one: a decoder of the JSON texts made
    of ASCII characters, with integers as the only numbers and without
    [\u] escapes; on any other text it gives [None]. *)

Module RefJson.

Definition dq : ascii := ascii_of_nat 34.
Definition backslash : ascii := ascii_of_nat 92.

Definition is_ws (c : ascii) : bool :=
  let n := nat_of_ascii c in
  ((n =? 32) || (n =? 9) || (n =? 10) || (n =? 13))%nat.

Fixpoint skip_ws (s : list ascii) : list ascii :=
  match s with
  | c :: r => if is_ws c then skip_ws r else s
  | [] => []
  end.

Definition is_digit (c : ascii) : bool :=
  let n := nat_of_ascii c in ((48 <=? n) && (n <=? 57))%nat.

Definition digit_val (c : ascii) : Z := Z.of_nat (nat_of_ascii c) - 48.

Fixpoint digits (acc : Z) (s : list ascii) : Z * list ascii :=
  match s with
  | c :: r => if is_digit c then digits (acc * 10 + digit_val c) r else (acc, s)
  | [] => (acc, [])
  end.

Definition starts_fraction (s : list ascii) : bool :=
  match s with
  | c :: _ => Ascii.eqb c "."%char || Ascii.eqb c "e"%char || Ascii.eqb c "E"%char
  | [] => false
  end.

(** [0] or a digit string without a leading zero; no fraction, no exponent *)
Definition natural (s : list ascii) : option (Z * list ascii) :=
  match s with
  | c :: r =>
      if Ascii.eqb c "0"%char then
        if starts_fraction r then None else Some (0, r)
      else if is_digit c then
        let (n, r') := digits 0 s in
        if starts_fraction r' then None else Some (n, r')
      else None
  | [] => None
  end.

Definition unescape (c : ascii) : option ascii :=
  if Ascii.eqb c dq then Some dq
  else if Ascii.eqb c backslash then Some backslash
  else if Ascii.eqb c "/"%char then Some "/"%char
  else if Ascii.eqb c "b"%char then Some (ascii_of_nat 8)
  else if Ascii.eqb c "f"%char then Some (ascii_of_nat 12)
  else if Ascii.eqb c "n"%char then Some (ascii_of_nat 10)
  else if Ascii.eqb c "r"%char then Some (ascii_of_nat 13)
  else if Ascii.eqb c "t"%char then Some (ascii_of_nat 9)
  else None.

(** after the opening quote: the characters up to the closing one *)
Fixpoint string_body (acc : string) (s : list ascii) : option (string * list ascii) :=
  match s with
  | [] => None
  | c :: r =>
      if Ascii.eqb c dq then Some (acc, r)
      else if Ascii.eqb c backslash then
        match r with
        | e :: r' =>
            match unescape e with
            | Some ch => string_body (acc +:+ String ch EmptyString) r'
            | None => None
            end
        | [] => None
        end
      else if ((nat_of_ascii c <? 32) || (127 <? nat_of_ascii c))%nat then None
      else string_body (acc +:+ String c EmptyString) r
  end.

Fixpoint strip_prefix (p : list ascii) (s : list ascii) : option (list ascii) :=
  match p, s with
  | [], _ => Some s
  | a :: p', b :: s' => if Ascii.eqb a b then strip_prefix p' s' else None
  | _ :: _, [] => None
  end.

Definition keyword (s : list ascii) : option (json * list ascii) :=
  match strip_prefix (list_ascii_of_string "true") s with
  | Some r => Some (JBool true, r)
  | None =>
      match strip_prefix (list_ascii_of_string "false") s with
      | Some r => Some (JBool false, r)
      | None =>
          match strip_prefix (list_ascii_of_string "null") s with
          | Some r => Some (JNull, r)
          | None => None
          end
      end
  end.

Inductive mode : Type :=
| MValue
| MElems (acc : list json)
| MMembers (acc : list (string * json)).

Fixpoint parse (fuel : nat) (m : mode) (s : list ascii) : option (json * list ascii) :=
  match fuel with
  | O => None
  | S fuel' =>
      match m with
      | MValue =>
          match skip_ws s with
          | [] => None
          | c :: r =>
              if Ascii.eqb c "{"%char then
                match skip_ws r with
                | c2 :: r2 =>
                    if Ascii.eqb c2 "}"%char then Some (JObj [], r2)
                    else parse fuel' (MMembers []) r
                | [] => None
                end
              else if Ascii.eqb c "["%char then
                match skip_ws r with
                | c2 :: r2 =>
                    if Ascii.eqb c2 "]"%char then Some (JArr [], r2)
                    else parse fuel' (MElems []) r
                | [] => None
                end
              else if Ascii.eqb c dq then
                match string_body "" r with
                | Some (str, r2) => Some (JStr str, r2)
                | None => None
                end
              else if Ascii.eqb c "-"%char then
                match natural r with
                | Some (n, r2) => Some (JInt (- n), r2)
                | None => None
                end
              else if is_digit c then
                match natural (c :: r) with
                | Some (n, r2) => Some (JInt n, r2)
                | None => None
                end
              else keyword (c :: r)
          end
      | MElems acc =>
          match parse fuel' MValue s with
          | Some (v, r) =>
              match skip_ws r with
              | c :: r2 =>
                  if Ascii.eqb c ","%char then parse fuel' (MElems (acc ++ [v])) r2
                  else if Ascii.eqb c "]"%char then Some (JArr (acc ++ [v]), r2)
                  else None
              | [] => None
              end
          | None => None
          end
      | MMembers acc =>
          match skip_ws s with
          | c :: r =>
              if Ascii.eqb c dq then
                match string_body "" r with
                | Some (k, r2) =>
                    match skip_ws r2 with
                    | c3 :: r3 =>
                        if Ascii.eqb c3 ":"%char then
                          match parse fuel' MValue r3 with
                          | Some (v, r4) =>
                              match skip_ws r4 with
                              | c5 :: r5 =>
                                  if Ascii.eqb c5 ","%char
                                  then parse fuel' (MMembers (acc ++ [(k, v)])) r5
                                  else if Ascii.eqb c5 "}"%char
                                  then Some (JObj (acc ++ [(k, v)]), r5)
                                  else None
                              | [] => None
                              end
                          | None => None
                          end
                        else None
                    | [] => None
                    end
                | None => None
                end
              else None
          | [] => None
          end
      end
  end.

Definition decode (data : list byte) : option json :=
  let s := map ascii_of_byte data in
  match parse (2 * length s + 2) MValue s with
  | Some (v, r) => match skip_ws r with [] => Some v | _ => None end
  | None => None
  end.

(** a text between double quotes *)
Definition q (s : string) : string := String dq (s +:+ String dq EmptyString).

Definition bytes (s : string) : list byte := list_byte_of_string s.

End RefJson.

(** ** Vocabulary of the statements *)

(** The endpoint refuses every connection. *)
Definition refuses (E : Env) (device_ip : string) (device_port : Z) : Prop :=
  forall n msg, accepts (peer E n device_ip device_port msg) = false.

(** The endpoint takes the next connection and the envelope, whatever it
    is, and then delivers [sock]. *)
Definition serves (E : Env) (s : State) (device_ip : string) (device_port : Z)
    (sock : list Delivery) : Prop :=
  forall msg,
    peer E (length (net_log s)) device_ip device_port msg =
    {| accepts := true; takes_send := true; incoming := sock |}.

(** The socket [ev] went to the device [nd] with [command], stamped [t]. *)
Definition sent_to (command : string) (t : float) (ev : ConnEvent)
    (nd : string * Device) : Prop :=
  ev_ip ev = ip nd.2 /\ ev_port ev = port nd.2 /\
  env_command (ev_msg ev) = command /\ env_timestamp (ev_msg ev) = t.

(** [p] would upload: the client is there, the file is there, and the
    bucket takes it under [folder]. *)
Definition uploads (E : Env) (folder : string) (s : State) (p : string) : bool :=
  s3_client E && exists_on_disk p s && put_object_ok E p (folder +:+ path_name E p).

(** A reply that is neither an object, nor an array, nor a string. *)
Definition is_scalar (v : json) : bool :=
  match v with
  | JNull | JBool _ | JInt _ | JFloat _ => true
  | _ => false
  end.

(** The endpoint takes every connection and every envelope, and then
    delivers [sock], however many sockets were opened before. *)
Definition always_serves (E : Env) (device_ip : string) (device_port : Z)
    (sock : list Delivery) : Prop :=
  forall n msg,
    peer E n device_ip device_port msg =
    {| accepts := true; takes_send := true; incoming := sock |}.

(** The bytes a socket still has to give, when it only has data. *)
Fixpoint stream_bytes (sock : list Delivery) : list byte :=
  match sock with
  | Data bs :: rest => bs ++ stream_bytes rest
  | _ => []
  end.

Definition only_data (sock : list Delivery) : Prop :=
  Forall (fun d => match d with Data (_ :: _) => True | _ => False end) sock.

(** The character [c] does not occur in [s]. *)
Fixpoint lacks (c : ascii) (s : string) : bool :=
  match s with
  | EmptyString => true
  | String c' s' => negb (Ascii.eqb c c') && lacks c s'
  end.

(** An address without underscores and slashes (a dotted address, a host
    name). *)
Definition plain_address (address : string) : bool :=
  lacks "_" address && lacks "/" address.

(** The identifiers of [entries] whose device is registered. *)
Definition registered (devices : gmap string Device)
    (entries : list (string * string)) : list (string * string) :=
  List.filter (fun entry => bool_decide (is_Some (devices !! entry.1))) entries.

(** The device an announcement resolves to, when its callback does not
    raise. *)
Definition resolved (info : option ServiceInfo) : option Device :=
  match info with
  | Some i =>
      match addresses i with
      | packed :: _ =>
          match inet_ntoa packed with
          | Some address => Some {| ip := address; port := info_port i |}
          | None => None
          end
      | [] => None
      end
  | None => None
  end.

(** What one callback does to the entry of [name]: [Some x] sets it to
    [x], [None] leaves it as it is. *)
Definition slot (ev : ListenerEvent) (name : string) : option (option Device) :=
  match ev with
  | AddService n info =>
      if decide (name = n)
      then match resolved info with Some d => Some (Some d) | None => None end
      else None
  | RemoveService n => if decide (name = n) then Some None else None
  | UpdateService _ => None
  end.

(** ** Concrete worlds for the instances *)

Module Demo.

Definition counting_clock (n : nat) : float :=
  PrimFloat.of_uint63 (Uint63.of_Z (1000 + Z.of_nat n)).

(** A clock that stands three seconds before the epoch at its first
    reading and runs from ten seconds after it from then on. *)
Definition early_clock (n : nat) : float :=
  match n with
  | O => (-3)%float
  | S m => PrimFloat.of_uint63 (Uint63.of_Z (10 + Z.of_nat m))
  end.

Definition env (clock : nat -> float) (scripts : string -> Script) : Env :=
  {| json_loads := RefJson.decode;
     other_fault := fun _ => false;
     wall_clock := clock;
     peer := fun _ device_ip _ _ => scripts device_ip;
     py_str := fun _ => "?";
     downloads_dir := "/home/user/Downloads/multiCam";
     makedirs_ok := true;
     can_open := fun _ => true;
     s3_client := true;
     put_object_ok := fun local_path _ => negb (String.eqb local_path "/tmp/b.mov");
     remove_ok := fun local_path => negb (String.eqb local_path "/tmp/locked.mov");
     generated_folder := "2025-01-01/12-00-00/";
     path_name := fun local_path => local_path |}.

Definition s0 : State := {| ticks := 0; net_log := []; files := ∅ |}.

Definition closed_port : Script :=
  {| accepts := false; takes_send := false; incoming := [] |}.

Definition replies (deliveries : list Delivery) : Script :=
  {| accepts := true; takes_send := true; incoming := deliveries |}.

Definition cam (n : Z) : Device := {| ip := "10.0.0." +:+ String (ascii_of_nat (48 + Z.to_nat n)) EmptyString; port := 8080 |}.

Definition two_cams : gmap string Device := <["cam1" := cam 1]> (<["cam2" := cam 2]> ∅).

Definition three_cams : gmap string Device := <["cam3" := cam 3]> two_cams.

(** the reply [{"fileId":"clip"}] in one delivery *)
Definition file_id_reply : list Delivery :=
  [Data (RefJson.bytes ("{" +:+ RefJson.q "fileId" +:+ ":" +:+ RefJson.q "clip" +:+ "}"))].

(** the same reply cut in two deliveries, [{"fileId":] and ["clip"}] *)
Definition split_chunks : list (list byte) :=
  [RefJson.bytes ("{" +:+ RefJson.q "fileId" +:+ ":");
   RefJson.bytes (RefJson.q "clip" +:+ "}")].

(** the reply [{"status":"error","fileId":"clip"}] *)
Definition error_with_file_id : list byte :=
  RefJson.bytes ("{" +:+ RefJson.q "status" +:+ ":" +:+ RefJson.q "error" +:+ ","
                 +:+ RefJson.q "fileId" +:+ ":" +:+ RefJson.q "clip" +:+ "}").

(** A transfer that breaks off: the length of the metadata block (36),
    the block [{"fileName":"a.mov","fileSize":1000}], then 500 bytes and
    the end of the stream. *)
Definition header_block : list byte :=
  RefJson.bytes ("{" +:+ RefJson.q "fileName" +:+ ":" +:+ RefJson.q "a.mov" +:+ ","
                 +:+ RefJson.q "fileSize" +:+ ":1000}").

Definition half_file : list byte := repeat "A"%byte 500.

Definition truncated_transfer : list Delivery :=
  [Data ["000"; "000"; "000"; "$"]%byte; Data header_block; Data half_file].

(** The second camera points at a closed port; the others answer. *)
Definition one_unreachable (device_ip : string) : Script :=
  if String.eqb device_ip "10.0.0.2" then closed_port else replies file_id_reply.

(** A whole transfer: the length of the metadata block (33), the block
    [{"fileName":"a.mov","fileSize":4}], and the four bytes. *)
Definition whole_transfer : list Delivery :=
  [Data ["000"; "000"; "000"; "!"]%byte;
   Data (RefJson.bytes ("{" +:+ RefJson.q "fileName" +:+ ":" +:+ RefJson.q "a.mov" +:+ ","
                        +:+ RefJson.q "fileSize" +:+ ":4}"));
   Data (repeat "A"%byte 4)].

(** A camera that answers STOP_RECORDING with a file identifier and
    GET_VIDEO with the file. *)
Definition camera (msg : Envelope) : Script :=
  if String.eqb (env_command msg) "GET_VIDEO" then replies whole_transfer
  else replies file_id_reply.

Definition session_env : Env :=
  {| json_loads := RefJson.decode;
     other_fault := fun _ => false;
     wall_clock := counting_clock;
     peer := fun _ _ _ msg => camera msg;
     py_str := fun _ => "?";
     downloads_dir := "/home/user/Downloads/multiCam";
     makedirs_ok := true;
     can_open := fun _ => true;
     s3_client := true;
     put_object_ok := fun _ _ => true;
     remove_ok := fun _ => true;
     generated_folder := "2025-01-01/12-00-00/";
     path_name := fun local_path => local_path |}.

Definition recording_app : App :=
  {| discovered_devices := <["cam1" := cam 1]> ∅; recording_in_progress := true |}.

(** the metadata block [{"fileName":"a.mov","fileSize":4}] (33 bytes) *)
Definition header_block4 : list byte :=
  RefJson.bytes ("{" +:+ RefJson.q "fileName" +:+ ":" +:+ RefJson.q "a.mov" +:+ ","
                 +:+ RefJson.q "fileSize" +:+ ":4}").

(** a file of declared size 4 whose sender goes on: ABC, then DEF *)
Definition long_transfer : list Delivery :=
  [Data ["000"; "000"; "000"; "!"]%byte; Data header_block4;
   Data ["A"; "B"; "C"]%byte; Data ["D"; "E"; "F"]%byte].

(** the metadata block [{"fileName":"a.mov"}] (20 bytes), without a size *)
Definition header_without_size : list byte :=
  RefJson.bytes ("{" +:+ RefJson.q "fileName" +:+ ":" +:+ RefJson.q "a.mov" +:+ "}").

Definition transfer_without_size : list Delivery :=
  [Data ["000"; "000"; "000"; "020"]%byte; Data header_without_size;
   Data ["A"; "B"; "C"]%byte].

(** A host on which every file operation is permitted, PIDs are written
    in decimal, and the processes 4242 and 4343 are alive. *)
Definition host (own_pid : Z) : Host :=
  {| argv := ["multicam_app.py"];
     getpid := own_pid;
     pid_text := fun n => RefJson.bytes (NilZero.string_of_uint (N.to_uint (Z.to_N n)));
     pid_of_text := fun content =>
       match NilZero.uint_of_string (string_of_list_byte content) with
       | Some d => Some (Z.of_N (N.of_uint d))
       | None => None
       end;
     can_read := fun _ => true;
     can_write := fun _ => true;
     can_unlink := fun _ => true;
     kill0 := fun n => if (n =? 4242) || (n =? 4343) then Delivered else KillOSError |}.

End Demo.

(** * Properties *)

(** ** Sockets and loops *)

Lemma recv_not_hang n sock : (recv n sock).1 <> Hang.
Proof.
  destruct sock as [|[bs| |] rest]; simpl; try discriminate.
  destruct (Z.of_nat (length bs) <=? n); discriminate.
Qed.

Lemma recv_weight n sock chunk sock' :
  recv n sock = (Ret chunk, sock') -> chunk <> [] ->
  (weight sock' < weight sock)%nat.
Proof.
  destruct sock as [|[bs| |] rest]; simpl; try discriminate.
  - intros [= <- <-]. congruence.
  - destruct (Z.of_nat (length bs) <=? n) eqn:Hn; intros [= <- <-] Hne; simpl.
    + lia.
    + rewrite length_drop.
      assert (Z.to_nat n <> 0%nat) by (intros H0; rewrite H0 in Hne; auto).
      assert (length bs <> 0%nat) by (destruct bs; [rewrite take_nil in Hne; auto | simpl; lia]).
      lia.
Qed.

Lemma recv_weight_le n sock o sock' :
  recv n sock = (o, sock') -> (weight sock' <= weight sock)%nat.
Proof.
  destruct sock as [|[bs| |] rest]; simpl.
  - intros [= <- <-]. simpl. lia.
  - destruct (Z.of_nat (length bs) <=? n); intros [= <- <-]; simpl.
    + lia.
    + rewrite length_drop. lia.
  - intros [= <- <-]. lia.
  - intros [= <- <-]. lia.
Qed.

Lemma py_getitem_not_hang v k : py_getitem v k <> Hang.
Proof.
  destruct v; simpl; try discriminate. destruct (py_lookup k o); discriminate.
Qed.

Lemma py_contains_not_hang k v : py_contains k v <> Hang.
Proof. destruct v; simpl; discriminate. Qed.

Lemma as_size_not_hang v : as_size v <> Hang.
Proof.
  destruct v; simpl; try discriminate.
  destruct (Z.abs z <? 2 ^ 1034 - 2 ^ 980); discriminate.
Qed.

Section Loops.

Context (E : Env).

Lemma recv_until_json_not_hang fuel data sock :
  (weight sock < fuel)%nat -> (recv_until_json E fuel data sock).1 <> Hang.
Proof.
  revert data sock. induction fuel as [|fuel IH]; intros data sock Hw; [lia|].
  simpl. destruct (recv 8192 sock) as [[chunk|e|] sock'] eqn:Hr.
  - destruct chunk as [|b chunk]; [simpl; discriminate|].
    destruct (json_loads E (data ++ b :: chunk)); [simpl; discriminate|].
    destruct (other_fault E (data ++ b :: chunk)); [simpl; discriminate|].
    apply IH. apply recv_weight in Hr; [lia | discriminate].
  - destruct e; simpl; discriminate.
  - pose proof (recv_not_hang 8192 sock) as H. rewrite Hr in H. contradiction.
Qed.

Lemma read_header_not_hang fuel size data sock :
  (weight sock < fuel)%nat -> (read_header fuel size data sock).1 <> Hang.
Proof.
  revert data sock. induction fuel as [|fuel IH]; intros data sock Hw; [lia|].
  simpl. destruct (Z.of_nat (length data) <? size); [|simpl; discriminate].
  destruct (recv (size - Z.of_nat (length data)) sock) as [[chunk|e|] sock'] eqn:Hr.
  - destruct chunk as [|b chunk]; [simpl; discriminate|].
    apply IH. apply recv_weight in Hr; [lia | discriminate].
  - simpl; discriminate.
  - pose proof (recv_not_hang (size - Z.of_nat (length data)) sock) as H.
    rewrite Hr in H. contradiction.
Qed.

Lemma download_loop_not_hang fuel size got path sock s :
  (weight sock < fuel)%nat -> (download_loop fuel size got path sock s).1 <> Hang.
Proof.
  revert got sock s. induction fuel as [|fuel IH]; intros got sock s Hw; [lia|].
  simpl. destruct (count_lt got size); [|simpl; discriminate].
  unfold bind, lift. destruct (chunk_size got size) as [n|e|] eqn:Hc.
  - destruct (recv n sock) as [[chunk|e|] sock'] eqn:Hr.
    + destruct chunk as [|b chunk]; [simpl; discriminate|].
      unfold write at 1. apply IH. apply recv_weight in Hr; [lia | discriminate].
    + simpl; discriminate.
    + pose proof (recv_not_hang n sock) as H. rewrite Hr in H. contradiction.
  - simpl; discriminate.
  - destruct size as [z|f]; simpl in Hc; [discriminate|].
    destruct (PrimFloat.ltb _ _); discriminate.
Qed.

(** The download loop touches the file system only. *)
Lemma download_loop_frame fuel size got path sock s :
  let s' := (download_loop fuel size got path sock s).2 in
  ticks s' = ticks s /\ net_log s' = net_log s.
Proof.
  revert got sock s. induction fuel as [|fuel IH]; intros got sock s; simpl; [auto|].
  destruct (count_lt got size); [|simpl; auto].
  unfold bind, lift. destruct (chunk_size got size) as [n|e|]; simpl; auto.
  destruct (recv n sock) as [[chunk|e|] sock']; simpl; auto.
  destruct chunk as [|b chunk]; simpl; auto.
  match goal with |- context [download_loop fuel size ?g path sock' ?t] =>
    destruct (IH g sock' t) as [H1 H2] end.
  simpl in *. rewrite H1, H2. auto.
Qed.

End Loops.

Section ChannelFacts.

Context (E : Env).

(** A transfer ends in the failure marker or in a path; it opens no
    socket and never reads the clock. *)
Lemma handle_file_download_returns sock device_ip s :
  exists v s', _handle_file_download E sock device_ip s = (Ret v, s') /\
               (v = PyFalse \/ exists p, v = JStr p) /\
               ticks s' = ticks s /\ net_log s' = net_log s.
Proof.
  unfold _handle_file_download, try_except.
  pose proof (recv_not_hang 4 sock) as Hr4.
  destruct (recv 4 sock) as [[hsd|e|] sock1] eqn:Hr;
    [| unfold raise; simpl; eauto 10 | simpl in Hr4; contradiction].
  destruct (negb (length hsd =? 4)%nat); [simpl; eauto 10|].
  pose proof (read_header_not_hang (S (weight sock1)) (unpack_be32 hsd) [] sock1
                ltac:(lia)) as Hh.
  unfold bind, loads, lift, raise, ret, open_wb.
  destruct (read_header (S (weight sock1)) (unpack_be32 hsd) [] sock1)
    as [[hd|e|] sock2]; [| simpl; eauto 10 | simpl in Hh; contradiction].
  destruct (json_loads E hd) as [hi|]; [|simpl; eauto 10].
  pose proof (py_getitem_not_hang hi "fileName") as Hg1.
  destruct (py_getitem hi "fileName") as [fname|e|];
    [| simpl; eauto 10 | contradiction].
  pose proof (py_getitem_not_hang hi "fileSize") as Hg2.
  destruct (py_getitem hi "fileSize") as [fsv|e|];
    [| simpl; eauto 10 | contradiction].
  pose proof (as_size_not_hang fsv) as Hg3.
  destruct (as_size fsv) as [fsz|e|]; [| simpl; eauto 10 | contradiction].
  destruct (makedirs_ok E); [|simpl; eauto 10].
  destruct (can_open E (local_path_for E device_ip fname)); [|simpl; eauto 10].
  match goal with |- context [download_loop ?f ?sz ?g ?p ?k ?t] =>
    pose proof (download_loop_not_hang f sz g p k t ltac:(lia)) as Hd;
    pose proof (download_loop_frame f sz g p k t) as Hf;
    destruct (download_loop f sz g p k t) as [[n|e|] s3]
  end; simpl in *; [eauto 10 | eauto 10 | contradiction].
Qed.

Lemma read_reply_not_hang command sock : (read_reply E command sock).1 <> Hang.
Proof.
  unfold read_reply. destruct (String.eqb command "LIST_FILES").
  - apply recv_until_json_not_hang. lia.
  - apply recv_not_hang.
Qed.

Lemma interpret_reply_not_hang command data s :
  (interpret_reply E command data s).1 <> Hang /\
  (interpret_reply E command data s).2 = s.
Proof.
  unfold interpret_reply. destruct data as [|b data]; [simpl; split; [discriminate|auto]|].
  unfold bind, loads, lift, ret, raise.
  destruct (json_loads E (b :: data)) as [rj|]; [|simpl; split; [discriminate|auto]].
  destruct (String.eqb command "STOP_RECORDING"); [|simpl; split; [discriminate|auto]].
  destruct rj; simpl; try (split; [discriminate|auto]).
  - destruct (is_infix "fileId" s0); simpl; split; try discriminate; auto.
  - destruct (existsb _ l); simpl; split; try discriminate; auto.
  - destruct (bool_decide _); [|simpl; split; [discriminate|auto]].
    destruct (py_lookup "fileId" o) as [f|]; [|simpl; split; [discriminate|auto]].
    destruct (truthy f); simpl; split; try discriminate; auto.
Qed.

Lemma build_message_eq command timestamp file_id s :
  build_message E command timestamp file_id s =
  (Ret {| env_command := command; env_timestamp := stamp E timestamp s;
          env_deviceId := "controller"; env_fileId := str_truthy file_id |},
   {| ticks := stamp_ticks timestamp s; net_log := net_log s; files := files s |}).
Proof.
  unfold build_message, bind, or_now, stamp, stamp_ticks, ret, time_time.
  destruct s as [t l f]; simpl.
  destruct timestamp as [ts|]; [destruct (float_truthy ts)|]; reflexivity.
Qed.

Lemma send_command_returns device_ip device_port command timestamp file_id s :
  exists v s' ev,
    send_command E device_ip device_port command timestamp file_id s = (Ret v, s') /\
    net_log s' = ev :: net_log s /\
    ticks s' = stamp_ticks timestamp s /\
    ev_ip ev = device_ip /\ ev_port ev = device_port /\
    ev_msg ev = {| env_command := command; env_timestamp := stamp E timestamp s;
                   env_deviceId := "controller"; env_fileId := str_truthy file_id |}.
Proof.
  unfold send_command, try_except, bind at 1. rewrite build_message_eq.
  unfold bind at 1, connect_and_send. cbn [net_log ticks files].
  set (msg := {| env_command := command |}).
  set (sc := peer E (length (net_log s)) device_ip device_port msg).
  destruct (accepts sc); [|simpl; eauto 20].
  destruct (takes_send sc); [|simpl; eauto 20].
  destruct (String.eqb command "GET_VIDEO").
  - match goal with |- context [_handle_file_download E ?k ?i ?t] =>
      destruct (handle_file_download_returns k i t) as (v & s' & -> & _ & Ht & Hl)
    end.
    simpl in *. exists v, s'. eexists. rewrite Hl, Ht. eauto 10.
  - unfold bind, lift.
    pose proof (read_reply_not_hang command (incoming sc)) as Hh.
    destruct (read_reply E command (incoming sc)) as [[data|e|] k];
      [| simpl; eauto 20 | simpl in Hh; contradiction].
    cbn beta iota delta [fst].
    match goal with |- context [interpret_reply E command data ?t] =>
      destruct (interpret_reply_not_hang command data t) as [Hi Hs];
      destruct (interpret_reply E command data t) as [[v|e|] s']
    end; simpl in *; subst; simpl; [eauto 20 | eauto 20 | contradiction].
Qed.

End ChannelFacts.

(** ** The broadcast loop *)

Section BroadcastFacts.

Context (E : Env).

Lemma send_and_store_result_eq command t results nd s :
  exists v s' ev,
    send_command E (ip nd.2) (port nd.2) command (Some t) None s = (Ret v, s') /\
    send_and_store_result E command t results nd s = (Ret (<[nd.1 := v]> results), s') /\
    net_log s' = ev :: net_log s /\
    ticks s' = stamp_ticks (Some t) s /\
    ev_ip ev = ip nd.2 /\ ev_port ev = port nd.2 /\
    env_command (ev_msg ev) = command /\
    env_timestamp (ev_msg ev) = stamp E (Some t) s.
Proof.
  destruct (send_command_returns E (ip nd.2) (port nd.2) command (Some t) None s)
    as (v & s' & ev & Hs & Hl & Ht & Hi & Hp & Hm).
  exists v, s', ev. unfold send_and_store_result. rewrite Hs, Hm. simpl. auto 10.
Qed.

Lemma for_each_send command t (l : list (string * Device)) :
  forall acc s, NoDup l.*1 ->
  exists results s' new,
    for_each (send_and_store_result E command t) l acc s = (Ret results, s') /\
    net_log s' = new ++ net_log s /\
    length new = length l /\
    (forall name, name ∉ l.*1 -> results !! name = acc !! name) /\
    (forall name d, (name, d) ∈ l ->
       exists s0 v s1,
         send_command E (ip d) (port d) command (Some t) None s0 = (Ret v, s1) /\
         results !! name = Some v) /\
    (float_truthy t = true ->
       ticks s' = ticks s /\ Forall2 (sent_to command t) (rev new) l).
Proof.
  induction l as [|nd l IH]; intros acc s Hnd.
  - exists acc, s, []. simpl. repeat split; auto.
    intros name d Hin. inversion Hin.
  - rewrite fmap_cons in Hnd. apply NoDup_cons in Hnd as [Hfresh Hnd].
    destruct (send_and_store_result_eq command t acc nd s)
      as (v & s1 & ev & Hsend & Hstore & Hl1 & Ht1 & Hi & Hp & Hc & Hts).
    destruct (IH (<[nd.1 := v]> acc) s1 Hnd)
      as (results & s' & new & Hfe & Hl & Hlen & Hout & Hin & Htr).
    exists results, s', (new ++ [ev]). simpl. unfold bind at 1.
    rewrite Hstore. repeat split.
    + exact Hfe.
    + rewrite Hl, Hl1, <- app_assoc. reflexivity.
    + rewrite length_app. simpl. lia.
    + intros name Hname. try rewrite fmap_cons in Hname.
      apply not_elem_of_cons in Hname as [Hne Hname].
      rewrite (Hout name Hname). apply lookup_insert_ne. congruence.
    + intros name d Hel. apply elem_of_cons in Hel as [Heq|Hel].
      * subst nd. simpl in *. exists s, v, s1. split; [exact Hsend|].
        rewrite (Hout name Hfresh). apply lookup_insert_eq.
      * apply (Hin name d Hel).
    + destruct (Htr H) as [Ht _]. rewrite Ht, Ht1. simpl. rewrite H. reflexivity.
    + destruct (Htr H) as [_ Hf]. rewrite rev_app_distr. simpl.
      constructor; [|exact Hf].
      unfold sent_to. rewrite Hts. simpl. rewrite H. auto.
Qed.

(** What a broadcast to a registry that is not empty amounts to. *)
Lemma send_command_to_all_eq devices command timestamp sync_delay s :
  devices <> ∅ ->
  exists t s1 results s',
    sync_instant E command timestamp sync_delay s = (Ret t, s1) /\
    for_each (send_and_store_result E command t) (map_to_list devices) ∅ s1
      = (Ret results, s') /\
    send_command_to_all E devices command timestamp sync_delay s =
      (Ret (Some (if String.eqb command "STOP_RECORDING"
                  then filter (fun kv : string * json => is_str kv.2) results
                  else results)), s').
Proof.
  intros Hne. unfold send_command_to_all.
  destruct (decide (devices = ∅)) as [Heq|_]; [contradiction|].
  assert (exists t s1, sync_instant E command timestamp sync_delay s = (Ret t, s1))
    as (t & s1 & Hsync).
  { unfold sync_instant, or_now, bind, ret, time_time.
    destruct timestamp as [ts|].
    - destruct (float_truthy ts); eauto.
    - destruct (String.eqb command "START_RECORDING"); eauto. }
  destruct (for_each_send command t (map_to_list devices) ∅ s1
              (NoDup_fst_map_to_list devices))
    as (results & s' & new & Hfe & _).
  exists t, s1, results, s'. split; [exact Hsync|]. split; [exact Hfe|].
  unfold bind. rewrite Hsync, Hfe.
  destruct (String.eqb command "STOP_RECORDING"); reflexivity.
Qed.

End BroadcastFacts.

(** ** A refused connection, and the keys of a result map *)

Lemma send_command_refused (E : Env) device_ip device_port command timestamp file_id s :
  refuses E device_ip device_port ->
  exists s', send_command E device_ip device_port command timestamp file_id s
             = (Ret PyFalse, s').
Proof.
  intros Href. unfold send_command, try_except, bind at 1. rewrite build_message_eq.
  unfold bind at 1, connect_and_send. cbn [net_log ticks files].
  rewrite Href. simpl. eauto.
Qed.

Lemma fst_elem_of_map_to_list {A} (m : gmap string A) (name : string) :
  name ∈ (map_to_list m).*1 <-> is_Some (m !! name).
Proof.
  rewrite list_elem_of_fmap. split.
  - intros ([k v] & -> & Hin). apply elem_of_map_to_list in Hin. simpl. eauto.
  - intros [v Hv]. exists (name, v). split; [reflexivity|].
    apply elem_of_map_to_list. exact Hv.
Qed.

(** ** A connection that is served *)

Lemma interpret_reply_any_state (E : Env) command data s s' :
  (interpret_reply E command data s).1 = (interpret_reply E command data s').1.
Proof.
  unfold interpret_reply. destruct data as [|b data]; [reflexivity|].
  unfold bind, loads, lift, ret, raise.
  destruct (json_loads E (b :: data)) as [rj|]; [|reflexivity].
  destruct (String.eqb command "STOP_RECORDING"); [|reflexivity].
  destruct (py_contains "fileId" rj) as [[|]|e|]; try reflexivity.
  destruct (py_getitem rj "fileId") as [f|e|]; try reflexivity.
  destruct (truthy f); reflexivity.
Qed.

(** The value of a send over a served connection, for the commands that
    expect a reply: what was read, decoded, with every fault turned into
    the failure marker. *)
Lemma send_command_served (E : Env) device_ip device_port command timestamp file_id s sock :
  serves E s device_ip device_port sock ->
  command <> "GET_VIDEO" ->
  (send_command E device_ip device_port command timestamp file_id s).1 =
  match (read_reply E command sock).1 with
  | Ret data =>
      match (interpret_reply E command data s).1 with
      | Ret v => Ret v
      | Raise _ => Ret PyFalse
      | Hang => Hang
      end
  | Raise _ => Ret PyFalse
  | Hang => Hang
  end.
Proof.
  intros Hserves Hcmd. apply String.eqb_neq in Hcmd.
  unfold send_command, try_except, bind at 1. rewrite build_message_eq.
  unfold bind at 1, connect_and_send. cbn [net_log ticks files].
  rewrite !Hserves. cbn [accepts takes_send incoming]. rewrite Hcmd.
  unfold bind, lift.
  destruct (read_reply E command sock) as [[data|e|] k]; cbn beta iota delta [fst];
    try reflexivity.
  match goal with |- context [interpret_reply E command data ?t] =>
    tryif constr_eq t s then fail else
      (rewrite (interpret_reply_any_state E command data s t);
       destruct (interpret_reply E command data t) as [[v|e|] s'])
  end; reflexivity.
Qed.

Lemma send_command_get_video (E : Env) device_ip device_port timestamp file_id s sock :
  serves E s device_ip device_port sock ->
  exists s1, files s1 = files s /\
    send_command E device_ip device_port "GET_VIDEO" timestamp file_id s
    = _handle_file_download E sock device_ip s1.
Proof.
  intros Hserves.
  unfold send_command, try_except, bind at 1. rewrite build_message_eq.
  unfold bind at 1, connect_and_send. cbn [net_log ticks files].
  rewrite !Hserves. cbn [accepts takes_send incoming String.eqb Ascii.eqb Bool.eqb].
  match goal with |- context [_handle_file_download E sock device_ip ?t] =>
    exists t; split; [reflexivity|];
    destruct (handle_file_download_returns E sock device_ip t) as (v & s' & -> & _)
  end.
  reflexivity.
Qed.

(** The [LIST_FILES] loop over a reply that comes in pieces. *)
Lemma recv_until_json_chunks (E : Env) (chunks : list (list byte)) :
  forall acc rest fuel v,
    chunks <> [] ->
    Forall (fun c => c <> [] /\ Z.of_nat (length c) <= 8192) chunks ->
    (forall k, (0 < k < length chunks)%nat ->
               json_loads E (acc ++ concat (take k chunks)) = None /\
               other_fault E (acc ++ concat (take k chunks)) = false) ->
    json_loads E (acc ++ concat chunks) = Some v ->
    (length chunks <= fuel)%nat ->
    recv_until_json E fuel acc (map Data chunks ++ rest)
    = (Ret (acc ++ concat chunks), rest).
Proof.
  induction chunks as [|c cs IH]; intros acc rest fuel v Hne Hall Hnone Hsome Hfuel;
    [contradiction|].
  destruct fuel as [|fuel]; [simpl in Hfuel; lia|].
  apply Forall_cons in Hall as [[Hc Hlen] Hall].
  simpl. replace (Z.of_nat (length c) <=? 8192) with true by (symmetry; apply Z.leb_le; lia).
  destruct c as [|b c]; [contradiction|].
  destruct cs as [|c2 cs].
  - simpl in *. rewrite app_nil_r in *. rewrite Hsome. reflexivity.
  - pose proof (Hnone 1%nat ltac:(simpl; lia)) as [H1 H1']. simpl in H1, H1'.
    rewrite app_nil_r in H1, H1'. rewrite H1, H1'.
    rewrite (IH (acc ++ b :: c) rest fuel v); try done.
    + rewrite <- app_assoc. reflexivity.
    + intros k Hk. specialize (Hnone (S k) ltac:(simpl in *; lia)).
      rewrite <- app_assoc. exact Hnone.
    + rewrite <- app_assoc. exact Hsome.
    + simpl in *. lia.
Qed.

Lemma weight_data_chunks (chunks : list (list byte)) rest :
  (length chunks <= weight (map Data chunks ++ rest))%nat.
Proof. induction chunks as [|c cs IH]; simpl; lia. Qed.

(** ** A transfer whose stream ends early *)

Lemma read_header_exact (header : list byte) (rest : list Delivery) :
  header <> [] ->
  read_header (S (weight (Data header :: rest))) (Z.of_nat (length header)) []
              (Data header :: rest)
  = (Ret header, rest).
Proof.
  intros Hne. destruct header as [|hb header]; [contradiction|].
  remember (hb :: header) as h eqn:Hh.
  assert (0 < Z.of_nat (length h)) by (subst h; simpl; lia).
  cbn [weight read_header recv].
  destruct (Z.ltb_spec (Z.of_nat (length (@nil byte))) (Z.of_nat (length h)));
    [|simpl in *; lia].
  destruct (Z.leb_spec (Z.of_nat (length h))
                       (Z.of_nat (length h) - Z.of_nat (length (@nil byte))));
    [|simpl in *; lia].
  subst h. cbn [app].
  destruct (Z.ltb_spec (Z.of_nat (length (hb :: header)))
                       (Z.of_nat (length (hb :: header)))); [lia|].
  reflexivity.
Qed.

Lemma download_loop_chunks (chunks : list (list byte)) :
  forall fuel size got path s content,
    Forall (fun c => c <> [] /\ Z.of_nat (length c) <= 8192) chunks ->
    got + Z.of_nat (length (concat chunks)) < size ->
    (length chunks < fuel)%nat ->
    files s !! path = Some content ->
    download_loop fuel (NInt size) got path (map Data chunks) s
    = (Ret (got + Z.of_nat (length (concat chunks))),
       {| ticks := ticks s; net_log := net_log s;
          files := <[path := content ++ concat chunks]> (files s) |}).
Proof.
  induction chunks as [|c cs IH]; intros fuel size got path s content Hall Hlt Hfuel Hfile;
    (destruct fuel as [|fuel]; [simpl in Hfuel; lia|]).
  - simpl in *. replace (got <? size) with true by (symmetry; apply Z.ltb_lt; lia).
    unfold bind, lift, ret. simpl. rewrite app_nil_r, Z.add_0_r.
    rewrite insert_id by exact Hfile. destruct s; reflexivity.
  - apply Forall_cons in Hall as [[Hc Hlen] Hall].
    simpl in Hlt. rewrite length_app in Hlt.
    cbn [download_loop count_lt map].
    replace (got <? size) with true by (symmetry; apply Z.ltb_lt; lia).
    unfold bind at 1, lift at 1. cbn [chunk_size recv].
    replace (Z.of_nat (length c) <=? Z.min 8192 (size - got)) with true
      by (symmetry; apply Z.leb_le; lia).
    destruct c as [|b c]; [contradiction|].
    unfold bind at 1, write at 1. rewrite Hfile. cbn [default].
    rewrite (IH fuel size _ path _ (content ++ b :: c)); cbn [ticks net_log files].
    + change (concat ((b :: c) :: cs)) with ((b :: c) ++ concat cs).
      unfold id. rewrite length_app, insert_insert_eq, <- app_assoc.
      rewrite Nat2Z.inj_add, Z.add_assoc. reflexivity.
    + exact Hall.
    + lia.
    + simpl in Hfuel. lia.
    + unfold id. apply lookup_insert_eq.
Qed.

(** ** The result map of a broadcast *)

Lemma sync_instant_frame (E : Env) command timestamp sync_delay s t s1 :
  sync_instant E command timestamp sync_delay s = (Ret t, s1) ->
  net_log s1 = net_log s /\ files s1 = files s.
Proof.
  unfold sync_instant, or_now, bind, ret, time_time.
  destruct timestamp as [ts|].
  - destruct (float_truthy ts); intros [= <- <-]; auto.
  - destruct (String.eqb command "START_RECORDING"); intros [= <- <-]; auto.
Qed.

Lemma send_command_to_all_results (E : Env) devices command timestamp sync_delay s :
  devices <> ∅ ->
  exists results s',
    send_command_to_all E devices command timestamp sync_delay s =
      (Ret (Some (if String.eqb command "STOP_RECORDING"
                  then filter (fun kv : string * json => is_str kv.2) results
                  else results)), s') /\
    dom results = dom devices /\
    (forall name d, devices !! name = Some d -> refuses E (ip d) (port d) ->
                    results !! name = Some PyFalse) /\
    length (net_log s') = (length (net_log s) + size devices)%nat.
Proof.
  intros Hne.
  destruct (send_command_to_all_eq E devices command timestamp sync_delay s Hne)
    as (t & s1 & results & s' & Hsync & Hfe & Hall).
  destruct (for_each_send E command t (map_to_list devices) ∅ s1
              (NoDup_fst_map_to_list devices))
    as (results' & s'' & new & Hfe' & Hlog & Hlen & Hout & Hin & _).
  rewrite Hfe in Hfe'. injection Hfe' as <- <-.
  exists results, s'. split; [exact Hall|]. repeat split.
  - apply set_eq. intros name. rewrite !elem_of_dom. split.
    + intros Hsome. destruct (devices !! name) as [d|] eqn:Hd; [eauto|].
      rewrite Hout in Hsome.
      * rewrite lookup_empty in Hsome. destruct Hsome; discriminate.
      * rewrite fst_elem_of_map_to_list, Hd. intros [? ?]; discriminate.
    + intros [d Hd]. apply elem_of_map_to_list in Hd.
      destruct (Hin name d Hd) as (? & v & ? & _ & Hv). eauto.
  - intros name d Hd Href. apply elem_of_map_to_list in Hd.
    destruct (Hin name d Hd) as (s0 & v & s2 & Hsend & Hv).
    destruct (send_command_refused E (ip d) (port d) command (Some t) None s0 Href)
      as (s3 & Hf).
    rewrite Hf in Hsend. injection Hsend as <- _. exact Hv.
  - destruct (sync_instant_frame E _ _ _ _ _ _ Hsync) as [Hl1 _].
    rewrite Hlog, length_app, Hlen, Hl1, length_map_to_list. lia.
Qed.

(** ** Upload, cleanup and retrieval *)

Section HandOffFacts.

Context (E : Env).

Lemma upload_step_eq folder acc p s :
  upload_step E folder acc p s
  = (Ret (if uploads E folder s p then (acc.1 ++ [p], acc.2)
          else (acc.1, acc.2 ++ [p])), s).
Proof.
  unfold upload_step, upload_file, uploads.
  destruct (exists_on_disk p s); simpl; [|rewrite andb_false_r; reflexivity].
  destruct (s3_client E); simpl; [|reflexivity].
  destruct (put_object_ok E p (folder +:+ path_name E p)); reflexivity.
Qed.

Lemma for_each_upload folder (l : list string) :
  forall acc s,
    for_each (upload_step E folder) l acc s
    = (Ret (acc.1 ++ List.filter (uploads E folder s) l,
            acc.2 ++ List.filter (fun p => negb (uploads E folder s p)) l), s).
Proof.
  induction l as [|p l IH]; intros acc s; simpl.
  - rewrite !app_nil_r. destruct acc; reflexivity.
  - unfold bind. rewrite upload_step_eq.
    destruct (uploads E folder s p); rewrite IH; simpl; rewrite <- ?app_assoc; reflexivity.
Qed.

Lemma filter_all (f : string -> bool) (l : list string) :
  (forall p, p ∈ l -> f p = true) ->
  List.filter f l = l /\ List.filter (fun p => negb (f p)) l = [].
Proof.
  induction l as [|p l IH]; intros Hall; simpl; [auto|].
  rewrite (Hall p) by (left). simpl.
  destruct IH as [-> ->]; [|auto]. intros q Hq. apply Hall. right. exact Hq.
Qed.

Lemma filter_some_fails (f : string -> bool) (l : list string) (p : string) :
  p ∈ l -> f p = false -> List.filter (fun q => negb (f q)) l <> [].
Proof.
  induction l as [|q l IH]; intros Hin Hf; [inversion Hin|].
  simpl. apply elem_of_cons in Hin as [<-|Hin].
  - rewrite Hf. simpl. discriminate.
  - destruct (negb (f q)); [discriminate | auto].
Qed.

Lemma for_each_delete (l : list string) :
  forall acc s,
  exists deleted failed s',
    for_each (delete_step E) l acc s = (Ret (acc.1 ++ deleted, acc.2 ++ failed), s') /\
    ticks s' = ticks s /\ net_log s' = net_log s /\
    (forall p, p ∉ l -> files s' !! p = files s !! p) /\
    (forall p, files s' !! p = None \/ files s' !! p = files s !! p) /\
    (forall p, remove_ok E p = false -> files s' !! p = files s !! p) /\
    (failed = [] <-> forall p, p ∈ l -> files s' !! p = None).
Proof.
  induction l as [|p0 l IH]; intros acc s.
  - exists [], [], s. simpl. rewrite !app_nil_r. destruct acc.
    repeat split; auto.
    all: intros; match goal with H : _ ∈ [] |- _ => inversion H end.
  - simpl. unfold bind at 1, delete_step at 1, exists_on_disk.
    destruct (files s !! p0) as [content|] eqn:Hp0.
    + rewrite bool_decide_eq_true_2 by eauto.
      destruct (remove_ok E p0) eqn:Hrm.
      * match goal with |- context [for_each (delete_step E) l ?a ?t] =>
          destruct (IH a t) as (deleted & failed & s' & Hfe & Ht & Hl & Hout & Hmono & Hkeep & Hiff)
        end.
        simpl in *. exists (p0 :: deleted), failed, s'. rewrite Hfe.
        rewrite <- app_assoc. simpl. repeat split; auto.
        -- intros p Hp. apply not_elem_of_cons in Hp as [Hne Hp].
           rewrite (Hout p Hp). apply lookup_delete_ne. congruence.
        -- intros p. destruct (Hmono p) as [H|H]; [auto|].
           destruct (decide (p = p0)) as [->|Hne].
           ++ left. rewrite H. apply lookup_delete_eq.
           ++ right. rewrite H. apply lookup_delete_ne. congruence.
        -- intros p Hp. rewrite (Hkeep p Hp). apply lookup_delete_ne.
           intros <-. congruence.
        -- intros Hf p Hp. apply elem_of_cons in Hp as [->|Hp].
           ++ destruct (Hmono p0) as [H|H]; [auto|]. rewrite H. apply lookup_delete_eq.
           ++ apply Hiff; auto.
        -- intros Hgone. apply Hiff. intros p Hp. apply Hgone. right. exact Hp.
      * match goal with |- context [for_each (delete_step E) l ?a ?t] =>
          destruct (IH a t) as (deleted & failed & s' & Hfe & Ht & Hl & Hout & Hmono & Hkeep & Hiff)
        end.
        simpl in *. exists deleted, (p0 :: failed), s'. rewrite Hfe.
        rewrite <- app_assoc. simpl. repeat split; auto.
        -- intros p Hp. apply not_elem_of_cons in Hp as [Hne Hp]. auto.
        -- discriminate.
        -- intros Hgone. specialize (Hgone p0 ltac:(left)).
           rewrite (Hkeep p0 Hrm), Hp0 in Hgone. discriminate.
    + rewrite bool_decide_eq_false_2 by (intros [? ?]; discriminate).
      destruct (IH acc s) as (deleted & failed & s' & Hfe & Ht & Hl & Hout & Hmono & Hkeep & Hiff).
      exists deleted, failed, s'. rewrite Hfe. repeat split; auto.
      * intros p Hp. apply not_elem_of_cons in Hp as [Hne Hp]. auto.
      * intros Hf p Hp. apply elem_of_cons in Hp as [->|Hp].
        -- destruct (Hmono p0) as [H|H]; [auto|]. rewrite H. exact Hp0.
        -- apply Hiff; auto.
      * intros Hgone. apply Hiff. intros p Hp. apply Hgone. right. exact Hp.
Qed.

End HandOffFacts.

(** ** The handlers always come back *)

Lemma send_command_to_all_empty (E : Env) command timestamp sync_delay s :
  send_command_to_all E ∅ command timestamp sync_delay s = (Ret None, s).
Proof.
  unfold send_command_to_all.
  destruct (decide ((∅ : gmap string Device) = ∅)) as [_|Hne]; [reflexivity|].
  contradiction.
Qed.

Lemma for_each_download (E : Env) devices (l : list (string * string)) :
  forall acc s, exists r s',
    for_each (download_one E devices) l acc s = (Ret r, s').
Proof.
  induction l as [|entry l IH]; intros acc s; simpl; [unfold ret; eauto|].
  unfold bind at 1, download_one at 1.
  destruct (devices !! entry.1) as [device|]; [|unfold ret; apply IH].
  unfold bind at 1.
  destruct (send_command_returns E (ip device) (port device) "GET_VIDEO" None
              (Some entry.2) s) as (v & s1 & ev & -> & _).
  destruct v; unfold ret; try apply IH.
  destruct (String.eqb s0 ""); apply IH.
Qed.

Lemma upload_and_cleanup_not_hang (E : Env) file_paths custom_folder s :
  (upload_and_cleanup E file_paths custom_folder s).1 <> Hang.
Proof.
  unfold upload_and_cleanup, bind at 1, upload_batch.
  destruct file_paths as [|p l].
  - unfold ret at 1. cbn [success uploaded_files]. unfold bind, delete_local_files.
    simpl. discriminate.
  - unfold bind at 1. rewrite for_each_upload. cbn [fst snd app]. unfold ret at 1.
    cbn [success uploaded_files session_folder].
    destruct (length _ =? 0)%nat; [|simpl; discriminate].
    unfold bind at 1, delete_local_files, bind at 1.
    match goal with |- context [for_each (delete_step E) ?l0 ?a ?t] =>
      destruct (for_each_delete E l0 a t) as (deleted & failed & s' & -> & _)
    end.
    simpl. discriminate.
Qed.

(** ** The claims *)

(** C10.  With an empty registry the broadcast dispatches nothing (no
    socket, not even a clock reading: the state is untouched) and returns
    no mapping at all, [None] rather than an empty map, whatever the
    command, the instant and the delay. *)
Theorem broadcast_on_empty_registry_returns_nothing
    (E : Env) (command : string) (timestamp : option float) (sync_delay : float)
    (s : State) :
  send_command_to_all E ∅ command timestamp sync_delay s = (Ret None, s).
Proof.
  unfold send_command_to_all.
  destruct (decide ((∅ : gmap string Device) = ∅)) as [_|Hne].
  - reflexivity.
  - contradiction.
Qed.

(** C9.  A timestamp that is falsy (such as 0, the epoch) is replaced by
    the clock reading in the transmitted envelope, whatever the file
    identifier; and the empty file identifier is left out of the envelope,
    whatever the timestamp. *)
Theorem falsy_timestamp_and_file_id_are_dropped
    (E : Env) (device_ip : string) (device_port : Z) (command : string)
    (t : float) (s : State) :
  float_truthy t = false ->
  (forall file_id, exists v s' ev,
      send_command E device_ip device_port command (Some t) file_id s = (Ret v, s') /\
      net_log s' = ev :: net_log s /\
      env_timestamp (ev_msg ev) = wall_clock E (ticks s)) /\
  (forall timestamp, exists v s' ev,
      send_command E device_ip device_port command timestamp (Some "") s = (Ret v, s') /\
      net_log s' = ev :: net_log s /\
      env_fileId (ev_msg ev) = None).
Proof.
  intros Hfalsy. split.
  - intros file_id.
    destruct (send_command_returns E device_ip device_port command (Some t) file_id s)
      as (v & s' & ev & Hs & Hl & _ & _ & _ & Hm).
    exists v, s', ev. rewrite Hm. simpl. rewrite Hfalsy. auto.
  - intros timestamp.
    destruct (send_command_returns E device_ip device_port command timestamp (Some "") s)
      as (v & s' & ev & Hs & Hl & _ & _ & _ & Hm).
    exists v, s', ev. rewrite Hm. simpl. auto.
Qed.

Lemma falsy_timestamp_and_file_id_are_dropped_witness :
  float_truthy 0%float = false /\
  exists v s' ev,
    send_command (Demo.env Demo.counting_clock (fun _ => Demo.replies []))
                 "10.0.0.1" 8080 "DEVICE_STATUS" (Some 0%float) (Some "") Demo.s0
      = (Ret v, s') /\
    net_log s' = ev :: [] /\
    env_timestamp (ev_msg ev) = Demo.counting_clock 0.
Proof.
  split; [reflexivity|].
  exact (proj1 (falsy_timestamp_and_file_id_are_dropped
                  (Demo.env Demo.counting_clock (fun _ => Demo.replies []))
                  "10.0.0.1" 8080 "DEVICE_STATUS" 0%float Demo.s0 eq_refl)
               (Some "")).
Defined.

(** The instant of a start: zero is the one value the channel takes for
    absent, and an instant after the epoch is not zero. *)
Lemma instant_after_epoch_is_not_zero (t : float) :
  PrimFloat.ltb 0%float t = true -> float_truthy t = true.
Proof.
  unfold float_truthy. rewrite FloatAxioms.ltb_spec, FloatAxioms.eqb_spec.
  change (Prim2SF 0%float) with (SpecFloat.S754_zero false).
  destruct (Prim2SF t) as [sg|sg| |sg m e]; try reflexivity; destruct sg;
    solve [reflexivity | discriminate].
Qed.

(** C1.  For a registry that is not empty, a broadcast of START_RECORDING
    with no explicit instant reads the clock once, before any socket is
    opened, and takes that reading plus [sync_delay] as the instant; it
    opens exactly one socket per device, in the order of the registry,
    and every envelope carries START_RECORDING and that one instant.  The
    instant is taken not to be zero: it is zero only when the clock reads
    exactly the negative of the delay, three seconds before the epoch
    with the default delay, which the clock of a running system does not
    ([instant_after_epoch_is_not_zero]). *)
Theorem synchronized_start_shares_one_instant
    (E : Env) (devices : gmap string Device) (sync_delay : float) (s : State) :
  devices <> ∅ ->
  float_truthy (PrimFloat.add (wall_clock E (ticks s)) sync_delay) = true ->
  exists results s' new,
    send_command_to_all E devices "START_RECORDING" None sync_delay s
      = (Ret (Some results), s') /\
    ticks s' = S (ticks s) /\
    net_log s' = new ++ net_log s /\
    Forall2 (sent_to "START_RECORDING"
                     (PrimFloat.add (wall_clock E (ticks s)) sync_delay))
            (rev new) (map_to_list devices).
Proof.
  intros Hne Htruthy.
  destruct (send_command_to_all_eq E devices "START_RECORDING" None sync_delay s Hne)
    as (t & s1 & results & s' & Hsync & Hfe & Hall).
  unfold sync_instant, bind, time_time, ret in Hsync. simpl in Hsync.
  injection Hsync as <- <-.
  destruct (for_each_send E "START_RECORDING"
              (PrimFloat.add (wall_clock E (ticks s)) sync_delay)
              (map_to_list devices) ∅
              {| ticks := S (ticks s); net_log := net_log s; files := files s |}
              (NoDup_fst_map_to_list devices))
    as (results' & s'' & new & Hfe' & Hl & _ & _ & _ & Htr).
  rewrite Hfe in Hfe'. injection Hfe' as <- <-.
  destruct (Htr Htruthy) as [Ht Hf].
  exists results, s', new. simpl in Hall. auto.
Qed.

Lemma synchronized_start_shares_one_instant_witness :
  exists results s' new,
    send_command_to_all (Demo.env Demo.counting_clock (fun _ => Demo.replies []))
                        Demo.two_cams "START_RECORDING" None 3%float Demo.s0
      = (Ret (Some results), s') /\
    ticks s' = 1%nat /\
    net_log s' = new ++ [] /\
    Forall2 (sent_to "START_RECORDING" 1003%float) (rev new)
            (map_to_list Demo.two_cams).
Proof.
  apply (synchronized_start_shares_one_instant
           (Demo.env Demo.counting_clock (fun _ => Demo.replies []))
           Demo.two_cams 3%float Demo.s0).
  - intros H. apply (f_equal (fun m : gmap string Device => m !! "cam1")) in H.
    vm_compute in H. discriminate.
  - reflexivity.
Defined.

(** The reading the precondition leaves out: with the clock three seconds
    before the epoch at dispatch and a delay of 3.0 the instant is 0.0,
    which [timestamp or time.time()] takes for absent, and each envelope
    carries a clock reading of its own (10.0 and 11.0). *)
Example zero_instant_is_read_as_absent :
  PrimFloat.add (Demo.early_clock 0) 3%float = 0%float /\
  map (fun ev => (ev_ip ev, env_timestamp (ev_msg ev)))
      (net_log (send_command_to_all
                  (Demo.env Demo.early_clock (fun _ => Demo.replies []))
                  Demo.two_cams "START_RECORDING" None 3%float Demo.s0).2)
  = [("10.0.0.2", 11%float); ("10.0.0.1", 10%float)] /\
  PrimFloat.eqb 10%float 11%float = false.
Proof. vm_compute. auto. Qed.




(** ** Reads that fail *)

Lemma weight_app (a b : list Delivery) : (weight a <= weight (a ++ b))%nat.
Proof. induction a as [|[bs| |] a IH]; simpl; lia. Qed.

(** The [LIST_FILES] loop over deliveries of which no accumulated prefix
    decodes: it leaves with the decoder's fault, or it comes to what
    follows them with everything accumulated. *)
Lemma recv_until_json_undecoded (E : Env) (chunks : list (list byte)) :
  forall acc tail fuel,
    Forall (fun c => c <> [] /\ Z.of_nat (length c) <= 8192) chunks ->
    (forall k, (0 < k <= length chunks)%nat ->
               json_loads E (acc ++ concat (take k chunks)) = None) ->
    (length chunks < fuel)%nat ->
    (exists e, (recv_until_json E fuel acc (map Data chunks ++ tail)).1 = Raise e) \/
    (recv_until_json E fuel acc (map Data chunks ++ tail)).1
    = (recv_until_json E (fuel - length chunks) (acc ++ concat chunks) tail).1.
Proof.
  induction chunks as [|c cs IH]; intros acc tail fuel Hall Hnone Hfuel;
    (destruct fuel as [|fuel]; [simpl in Hfuel; lia|]).
  - right. cbn [map app concat length]. rewrite app_nil_r, Nat.sub_0_r. reflexivity.
  - apply Forall_cons in Hall as [[Hc Hlen] Hall].
    cbn [map app recv_until_json recv].
    replace (Z.of_nat (length c) <=? 8192) with true by (symmetry; apply Z.leb_le; lia).
    destruct c as [|b c]; [contradiction|].
    pose proof (Hnone 1%nat ltac:(cbn [length]; lia)) as H1.
    cbn [take concat] in H1. rewrite take_0 in H1. cbn [concat] in H1.
    rewrite app_nil_r in H1. rewrite H1.
    destruct (other_fault E (acc ++ b :: c)); [left; eexists; reflexivity|].
    destruct (IH (acc ++ b :: c) tail fuel) as [Hraise | Heq].
    + exact Hall.
    + intros k Hk. specialize (Hnone (S k) ltac:(cbn [length]; lia)).
      cbn [take concat] in Hnone. rewrite <- app_assoc. exact Hnone.
    + cbn [length] in Hfuel. lia.
    + left. exact Hraise.
    + right. rewrite Heq. cbn [concat length Nat.sub]. rewrite <- app_assoc. reflexivity.
Qed.

(** The download loop over a stream that fails before the declared size
    has come: the fault leaves the loop. *)
Lemma download_loop_fault (fuel : nat) :
  forall pre fault rest size got path s,
    only_data pre -> fault = Reset \/ fault = TimedOut ->
    got + Z.of_nat (length (stream_bytes pre)) < size ->
    (weight pre < fuel)%nat ->
    exists e, (download_loop fuel (NInt size) got path (pre ++ fault :: rest) s).1 = Raise e.
Proof.
  induction fuel as [|fuel IH]; intros pre fault rest size got path s Hdata Hfault Hlt Hw;
    [lia|].
  cbn [download_loop count_lt].
  replace (got <? size) with true by (symmetry; apply Z.ltb_lt; lia).
  unfold bind at 1, lift at 1. cbn [chunk_size].
  destruct pre as [|d pre].
  { cbn [app recv]. destruct Hfault as [-> | ->]; eexists; reflexivity. }
  apply Forall_cons in Hdata as [Hd Hpre].
  destruct d as [[|b bs]| |]; try contradiction.
  cbn [stream_bytes] in Hlt. rewrite length_app in Hlt.
  cbn [app recv].
  destruct (Z.leb_spec (Z.of_nat (length (b :: bs))) (Z.min 8192 (size - got)))
    as [Hfit|Hbig].
  - unfold bind at 1, write at 1.
    apply IH; [exact Hpre | exact Hfault | lia | cbn [weight] in Hw; lia].
  - destruct (Z.to_nat (Z.min 8192 (size - got))) as [|k] eqn:Hk; [lia|].
    cbn [take drop].
    assert (Hklen : (k < length bs)%nat) by (cbn [length] in Hbig; lia).
    destruct (drop k bs) as [|b2 bs2] eqn:Hdrop.
    { apply (f_equal length) in Hdrop. rewrite length_drop in Hdrop. simpl in Hdrop. lia. }
    unfold bind at 1, write at 1.
    apply (IH (Data (b2 :: bs2) :: pre)).
    + constructor; [exact I | exact Hpre].
    + exact Hfault.
    + apply (f_equal length) in Hdrop. rewrite length_drop in Hdrop.
      cbn [stream_bytes]. rewrite length_app.
      cbn [length] in *. rewrite length_take_le by lia. lia.
    + apply (f_equal length) in Hdrop. rewrite length_drop in Hdrop.
      cbn [weight length] in *. lia.
Qed.

(** The same for the loop that reads the metadata block. *)
Lemma read_header_fault (fuel : nat) :
  forall pre fault rest header_size acc,
    only_data pre -> fault = Reset \/ fault = TimedOut ->
    Z.of_nat (length acc) + Z.of_nat (length (stream_bytes pre)) < header_size ->
    (weight pre < fuel)%nat ->
    exists e, (read_header fuel header_size acc (pre ++ fault :: rest)).1 = Raise e.
Proof.
  induction fuel as [|fuel IH]; intros pre fault rest hs acc Hdata Hfault Hlt Hw; [lia|].
  cbn [read_header].
  replace (Z.of_nat (length acc) <? hs) with true by (symmetry; apply Z.ltb_lt; lia).
  destruct pre as [|d pre].
  { cbn [app recv]. destruct Hfault as [-> | ->]; eexists; reflexivity. }
  apply Forall_cons in Hdata as [Hd Hpre].
  destruct d as [[|b bs]| |]; try contradiction.
  cbn [stream_bytes] in Hlt. rewrite length_app in Hlt.
  cbn [app recv].
  destruct (Z.leb_spec (Z.of_nat (length (b :: bs))) (hs - Z.of_nat (length acc)))
    as [Hfit|Hbig].
  - apply IH; [exact Hpre | exact Hfault | | cbn [weight] in Hw; lia].
    rewrite length_app. lia.
  - lia.
Qed.

(** The loop that reads the metadata block, over a stream that has it:
    it takes exactly [header_size] bytes, however they are cut into
    deliveries, and leaves the rest of the stream. *)
Lemma read_header_stream (fuel : nat) :
  forall pre tail header_size acc,
    only_data pre -> (weight pre < fuel)%nat ->
    header_size <= Z.of_nat (length acc) + Z.of_nat (length (stream_bytes pre)) ->
    exists pre',
      read_header fuel header_size acc (pre ++ tail)
      = (Ret (acc ++ take (Z.to_nat (header_size - Z.of_nat (length acc))) (stream_bytes pre)),
         pre' ++ tail) /\
      only_data pre' /\
      stream_bytes pre'
      = drop (Z.to_nat (header_size - Z.of_nat (length acc))) (stream_bytes pre).
Proof.
  induction fuel as [|fuel IH]; intros pre tail hs acc Hdata Hw Hge; [lia|].
  cbn [read_header].
  destruct (Z.ltb_spec (Z.of_nat (length acc)) hs) as [Hlt|Hdone].
  2:{ exists pre. replace (Z.to_nat (hs - Z.of_nat (length acc))) with 0%nat by lia.
      rewrite take_0, drop_0, app_nil_r. auto. }
  destruct pre as [|d pre]; [cbn [stream_bytes length] in Hge; lia|].
  apply Forall_cons in Hdata as [Hd Hpre].
  destruct d as [[|b bs]| |]; try contradiction.
  cbn [stream_bytes] in *. rewrite length_app in Hge.
  cbn [app recv].
  set (N := Z.to_nat (hs - Z.of_nat (length acc))).
  destruct (Z.leb_spec (Z.of_nat (length (b :: bs))) (hs - Z.of_nat (length acc)))
    as [Hfit|Hbig].
  - destruct (IH pre tail hs (acc ++ b :: bs) Hpre ltac:(cbn [weight] in Hw; lia)
                ltac:(rewrite length_app; lia)) as (pre' & Heq & Hdata' & Hstream).
    exists pre'. rewrite Heq. rewrite length_app, Nat2Z.inj_add in *.
    replace (Z.to_nat (hs - (Z.of_nat (length acc) + Z.of_nat (length (b :: bs)))))
      with (N - length (b :: bs))%nat in * by (subst N; lia).
    split; [|split; [exact Hdata'|]].
    + rewrite <- app_assoc. do 3 f_equal. symmetry.
      apply (take_app_ge (b :: bs)). subst N; lia.
    + rewrite Hstream. symmetry. apply (drop_app_ge (b :: bs)). subst N; lia.
  - destruct N as [|k] eqn:HN; [lia|].
    replace (Z.to_nat (hs - Z.of_nat (length acc))) with (S k) by lia.
    cbn [take drop].
    assert (Hklen : (k < length bs)%nat) by (cbn [length] in Hbig; lia).
    destruct (drop k bs) as [|b2 bs2] eqn:Hdrop.
    { apply (f_equal length) in Hdrop. rewrite length_drop in Hdrop. simpl in Hdrop. lia. }
    assert (Hlen : length (acc ++ b :: take k bs) = (length acc + S k)%nat).
    { rewrite length_app. cbn [length]. rewrite length_take_le by lia. reflexivity. }
    destruct fuel as [|fuel]; [cbn [weight length] in Hw; lia|].
    cbn [read_header]. rewrite Hlen.
    replace (Z.of_nat (length acc + S k) <? hs) with false
      by (symmetry; apply Z.ltb_ge; lia).
    exists (Data (b2 :: bs2) :: pre). split; [|split].
    + do 3 f_equal. symmetry.
      exact (take_app_le (b :: bs) (stream_bytes pre) (S k) ltac:(cbn [length]; lia)).
    + constructor; [exact I | exact Hpre].
    + cbn [stream_bytes]. rewrite <- Hdrop. symmetry.
      exact (drop_app_le (b :: bs) (stream_bytes pre) (S k) ltac:(cbn [length]; lia)).
Qed.

(** A transfer whose stream fails inside the metadata block. *)
Lemma handle_file_download_header_fault (E : Env) size4 pre fault rest device_ip s :
  length size4 = 4%nat -> only_data pre -> fault = Reset \/ fault = TimedOut ->
  Z.of_nat (length (stream_bytes pre)) < unpack_be32 size4 ->
  (_handle_file_download E (Data size4 :: pre ++ fault :: rest) device_ip s).1
  = Ret PyFalse.
Proof.
  intros H4 Hdata Hfault Hshort.
  unfold _handle_file_download, try_except. cbn [recv].
  replace (Z.of_nat (length size4) <=? 4) with true by (symmetry; apply Z.leb_le; lia).
  rewrite H4. cbn [Nat.eqb negb]. unfold bind at 1.
  destruct (read_header_fault (S (weight (pre ++ fault :: rest))) pre fault rest
              (unpack_be32 size4) [] Hdata Hfault ltac:(cbn [length]; lia)
              ltac:(pose proof (weight_app pre (fault :: rest)); lia)) as (e & He).
  destruct (read_header _ _ _ _) as [o k]. cbn [fst] in He. subst o. reflexivity.
Qed.

(** A transfer whose metadata block comes, in whatever pieces, and whose
    stream fails before the declared size has come. *)
Lemma handle_file_download_body_fault (E : Env) size4 pre fault rest device_ip s o size :
  length size4 = 4%nat -> only_data pre -> fault = Reset \/ fault = TimedOut ->
  unpack_be32 size4 <= Z.of_nat (length (stream_bytes pre)) ->
  json_loads E (take (Z.to_nat (unpack_be32 size4)) (stream_bytes pre)) = Some (JObj o) ->
  py_lookup "fileSize" o = Some (JInt size) ->
  Z.of_nat (length (stream_bytes pre)) - unpack_be32 size4 < size ->
  (_handle_file_download E (Data size4 :: pre ++ fault :: rest) device_ip s).1
  = Ret PyFalse.
Proof.
  intros H4 Hdata Hfault Hhas Hloads Hfsize Hshort.
  unfold _handle_file_download, try_except. cbn [recv].
  replace (Z.of_nat (length size4) <=? 4) with true by (symmetry; apply Z.leb_le; lia).
  rewrite H4. cbn [Nat.eqb negb]. unfold bind at 1.
  destruct (read_header_stream (S (weight (pre ++ fault :: rest))) pre (fault :: rest)
              (unpack_be32 size4) [] Hdata
              ltac:(pose proof (weight_app pre (fault :: rest)); lia)
              ltac:(cbn [length]; lia)) as (pre' & Heq & Hdata' & Hstream).
  rewrite Heq. cbn [length app] in *. rewrite Z.sub_0_r in *.
  unfold bind at 1, loads at 1. rewrite Hloads. unfold ret at 1.
  unfold bind at 1, lift at 1. cbn [py_getitem].
  destruct (py_lookup "fileName" o) as [fname|]; [|reflexivity].
  unfold bind at 1, lift at 1. rewrite Hfsize.
  unfold bind at 1, lift at 1. cbn [as_size].
  destruct (Z.abs size <? 2 ^ 1034 - 2 ^ 980); [|reflexivity].
  unfold bind at 1. destruct (makedirs_ok E); [|reflexivity]. unfold ret at 1.
  unfold bind at 1, open_wb at 1.
  destruct (can_open E (local_path_for E device_ip fname)); [|reflexivity].
  unfold bind at 1.
  match goal with |- context [download_loop ?f ?sz ?g ?p ?k ?t] =>
    destruct (download_loop_fault f pre' fault rest size 0 p t Hdata' Hfault) as (e & He);
    [ | | destruct (download_loop f sz g p k t) as [r t']; cbn [fst] in He; subst r;
          reflexivity ]
  end.
  - rewrite Hstream, length_drop. lia.
  - pose proof (weight_app pre' (fault :: rest)). lia.
Qed.

(** C7, as amended.  Whatever the address, the port and the envelope, a
    send returns a value: it neither raises past its boundary nor hangs.
    That value is the bare failure marker [False] (the cause is printed,
    the result does not carry it) on a refused connection, on a send that
    fails, and on a read that fails or times out, wherever the read is:
    the single read of a reply, a read of the LIST_FILES loop after
    deliveries that do not decode yet (a failure there, not a timeout),
    the read of the length prefix of a transfer, a read inside its
    metadata block, and a read inside its body.  A read of the
    LIST_FILES loop that times out ends the loop instead: the send
    returns [True] when nothing had come, and [False] when what had come
    does not decode. *)
Theorem send_command_never_raises
    (E : Env) (device_ip : string) (device_port : Z) (command : string)
    (timestamp : option float) (file_id : option string) (s : State) :
  exists v s',
    send_command E device_ip device_port command timestamp file_id s = (Ret v, s') /\
    (refuses E device_ip device_port -> v = PyFalse) /\
    (forall sock,
       (forall msg, peer E (length (net_log s)) device_ip device_port msg
                    = {| accepts := true; takes_send := false; incoming := sock |}) ->
       v = PyFalse) /\
    (forall rest, serves E s device_ip device_port (Reset :: rest) -> v = PyFalse) /\
    (forall rest, serves E s device_ip device_port (TimedOut :: rest) ->
                  command <> "LIST_FILES" -> v = PyFalse) /\
    (forall rest, serves E s device_ip device_port (TimedOut :: rest) ->
                  command = "LIST_FILES" -> v = PyTrue) /\
    (forall chunks fault rest,
       command = "LIST_FILES" ->
       serves E s device_ip device_port (map Data chunks ++ fault :: rest) ->
       fault = Reset \/ fault = TimedOut ->
       chunks <> [] ->
       Forall (fun c => c <> [] /\ Z.of_nat (length c) <= 8192) chunks ->
       (forall k, (0 < k <= length chunks)%nat ->
                  json_loads E (concat (take k chunks)) = None) ->
       v = PyFalse) /\
    (forall size4 pre fault rest,
       command = "GET_VIDEO" ->
       serves E s device_ip device_port (Data size4 :: pre ++ fault :: rest) ->
       fault = Reset \/ fault = TimedOut ->
       length size4 = 4%nat -> only_data pre ->
       Z.of_nat (length (stream_bytes pre)) < unpack_be32 size4 ->
       v = PyFalse) /\
    (forall size4 pre fault rest o size,
       command = "GET_VIDEO" ->
       serves E s device_ip device_port (Data size4 :: pre ++ fault :: rest) ->
       fault = Reset \/ fault = TimedOut ->
       length size4 = 4%nat -> only_data pre ->
       unpack_be32 size4 <= Z.of_nat (length (stream_bytes pre)) ->
       json_loads E (take (Z.to_nat (unpack_be32 size4)) (stream_bytes pre))
       = Some (JObj o) ->
       py_lookup "fileSize" o = Some (JInt size) ->
       Z.of_nat (length (stream_bytes pre)) - unpack_be32 size4 < size ->
       v = PyFalse).
Proof.
  destruct (send_command_returns E device_ip device_port command timestamp file_id s)
    as (v & s' & ev & Hsend & _).
  exists v, s'. split; [exact Hsend|].
  assert (Hv : forall w, (send_command E device_ip device_port command timestamp
                                       file_id s).1 = Ret w -> v = w).
  { intros w Hw. rewrite Hsend in Hw. simpl in Hw. congruence. }
  repeat match goal with |- _ /\ _ => split end.
  - intros Href.
    destruct (send_command_refused E device_ip device_port command timestamp file_id s Href)
      as (s2 & Hf).
    apply Hv. rewrite Hf. reflexivity.
  - intros sock Hpeer. apply Hv.
    unfold send_command, try_except, bind at 1. rewrite build_message_eq.
    unfold bind at 1, connect_and_send. cbn [net_log ticks files].
    rewrite !Hpeer. reflexivity.
  - intros rest Hserves. apply Hv.
    destruct (decide (command = "GET_VIDEO")) as [->|Hcmd].
    + destruct (send_command_get_video E device_ip device_port timestamp file_id s _ Hserves)
        as (s1 & _ & ->).
      reflexivity.
    + rewrite (send_command_served E _ _ _ _ _ _ _ Hserves Hcmd).
      unfold read_reply. destruct (String.eqb command "LIST_FILES"); reflexivity.
  - intros rest Hserves Hlist. apply Hv.
    destruct (decide (command = "GET_VIDEO")) as [->|Hcmd].
    + destruct (send_command_get_video E device_ip device_port timestamp file_id s _ Hserves)
        as (s1 & _ & ->).
      reflexivity.
    + rewrite (send_command_served E _ _ _ _ _ _ _ Hserves Hcmd).
      unfold read_reply. apply String.eqb_neq in Hlist. rewrite Hlist. reflexivity.
  - intros rest Hserves ->. apply Hv.
    rewrite (send_command_served E device_ip device_port "LIST_FILES" timestamp file_id s _
               Hserves ltac:(discriminate)).
    reflexivity.
  - intros chunks fault rest -> Hserves Hfault Hne Hall Hnone. apply Hv.
    rewrite (send_command_served E device_ip device_port "LIST_FILES" timestamp file_id s _
               Hserves ltac:(discriminate)).
    unfold read_reply. cbn [String.eqb Ascii.eqb Bool.eqb].
    pose proof (weight_data_chunks chunks (fault :: rest)) as Hw.
    destruct (recv_until_json_undecoded E chunks [] (fault :: rest)
                (S (weight (map Data chunks ++ fault :: rest))) Hall Hnone ltac:(lia))
      as [(e & ->) | ->]; [reflexivity|].
    destruct (S (weight (map Data chunks ++ fault :: rest)) - length chunks)%nat
      as [|fuel] eqn:Hfuel; [lia|].
    cbn [app recv_until_json].
    destruct Hfault as [-> | ->]; cbn [recv fst]; [reflexivity|].
    unfold interpret_reply.
    pose proof (Hnone (length chunks)
                  ltac:(destruct chunks; [contradiction | cbn [length]; lia])) as Hlast.
    rewrite take_ge in Hlast by lia.
    destruct (concat chunks) as [|b data] eqn:Hcat.
    + destruct chunks as [|c cs]; [contradiction|].
      apply Forall_cons in Hall as [[Hc _] _].
      destruct c; [contradiction | discriminate].
    + unfold bind, loads, raise. rewrite Hlast. reflexivity.
  - intros size4 pre fault rest -> Hserves Hfault H4 Hdata Hshort. apply Hv.
    destruct (send_command_get_video E device_ip device_port timestamp file_id s _ Hserves)
      as (s1 & _ & ->).
    apply handle_file_download_header_fault; assumption.
  - intros size4 pre fault rest o size -> Hserves Hfault H4 Hdata Hhas Hloads Hfsize Hshort.
    apply Hv.
    destruct (send_command_get_video E device_ip device_port timestamp file_id s _ Hserves)
      as (s1 & _ & ->).
    apply (handle_file_download_body_fault E size4 pre fault rest device_ip s1 o size);
      assumption.
Qed.

(** C7 as stated fails on a timeout of LIST_FILES: the peer takes the
    connection and the envelope and stays silent, the read times out, and
    the send returns the success marker [True], not a failure. *)
Lemma send_command_timeout_counterexample :
  (send_command (Demo.env Demo.counting_clock (fun _ => Demo.replies [TimedOut]))
                "10.0.0.1" 8080 "LIST_FILES" None None Demo.s0).1 = Ret PyTrue.
Proof. vm_compute. reflexivity. Qed.

(** C8, as amended.  For STOP_RECORDING, when the reply read from the
    device decodes to an object whose [fileId] is truthy, the send
    returns that identifier alone, whatever else the object holds; when
    the object has no [fileId], or a falsy one, it returns the whole
    object.  A reply that is not an object is returned whole only when it
    is a string in which the text [fileId] does not occur, or an array
    that does not hold the string [fileId]; a string or an array that
    does, and null, a boolean and a number, give the failure marker
    [False]. *)
Theorem stop_recording_surfaces_file_id
    (E : Env) (device_ip : string) (device_port : Z)
    (timestamp : option float) (file_id : option string) (s : State)
    (sock rest : list Delivery) (data : list byte) (reply : json) :
  serves E s device_ip device_port sock ->
  recv 4096 sock = (Ret data, rest) ->
  data <> [] ->
  json_loads E data = Some reply ->
  (forall o f, reply = JObj o -> py_lookup "fileId" o = Some f -> truthy f = true ->
     (send_command E device_ip device_port "STOP_RECORDING" timestamp file_id s).1
     = Ret f) /\
  (forall o, reply = JObj o ->
     (py_lookup "fileId" o = None \/
      exists f, py_lookup "fileId" o = Some f /\ truthy f = false) ->
     (send_command E device_ip device_port "STOP_RECORDING" timestamp file_id s).1
     = Ret (JObj o)) /\
  (forall text, reply = JStr text ->
     (send_command E device_ip device_port "STOP_RECORDING" timestamp file_id s).1
     = Ret (if is_infix "fileId" text then PyFalse else JStr text)) /\
  (forall items, reply = JArr items ->
     (send_command E device_ip device_port "STOP_RECORDING" timestamp file_id s).1
     = Ret (if existsb (is_this_str "fileId") items then PyFalse else JArr items)) /\
  (is_scalar reply = true ->
     (send_command E device_ip device_port "STOP_RECORDING" timestamp file_id s).1
     = Ret PyFalse).
Proof.
  intros Hserves Hrecv Hdata Hloads.
  rewrite (send_command_served E device_ip device_port "STOP_RECORDING" timestamp file_id s _ Hserves ltac:(discriminate)).
  unfold read_reply. cbn [String.eqb Ascii.eqb Bool.eqb]. rewrite Hrecv.
  cbn [fst]. unfold interpret_reply.
  destruct data as [|b data]; [contradiction|].
  unfold bind, loads, lift, ret. rewrite Hloads.
  cbn [String.eqb Ascii.eqb Bool.eqb].
  repeat match goal with |- _ /\ _ => split end.
  - intros o f -> Hf Ht. cbn [py_contains py_getitem]. rewrite Hf.
    rewrite bool_decide_eq_true_2 by eauto. simpl. rewrite Ht. reflexivity.
  - intros o -> [Hnone | (f & Hf & Ht)]; cbn [py_contains py_getitem].
    + rewrite Hnone. rewrite bool_decide_eq_false_2; [reflexivity|].
      intros [? ?]; discriminate.
    + rewrite Hf. rewrite bool_decide_eq_true_2 by eauto. simpl. rewrite Ht.
      reflexivity.
  - intros text ->. cbn [py_contains py_getitem].
    destruct (is_infix "fileId" text); reflexivity.
  - intros items ->. cbn [py_contains py_getitem].
    destruct (existsb (is_this_str "fileId") items); reflexivity.
  - intros Hscalar. destruct reply; try discriminate; reflexivity.
Qed.

Lemma stop_recording_surfaces_file_id_witness :
  (send_command (Demo.env Demo.counting_clock
                          (fun _ => Demo.replies [Data Demo.error_with_file_id]))
                "10.0.0.1" 8080 "STOP_RECORDING" None None Demo.s0).1
  = Ret (JStr "clip").
Proof.
  refine (proj1 (stop_recording_surfaces_file_id
                   (Demo.env Demo.counting_clock
                             (fun _ => Demo.replies [Data Demo.error_with_file_id]))
                   "10.0.0.1" 8080 None None Demo.s0
                   [Data Demo.error_with_file_id] [] Demo.error_with_file_id
                   (JObj [("status", JStr "error"); ("fileId", JStr "clip")])
                   _ _ _ _)
                [("status", JStr "error"); ("fileId", JStr "clip")] (JStr "clip") _ _ _).
  - intros msg. reflexivity.
  - reflexivity.
  - discriminate.
  - reflexivity.
  - reflexivity.
  - reflexivity.
  - reflexivity.
Defined.

(** C8 as stated fails for a reply without a [fileId] that is not an
    object: the device answers STOP_RECORDING with [null], a complete
    structured value with no file identifier in it, and the send returns
    the failure marker, not the reply. *)
Lemma stop_recording_null_reply_counterexample :
  RefJson.decode (RefJson.bytes "null") = Some JNull /\
  (send_command (Demo.env Demo.counting_clock
                          (fun _ => Demo.replies [Data (RefJson.bytes "null")]))
                "10.0.0.1" 8080 "STOP_RECORDING" None None Demo.s0).1
  = Ret PyFalse /\
  Ret (A := json) PyFalse <> Ret JNull.
Proof.
  split; [vm_compute; reflexivity|]. split; [vm_compute; reflexivity | discriminate].
Qed.

(** C4, as amended.  Only LIST_FILES keeps reading.  When a reply comes
    in several deliveries of at most 4096 bytes, such that what has
    accumulated decodes at the last of them and at none before (the
    decoder reporting a decode error each time), LIST_FILES reads exactly
    those deliveries, stops there, and returns the decoded value.  Every
    other command with a structured reply does a single read of at most
    4096 bytes and decodes that alone, so when there are two or more such
    deliveries the reply is not received completely and the send returns
    the failure marker. *)
Theorem list_files_reads_until_reply_parses
    (E : Env) (device_ip : string) (device_port : Z)
    (timestamp : option float) (file_id : option string) (s : State)
    (chunks : list (list byte)) (rest : list Delivery) (v : json) :
  serves E s device_ip device_port (map Data chunks ++ rest) ->
  chunks <> [] ->
  Forall (fun c => c <> [] /\ Z.of_nat (length c) <= 4096) chunks ->
  (forall k, (0 < k < length chunks)%nat ->
             json_loads E (concat (take k chunks)) = None /\
             other_fault E (concat (take k chunks)) = false) ->
  json_loads E (concat chunks) = Some v ->
  read_reply E "LIST_FILES" (map Data chunks ++ rest) = (Ret (concat chunks), rest) /\
  (send_command E device_ip device_port "LIST_FILES" timestamp file_id s).1 = Ret v /\
  (forall command,
     command <> "LIST_FILES" -> command <> "GET_VIDEO" -> (2 <= length chunks)%nat ->
     read_reply E command (map Data chunks ++ rest)
     = recv 4096 (map Data chunks ++ rest) /\
     (send_command E device_ip device_port command timestamp file_id s).1
     = Ret PyFalse).
Proof.
  intros Hserves Hne Hall Hnone Hsome.
  assert (Hread : read_reply E "LIST_FILES" (map Data chunks ++ rest)
                  = (Ret (concat chunks), rest)).
  { unfold read_reply. cbn [String.eqb Ascii.eqb Bool.eqb].
    apply (recv_until_json_chunks E chunks [] rest _ v); auto.
    - eapply Forall_impl; [exact Hall|]. simpl. intros c [? ?]. split; [auto|lia].
    - pose proof (weight_data_chunks chunks rest). lia. }
  split; [exact Hread|].
  destruct chunks as [|c cs]; [contradiction|].
  apply Forall_cons in Hall as [[Hc Hlen] Hall].
  destruct c as [|b c]; [contradiction|].
  split.
  - rewrite (send_command_served E device_ip device_port "LIST_FILES" timestamp file_id s _ Hserves ltac:(discriminate)).
    rewrite Hread. cbn [fst]. unfold interpret_reply.
    remember (concat ((b :: c) :: cs)) as d eqn:Hd.
    destruct d as [|b' d]; [simpl in Hd; discriminate|].
    unfold bind, loads, ret. rewrite Hsome. reflexivity.
  - intros command Hlist Hget Hlen2.
    apply String.eqb_neq in Hlist.
    assert (Hr : read_reply E command (map Data ((b :: c) :: cs) ++ rest)
                 = recv 4096 (map Data ((b :: c) :: cs) ++ rest)).
    { unfold read_reply. rewrite Hlist. reflexivity. }
    split; [exact Hr|].
    rewrite (send_command_served E _ _ _ _ _ _ _ Hserves Hget). rewrite Hr.
    cbn [map app recv].
    replace (Z.of_nat (length (b :: c)) <=? 4096) with true
      by (symmetry; apply Z.leb_le; lia).
    cbn [fst]. unfold interpret_reply, bind, loads, raise.
    pose proof (Hnone 1%nat ltac:(simpl in *; lia)) as [H1 _].
    simpl in H1. rewrite app_nil_r in H1. rewrite H1. reflexivity.
Qed.

Lemma list_files_reads_until_reply_parses_witness :
  read_reply (Demo.env Demo.counting_clock
                       (fun _ => Demo.replies (map Data Demo.split_chunks)))
             "LIST_FILES" (map Data Demo.split_chunks ++ [])
  = (Ret (concat Demo.split_chunks), []) /\
  (send_command (Demo.env Demo.counting_clock
                          (fun _ => Demo.replies (map Data Demo.split_chunks)))
                "10.0.0.1" 8080 "LIST_FILES" None None Demo.s0).1
  = Ret (JObj [("fileId", JStr "clip")]).
Proof.
  destruct (list_files_reads_until_reply_parses
              (Demo.env Demo.counting_clock
                        (fun _ => Demo.replies (map Data Demo.split_chunks)))
              "10.0.0.1" 8080 None None Demo.s0 Demo.split_chunks []
              (JObj [("fileId", JStr "clip")])) as (H1 & H2 & _).
  - intros msg. reflexivity.
  - discriminate.
  - repeat constructor; try discriminate; vm_compute; discriminate.
  - intros k Hk. assert (k = 1%nat) as -> by (simpl in Hk; lia).
    split; reflexivity.
  - reflexivity.
  - split; [exact H1 | exact H2].
Defined.

(** C4 as stated fails for STOP_RECORDING: the reply [{"fileId":"clip"}]
    delivered as [{"fileId":] and ["clip"}] decodes as a whole, yet the
    channel reads the first delivery only and returns the failure
    marker. *)
Lemma split_reply_counterexample :
  RefJson.decode (concat Demo.split_chunks) = Some (JObj [("fileId", JStr "clip")]) /\
  (send_command (Demo.env Demo.counting_clock
                          (fun _ => Demo.replies (map Data Demo.split_chunks)))
                "10.0.0.1" 8080 "STOP_RECORDING" None None Demo.s0).1
  = Ret PyFalse.
Proof. split; vm_compute; reflexivity. Qed.

(** C2: what the code does where the claim asks for a failure.  When the
    metadata block is read and decoded and the stream then ends before
    the declared [fileSize] bytes have come, the reader does leave the
    partial file on disk, but it returns the local path, its success
    value, and not the failure marker. *)
Theorem truncated_download_reported_as_success
    (E : Env) (device_ip : string) (device_port : Z)
    (timestamp : option float) (file_id : option string) (s : State)
    (size4 header : list byte) (chunks : list (list byte))
    (o : list (string * json)) (name : string) (size : Z) :
  serves E s device_ip device_port (Data size4 :: Data header :: map Data chunks) ->
  length size4 = 4%nat ->
  unpack_be32 size4 = Z.of_nat (length header) ->
  header <> [] ->
  json_loads E header = Some (JObj o) ->
  py_lookup "fileName" o = Some (JStr name) ->
  py_lookup "fileSize" o = Some (JInt size) ->
  Z.abs size < 2 ^ 1034 - 2 ^ 980 ->
  makedirs_ok E = true ->
  can_open E (local_path_for E device_ip (JStr name)) = true ->
  Forall (fun c => c <> [] /\ Z.of_nat (length c) <= 8192) chunks ->
  Z.of_nat (length (concat chunks)) < size ->
  exists s',
    send_command E device_ip device_port "GET_VIDEO" timestamp file_id s
    = (Ret (JStr (local_path_for E device_ip (JStr name))), s') /\
    files s' !! local_path_for E device_ip (JStr name) = Some (concat chunks).
Proof.
  intros Hserves H4 Hsize Hheader Hloads Hname Hfsize Hbound Hmk Hopen Hall Hshort.
  destruct (send_command_get_video E device_ip device_port timestamp file_id s _ Hserves)
    as (s1 & _ & ->).
  unfold _handle_file_download, try_except. cbn [recv].
  replace (Z.of_nat (length size4) <=? 4) with true by (symmetry; apply Z.leb_le; lia).
  rewrite H4. cbn [Nat.eqb negb].
  unfold bind at 1. rewrite Hsize, (read_header_exact header _ Hheader).
  unfold bind, loads, lift, ret, open_wb. rewrite Hloads.
  cbn [py_getitem]. rewrite Hname, Hfsize. cbn [as_size].
  replace (Z.abs size <? 2 ^ 1034 - 2 ^ 980) with true by (symmetry; apply Z.ltb_lt; lia).
  rewrite Hmk, Hopen.
  rewrite (download_loop_chunks chunks _ size 0 _ _ []).
  - cbn [files]. eexists. split; [reflexivity|].
    cbn [files]. rewrite insert_insert_eq, lookup_insert_eq. reflexivity.
  - exact Hall.
  - lia.
  - pose proof (weight_data_chunks chunks []). rewrite app_nil_r in H. lia.
  - cbn [files]. apply lookup_insert_eq.
Qed.

Lemma truncated_download_reported_as_success_witness :
  exists s',
    send_command (Demo.env Demo.counting_clock
                           (fun _ => Demo.replies Demo.truncated_transfer))
                 "10.0.0.1" 8080 "GET_VIDEO" None (Some "clip") Demo.s0
    = (Ret (JStr "/home/user/Downloads/multiCam/10_0_0_1_a.mov"), s') /\
    files s' !! "/home/user/Downloads/multiCam/10_0_0_1_a.mov" = Some Demo.half_file.
Proof.
  destruct (truncated_download_reported_as_success
              (Demo.env Demo.counting_clock
                        (fun _ => Demo.replies Demo.truncated_transfer))
              "10.0.0.1" 8080 None (Some "clip") Demo.s0
              ["000"; "000"; "000"; "$"]%byte Demo.header_block [Demo.half_file]
              [("fileName", JStr "a.mov"); ("fileSize", JInt 1000)] "a.mov" 1000)
    as (s' & Hsend & Hfile).
  - intros msg. reflexivity.
  - reflexivity.
  - reflexivity.
  - discriminate.
  - reflexivity.
  - reflexivity.
  - reflexivity.
  - reflexivity.
  - reflexivity.
  - reflexivity.
  - repeat constructor; [discriminate | vm_compute; discriminate].
  - reflexivity.
  - exists s'. split; [exact Hsend|].
    exact Hfile.
Defined.

(** C6.  The upload-and-cleanup step and the message made of its report.
    If any file of the batch fails to upload, the step reports upload
    failure and leaves the state as it was: no local file is deleted, and
    the session message is the upload-failure one.  If every file of a
    batch that is not empty uploads, the step reports upload success,
    touches no path outside the batch, and reports cleanup success exactly
    when every path of the batch is gone afterwards; the session message
    is then full success, or partial success when cleanup was not
    complete.  And the stop-and-retrieve sequence, once STOP_RECORDING
    gave identifiers, reports download failure when no file was
    retrieved, and otherwise the message made of the report of the upload
    step. *)
Theorem upload_and_cleanup_tiers
    (E : Env) (file_paths : list string) (custom_folder : option string) (s : State) :
  ((exists p, p ∈ file_paths /\
              uploads E (default (generated_folder E) (str_truthy custom_folder)) s p
              = false) ->
   exists r,
     upload_and_cleanup E file_paths custom_folder s = (Ret r, s) /\
     upload_success r = false /\ cleanup_success r = false /\
     exists n, (0 < n)%nat /\
               session_message file_paths r = UploadFailedKept (length file_paths) n) /\
  (file_paths <> [] ->
   (forall p, p ∈ file_paths ->
              uploads E (default (generated_folder E) (str_truthy custom_folder)) s p
              = true) ->
   exists r s',
     upload_and_cleanup E file_paths custom_folder s = (Ret r, s') /\
     upload_success r = true /\ uploaded_count r = length file_paths /\
     ticks s' = ticks s /\ net_log s' = net_log s /\
     (forall p, p ∉ file_paths -> files s' !! p = files s !! p) /\
     (cleanup_success r = true <-> forall p, p ∈ file_paths -> files s' !! p = None) /\
     session_message file_paths r
     = (if cleanup_success r
        then CompleteCleaned (length file_paths)
                             (Some (default (generated_folder E) (str_truthy custom_folder)))
        else CompleteFilesRemain (length file_paths)
                             (Some (default (generated_folder E) (str_truthy custom_folder))))) /\
  (forall a s0 ids s1 paths s2,
     recording_in_progress a = true ->
     send_command_to_all E (discovered_devices a) "STOP_RECORDING" None 3%float s0
     = (Ret (Some ids), s1) ->
     ids <> ∅ ->
     download_all_files E (discovered_devices a) (omap str_of ids) s1 = (Ret paths, s2) ->
     (paths = [] ->
      stop_recording E a s0
      = (Ret (DownloadFailed (size (discovered_devices a)) (size ids), Ready,
              set_recording false a), s2)) /\
     (paths <> [] -> forall r s3,
      upload_and_cleanup E paths None s2 = (Ret r, s3) ->
      stop_recording E a s0
      = (Ret (session_message paths r, Ready, set_recording false a), s3))).
Proof.
  set (folder := default (generated_folder E) (str_truthy custom_folder)).
  split; [|split].
  3:{ intros a s0 ids s1 paths s2 Hflag Hstop Hids Hdl.
      assert (Hsteps : stop_recording E a s0
                = match paths with
                  | [] => (Ret (DownloadFailed (size (discovered_devices a)) (size ids),
                                Ready, set_recording false a), s2)
                  | _ =>
                      match upload_and_cleanup E paths None s2 with
                      | (Ret r, s3) =>
                          (Ret (session_message paths r, Ready, set_recording false a), s3)
                      | (Raise _, s3) =>
                          (Ret (ErrorStopping, Ready, set_recording false a), s3)
                      | (Hang, s3) => (Hang, s3)
                      end
                  end).
      { unfold stop_recording, try_except. rewrite Hflag. cbn [negb].
        unfold bind at 1. rewrite Hstop. unfold results_truthy.
        rewrite bool_decide_eq_false_2 by exact Hids. cbn [negb].
        change (default ∅ (Some ids)) with ids.
        unfold bind at 1. rewrite Hdl.
        destruct paths as [|p paths]; [reflexivity|].
        unfold bind.
        destruct (upload_and_cleanup E (p :: paths) None s2) as [[r|e|] s3]; reflexivity. }
      rewrite Hsteps. split.
      - intros ->. reflexivity.
      - intros Hne r s3 Hup. destruct paths as [|p paths]; [contradiction|].
        rewrite Hup. reflexivity. }
  - intros (p & Hin & Hfail).
    pose proof (filter_some_fails (uploads E folder s) file_paths p Hin Hfail) as Hne.
    destruct file_paths as [|p0 l]; [inversion Hin|].
    unfold upload_and_cleanup, bind at 1, upload_batch, bind at 1.
    fold folder. rewrite for_each_upload. cbn [fst snd app ret].
    remember (List.filter (fun q => negb (uploads E folder s q)) (p0 :: l)) as failed.
    destruct failed as [|f failed]; [contradiction|].
    cbn [success length Nat.eqb]. unfold ret. eexists. split; [reflexivity|].
    unfold session_message. simpl. repeat split; auto.
    eexists. split; [|reflexivity]. lia.
  - intros Hne Hall.
    destruct (filter_all (uploads E folder s) file_paths Hall) as [Hup Hfailed].
    destruct file_paths as [|p0 l]; [contradiction|].
    unfold upload_and_cleanup, bind at 1, upload_batch, bind at 1.
    fold folder. rewrite for_each_upload. cbn [fst snd app ret].
    rewrite Hup, Hfailed. unfold ret at 1.
    cbn [success length Nat.eqb uploaded_files]. unfold bind at 1, delete_local_files, bind at 1.
    destruct (for_each_delete E (p0 :: l) ([], []) s)
      as (deleted & failed & s' & Hfe & Ht & Hl & Hout & _ & _ & Hiff).
    rewrite Hfe. cbn [fst snd app ret session_folder].
    unfold ret. eexists _, s'. split; [reflexivity|].
    cbn [upload_success uploaded_count cleanup_success del_success uploaded_files].
    repeat split; auto.
    + intros Hlen. apply Hiff. destruct failed; [reflexivity | discriminate].
    + intros Hgone. apply Hiff in Hgone. subst failed. reflexivity.
Qed.

(** Three instances: [/tmp/b.mov] is refused by the bucket and nothing is
    deleted; [/tmp/locked.mov] uploads but cannot be removed; and a whole
    session, from STOP_RECORDING through retrieval and upload to the
    removal of the local copy. *)
Example stop_retrieve_upload_and_clean :
  exists s',
    stop_recording Demo.session_env Demo.recording_app Demo.s0
    = (Ret (CompleteCleaned 1 (Some "2025-01-01/12-00-00/"), Ready,
            set_recording false Demo.recording_app), s') /\
    length (net_log s') = 2%nat /\
    files s' !! "/home/user/Downloads/multiCam/10_0_0_1_a.mov" = None.
Proof. eexists. split; [vm_compute; reflexivity|]. split; reflexivity. Qed.

Example upload_failure_keeps_local_copies :
  let s := {| ticks := 0; net_log := [];
              files := <["/tmp/a.mov" := []]> (<["/tmp/b.mov" := []]> ∅) |} in
  exists r,
    upload_and_cleanup (Demo.env Demo.counting_clock (fun _ => Demo.closed_port))
                       ["/tmp/a.mov"; "/tmp/b.mov"] None s = (Ret r, s) /\
    session_message ["/tmp/a.mov"; "/tmp/b.mov"] r = UploadFailedKept 2 1.
Proof. eexists. split; vm_compute; reflexivity. Qed.

Example cleanup_failure_is_partial_success :
  let s := {| ticks := 0; net_log := [];
              files := <["/tmp/a.mov" := []]> (<["/tmp/locked.mov" := []]> ∅) |} in
  exists r s',
    upload_and_cleanup (Demo.env Demo.counting_clock (fun _ => Demo.closed_port))
                       ["/tmp/a.mov"; "/tmp/locked.mov"] None s = (Ret r, s') /\
    files s' !! "/tmp/a.mov" = None /\
    files s' !! "/tmp/locked.mov" = Some [] /\
    session_message ["/tmp/a.mov"; "/tmp/locked.mov"] r
    = CompleteFilesRemain 2 (Some "2025-01-01/12-00-00/").
Proof. eexists _, _. split; [vm_compute; reflexivity|]. repeat split. Qed.

(** C5, as amended.  [stop] while idle is rejected as a wrong state, and
    [start] while recording is rejected, both before any network activity
    (the state, with its log of sockets, is unchanged).  [stop] is
    accepted exactly when the flag is set, and always clears it.  The flag
    is not the only guard of [start]: it is accepted exactly when the flag
    is clear and the registry is not empty, and then opens one socket per
    device and sets the flag; with an empty registry it is rejected for
    lack of devices, whatever the flag. *)
Theorem session_state_guards (E : Env) (a : App) (s : State) :
  (recording_in_progress a = false ->
     stop_recording E a s = (Ret (NoRecordingInProgress, Ready, a), s)) /\
  (recording_in_progress a = true ->
     exists m s',
       stop_recording E a s = (Ret (m, Ready, set_recording false a), s') /\
       m <> NoRecordingInProgress) /\
  (recording_in_progress a = true -> discovered_devices a <> ∅ ->
     start_recording E a s = (Ret (AlreadyInProgress, Recording, a), s)) /\
  (discovered_devices a = ∅ ->
     start_recording E a s = (Ret (NoDevicesAvailable, Ready, a), s)) /\
  (recording_in_progress a = false -> discovered_devices a <> ∅ ->
     exists s',
       start_recording E a s
       = (Ret (Started (size (discovered_devices a)), Recording, set_recording true a),
          s') /\
       length (net_log s')
       = (length (net_log s) + size (discovered_devices a))%nat).
Proof.
  repeat split.
  - intros Hflag. unfold stop_recording, try_except. rewrite Hflag. reflexivity.
  - intros Hflag. unfold stop_recording, try_except. rewrite Hflag. cbn [negb].
    assert (exists r s1, send_command_to_all E (discovered_devices a) "STOP_RECORDING"
                                             None 3%float s = (Ret r, s1))
      as (r & s1 & Hall).
    { destruct (decide (discovered_devices a = ∅)) as [->|Hne].
      - rewrite send_command_to_all_empty. eauto.
      - destruct (send_command_to_all_results E _ "STOP_RECORDING" None 3%float s Hne)
          as (results & s' & -> & _). eauto. }
    unfold bind at 1. rewrite Hall.
    destruct (results_truthy r); [|unfold ret; eexists _, _; split; [reflexivity|discriminate]].
    unfold bind at 1.
    destruct (for_each_download E (discovered_devices a)
                (map_to_list (omap str_of (default ∅ r))) [] s1)
      as (files & s2 & Hdl).
    unfold download_all_files. rewrite Hdl.
    destruct files as [|f files];
      [unfold ret; eexists _, _; split; [reflexivity|discriminate]|].
    unfold bind.
    pose proof (upload_and_cleanup_not_hang E (f :: files) None s2) as Hh.
    destruct (upload_and_cleanup E (f :: files) None s2) as [[rep|e|] s3];
      [| | simpl in Hh; contradiction].
    + unfold ret. eexists _, _. split; [reflexivity|].
      unfold session_message.
      destruct (upload_success rep); [destruct (cleanup_success rep)|]; discriminate.
    + unfold ret. eexists _, _. split; [reflexivity|discriminate].
  - intros Hflag Hne. unfold start_recording, try_except.
    destruct (decide (discovered_devices a = ∅)); [contradiction|].
    rewrite Hflag. reflexivity.
  - intros Hempty. unfold start_recording, try_except.
    destruct (decide (discovered_devices a = ∅)); [reflexivity|contradiction].
  - intros Hflag Hne. unfold start_recording, try_except.
    destruct (decide (discovered_devices a = ∅)); [contradiction|].
    rewrite Hflag.
    destruct (send_command_to_all_results E _ "START_RECORDING" None 3%float s Hne)
      as (results & s' & Hall & Hdom & _ & Hlen).
    cbn [String.eqb Ascii.eqb Bool.eqb] in Hall.
    unfold bind. rewrite Hall. unfold results_truthy.
    rewrite bool_decide_eq_false_2.
    + unfold ret. cbn [negb]. eexists. split; [reflexivity | exact Hlen].
    + intros ->. rewrite dom_empty_L in Hdom. symmetry in Hdom.
      apply dom_empty_iff_L in Hdom. contradiction.
Qed.

(** C5 as stated fails where it makes the flag the only guard of [start]:
    with the flag clear and the registry empty, [start] is rejected, for
    lack of devices, and nothing is sent. *)
Lemma start_with_empty_registry_counterexample :
  start_recording (Demo.env Demo.counting_clock (fun _ => Demo.replies []))
                  {| discovered_devices := ∅; recording_in_progress := false |}
                  Demo.s0
  = (Ret (NoDevicesAvailable, Ready,
          {| discovered_devices := ∅; recording_in_progress := false |}),
     Demo.s0).
Proof. vm_compute. reflexivity. Qed.

(** * Further properties of the code *)

(** ** Command Channel *)

Lemma send_command_frame (E : Env) device_ip device_port command timestamp file_id s :
  command <> "GET_VIDEO" ->
  files (send_command E device_ip device_port command timestamp file_id s).2 = files s.
Proof.
  intros Hcmd. apply String.eqb_neq in Hcmd.
  unfold send_command, try_except, bind at 1. rewrite build_message_eq.
  unfold bind at 1, connect_and_send. cbn [net_log ticks files].
  set (msg := {| env_command := command |}).
  set (sc := peer E (length (net_log s)) device_ip device_port msg).
  destruct (accepts sc); [|reflexivity].
  destruct (takes_send sc); [|reflexivity].
  rewrite Hcmd. unfold bind, lift.
  destruct (read_reply E command (incoming sc)) as [[data|e|] k];
    cbn beta iota delta [fst]; try reflexivity.
  match goal with |- context [interpret_reply E command data ?t] =>
    destruct (interpret_reply_not_hang E command data t) as [_ Hs];
    destruct (interpret_reply E command data t) as [[v|e|] s']
  end; simpl in *; subst; reflexivity.
Qed.

(** X1.  Every send opens exactly one socket, to the address and port it
    was given, with the command and the originator "controller" in the
    envelope; it reads the clock at most once; and unless the command is
    GET_VIDEO it writes no file. *)
Theorem send_command_opens_one_socket
    (E : Env) (device_ip : string) (device_port : Z) (command : string)
    (timestamp : option float) (file_id : option string) (s : State) :
  exists v s' ev,
    send_command E device_ip device_port command timestamp file_id s = (Ret v, s') /\
    net_log s' = ev :: net_log s /\
    ev_ip ev = device_ip /\ ev_port ev = device_port /\
    env_command (ev_msg ev) = command /\
    env_deviceId (ev_msg ev) = "controller" /\
    (ticks s' = ticks s \/ ticks s' = S (ticks s)) /\
    (command <> "GET_VIDEO" -> files s' = files s).
Proof.
  destruct (send_command_returns E device_ip device_port command timestamp file_id s)
    as (v & s' & ev & Hsend & Hlog & Hticks & Hip & Hport & Hmsg).
  exists v, s', ev. rewrite Hmsg. repeat split; auto.
  - rewrite Hticks. unfold stamp_ticks.
    destruct timestamp as [t|]; [destruct (float_truthy t)|]; auto.
  - intros Hcmd.
    pose proof (send_command_frame E device_ip device_port command timestamp file_id s Hcmd)
      as Hf.
    rewrite Hsend in Hf. exact Hf.
Qed.

(** X2.  A peer that takes the connection and the envelope and then
    closes without sending anything makes the send return [True], the
    success marker, for every command but GET_VIDEO. *)
Theorem closed_without_reply_is_success
    (E : Env) (device_ip : string) (device_port : Z) (command : string)
    (timestamp : option float) (file_id : option string) (s : State) :
  serves E s device_ip device_port [] ->
  command <> "GET_VIDEO" ->
  (send_command E device_ip device_port command timestamp file_id s).1 = Ret PyTrue.
Proof.
  intros Hserves Hcmd.
  rewrite (send_command_served E _ _ _ _ _ _ _ Hserves Hcmd).
  unfold read_reply. destruct (String.eqb command "LIST_FILES"); reflexivity.
Qed.

Lemma closed_without_reply_is_success_witness :
  (send_command (Demo.env Demo.counting_clock (fun _ => Demo.replies []))
                "10.0.0.1" 8080 "START_RECORDING" None None Demo.s0).1 = Ret PyTrue.
Proof.
  apply (closed_without_reply_is_success
           (Demo.env Demo.counting_clock (fun _ => Demo.replies []))
           "10.0.0.1" 8080 "START_RECORDING" None None Demo.s0).
  - intros msg. reflexivity.
  - discriminate.
Defined.

(** X3.  For a command that is none of STOP_RECORDING, LIST_FILES and
    GET_VIDEO, the send returns what the single read of at most 4096
    bytes decodes to, unchanged (a [fileId] in it is not singled out), and
    the failure marker when those bytes do not decode. *)
Theorem plain_reply_is_returned_as_decoded
    (E : Env) (device_ip : string) (device_port : Z) (command : string)
    (timestamp : option float) (file_id : option string) (s : State)
    (sock rest : list Delivery) (data : list byte) :
  serves E s device_ip device_port sock ->
  command <> "STOP_RECORDING" -> command <> "LIST_FILES" -> command <> "GET_VIDEO" ->
  recv 4096 sock = (Ret data, rest) ->
  data <> [] ->
  (send_command E device_ip device_port command timestamp file_id s).1
  = Ret (default PyFalse (json_loads E data)).
Proof.
  intros Hserves Hstop Hlist Hget Hrecv Hdata.
  rewrite (send_command_served E _ _ _ _ _ _ _ Hserves Hget).
  apply String.eqb_neq in Hstop, Hlist.
  unfold read_reply. rewrite Hlist, Hrecv. cbn [fst]. unfold interpret_reply.
  destruct data as [|b data]; [contradiction|].
  unfold bind, loads, ret, raise. rewrite Hstop.
  destruct (json_loads E (b :: data)); reflexivity.
Qed.

Lemma plain_reply_is_returned_as_decoded_witness :
  (send_command (Demo.env Demo.counting_clock
                          (fun _ => Demo.replies [Data Demo.error_with_file_id]))
                "10.0.0.1" 8080 "DEVICE_STATUS" None None Demo.s0).1
  = Ret (JObj [("status", JStr "error"); ("fileId", JStr "clip")]).
Proof.
  apply (plain_reply_is_returned_as_decoded
           (Demo.env Demo.counting_clock
                     (fun _ => Demo.replies [Data Demo.error_with_file_id]))
           "10.0.0.1" 8080 "DEVICE_STATUS" None None Demo.s0
           [Data Demo.error_with_file_id] [] Demo.error_with_file_id).
  - intros msg. reflexivity.
  - discriminate.
  - discriminate.
  - discriminate.
  - reflexivity.
  - discriminate.
Defined.

(** X4.  For STOP_RECORDING, a reply that decodes to [null], a boolean or
    a number makes the send return the failure marker: the test for a
    [fileId] in it faults, and the reply itself is not returned. *)
Theorem stop_recording_scalar_reply_fails
    (E : Env) (device_ip : string) (device_port : Z)
    (timestamp : option float) (file_id : option string) (s : State)
    (sock rest : list Delivery) (data : list byte) (v : json) :
  serves E s device_ip device_port sock ->
  recv 4096 sock = (Ret data, rest) ->
  data <> [] ->
  json_loads E data = Some v ->
  is_scalar v = true ->
  (send_command E device_ip device_port "STOP_RECORDING" timestamp file_id s).1
  = Ret PyFalse.
Proof.
  intros Hserves Hrecv Hdata Hloads Hscalar.
  rewrite (send_command_served E device_ip device_port "STOP_RECORDING" timestamp
             file_id s _ Hserves ltac:(discriminate)).
  unfold read_reply. cbn [String.eqb Ascii.eqb Bool.eqb]. rewrite Hrecv.
  cbn [fst]. unfold interpret_reply.
  destruct data as [|b data]; [contradiction|].
  unfold bind, loads, lift, ret. rewrite Hloads.
  cbn [String.eqb Ascii.eqb Bool.eqb].
  destruct v; try discriminate; reflexivity.
Qed.

Lemma stop_recording_scalar_reply_fails_witness :
  (send_command (Demo.env Demo.counting_clock
                          (fun _ => Demo.replies [Data (RefJson.bytes "null")]))
                "10.0.0.1" 8080 "STOP_RECORDING" None None Demo.s0).1
  = Ret PyFalse.
Proof.
  apply (stop_recording_scalar_reply_fails
           (Demo.env Demo.counting_clock
                     (fun _ => Demo.replies [Data (RefJson.bytes "null")]))
           "10.0.0.1" 8080 None None Demo.s0
           [Data (RefJson.bytes "null")] [] (RefJson.bytes "null") JNull).
  - intros msg. reflexivity.
  - reflexivity.
  - discriminate.
  - reflexivity.
  - reflexivity.
Defined.

(** ** File Transfer Reader *)

Lemma set_files_same (s : State) : set_files s (files s) = s.
Proof. destruct s; reflexivity. Qed.

(** The download loop over a stream that only has data: it writes the
    first [file_size - bytes_received] bytes of the stream, or all of it
    when it is shorter, however the stream is cut into deliveries. *)
Lemma download_loop_prefix (fuel : nat) :
  forall sock size got path s content,
    only_data sock -> (weight sock < fuel)%nat ->
    files s !! path = Some content ->
    download_loop fuel (NInt size) got path sock s
    = (Ret (got + Z.of_nat (length (take (Z.to_nat (size - got)) (stream_bytes sock)))),
       set_files s (<[path := content ++ take (Z.to_nat (size - got)) (stream_bytes sock)]>
                      (files s))).
Proof.
  induction fuel as [|fuel IH]; intros sock size got path s content Hdata Hw Hfile; [lia|].
  cbn [download_loop count_lt].
  destruct (Z.ltb_spec got size) as [Hlt|Hge].
  2:{ replace (Z.to_nat (size - got)) with 0%nat by lia.
      rewrite take_0, app_nil_r. cbn [length]. rewrite Z.add_0_r.
      unfold ret. rewrite insert_id by exact Hfile. rewrite set_files_same. reflexivity. }
  unfold bind at 1, lift at 1. cbn [chunk_size].
  destruct sock as [|d rest].
  { cbn [recv stream_bytes]. rewrite take_nil, app_nil_r. cbn [length].
    rewrite Z.add_0_r. unfold ret. rewrite insert_id by exact Hfile.
    rewrite set_files_same. reflexivity. }
  apply Forall_cons in Hdata as [Hd Hrest].
  destruct d as [[|b bs]| |]; try contradiction.
  cbn [recv stream_bytes].
  set (N := Z.to_nat (size - got)).
  destruct (Z.leb_spec (Z.of_nat (length (b :: bs))) (Z.min 8192 (size - got)))
    as [Hfit|Hbig].
  - unfold bind at 1, write at 1. rewrite Hfile. cbn [default from_option id].
    rewrite (IH rest size _ path _ (content ++ b :: bs)).
    + cbn [ticks net_log files set_files].
      rewrite insert_insert_eq.
      assert (Htake : take N ((b :: bs) ++ stream_bytes rest)
                      = (b :: bs) ++ take (Z.to_nat (size - (got + Z.of_nat (length (b :: bs)))))
                                          (stream_bytes rest)).
      { rewrite take_app_ge by (subst N; lia). f_equal. f_equal. subst N. lia. }
      rewrite Htake, length_app, <- app_assoc, Nat2Z.inj_add, Z.add_assoc. reflexivity.
    + exact Hrest.
    + cbn [weight] in Hw. lia.
    + cbn [files]. apply lookup_insert_eq.
  - destruct (Z.to_nat (Z.min 8192 (size - got))) as [|k] eqn:Hk; [lia|].
    cbn [take drop].
    assert (Hklen : (k < length bs)%nat) by (cbn [length] in Hbig; lia).
    destruct (drop k bs) as [|b2 bs2] eqn:Hdrop.
    { apply (f_equal length) in Hdrop. rewrite length_drop in Hdrop. simpl in Hdrop. lia. }
    unfold bind at 1, write at 1. rewrite Hfile. cbn [default from_option id].
    rewrite (IH (Data (b2 :: bs2) :: rest) size _ path _ (content ++ b :: take k bs)).
    + cbn [ticks net_log files set_files stream_bytes].
      rewrite insert_insert_eq.
      assert (Htake : take N ((b :: bs) ++ stream_bytes rest)
                      = (b :: take k bs)
                        ++ take (Z.to_nat (size - (got + Z.of_nat (length (b :: take k bs)))))
                                ((b2 :: bs2) ++ stream_bytes rest)).
      { rewrite <- Hdrop.
        assert (Hlen : length (b :: take k bs) = S k)
          by (cbn [length]; rewrite length_take_le by lia; reflexivity).
        rewrite Hlen.
        replace N with (S k + Z.to_nat (size - (got + Z.of_nat (S k))))%nat
          by (subst N; lia).
        rewrite <- take_take_drop. f_equal.
        - change (b :: take k bs) with (take (S k) (b :: bs)).
          apply take_app_le. cbn [length]. lia.
        - f_equal. change (drop k bs) with (drop (S k) (b :: bs)).
          apply drop_app_le. cbn [length]. lia. }
      rewrite Htake, length_app, <- app_assoc, Nat2Z.inj_add, Z.add_assoc. reflexivity.
    + constructor; [exact I | exact Hrest].
    + apply (f_equal length) in Hdrop. rewrite length_drop in Hdrop.
      cbn [weight length] in *. lia.
    + cbn [files]. apply lookup_insert_eq.
Qed.

Ltac read_exact_header H4 Hsize Hheader :=
  unfold _handle_file_download, try_except; cbn [recv];
  match goal with
  | |- context [Z.of_nat (length ?x) <=? 4] =>
      replace (Z.of_nat (length x) <=? 4) with true by (symmetry; apply Z.leb_le; lia)
  end;
  rewrite H4; cbn [Nat.eqb negb];
  unfold bind at 1; rewrite Hsize, (read_header_exact _ _ Hheader).

(** X5.  A retrieval whose metadata block is read and decoded writes to
    the local file exactly the first [fileSize] bytes of the stream that
    follows, or the whole stream when it is shorter, however the peer cuts
    the stream into deliveries; it never writes more than the declared
    size, and it returns the local path. *)
Theorem download_writes_stream_prefix
    (E : Env) (device_ip : string) (device_port : Z)
    (timestamp : option float) (file_id : option string) (s : State)
    (size4 header : list byte) (body : list Delivery)
    (o : list (string * json)) (name : string) (size : Z) :
  serves E s device_ip device_port (Data size4 :: Data header :: body) ->
  length size4 = 4%nat ->
  unpack_be32 size4 = Z.of_nat (length header) ->
  header <> [] ->
  json_loads E header = Some (JObj o) ->
  py_lookup "fileName" o = Some (JStr name) ->
  py_lookup "fileSize" o = Some (JInt size) ->
  Z.abs size < 2 ^ 1034 - 2 ^ 980 ->
  makedirs_ok E = true ->
  can_open E (local_path_for E device_ip (JStr name)) = true ->
  only_data body ->
  exists s',
    send_command E device_ip device_port "GET_VIDEO" timestamp file_id s
    = (Ret (JStr (local_path_for E device_ip (JStr name))), s') /\
    files s' !! local_path_for E device_ip (JStr name)
    = Some (take (Z.to_nat size) (stream_bytes body)).
Proof.
  intros Hserves H4 Hsize Hheader Hloads Hname Hfsize Hbound Hmk Hopen Hbody.
  destruct (send_command_get_video E device_ip device_port timestamp file_id s _ Hserves)
    as (s1 & _ & ->).
  read_exact_header H4 Hsize Hheader.
  unfold bind, loads, lift, ret, open_wb. rewrite Hloads.
  cbn [py_getitem]. rewrite Hname, Hfsize. cbn [as_size].
  replace (Z.abs size <? 2 ^ 1034 - 2 ^ 980) with true by (symmetry; apply Z.ltb_lt; lia).
  rewrite Hmk, Hopen.
  rewrite (download_loop_prefix _ body size 0 _ _ []).
  - eexists. split; [reflexivity|].
    cbn [files set_files]. rewrite insert_insert_eq, lookup_insert_eq, Z.sub_0_r.
    reflexivity.
  - exact Hbody.
  - lia.
  - cbn [files]. apply lookup_insert_eq.
Qed.

Lemma download_writes_stream_prefix_witness :
  exists s',
    send_command (Demo.env Demo.counting_clock (fun _ => Demo.replies Demo.long_transfer))
                 "10.0.0.1" 8080 "GET_VIDEO" None (Some "clip") Demo.s0
    = (Ret (JStr "/home/user/Downloads/multiCam/10_0_0_1_a.mov"), s') /\
    files s' !! "/home/user/Downloads/multiCam/10_0_0_1_a.mov"
    = Some ["A"; "B"; "C"; "D"]%byte.
Proof.
  apply (download_writes_stream_prefix
           (Demo.env Demo.counting_clock (fun _ => Demo.replies Demo.long_transfer))
           "10.0.0.1" 8080 None (Some "clip") Demo.s0
           ["000"; "000"; "000"; "!"]%byte Demo.header_block4
           [Data ["A"; "B"; "C"]%byte; Data ["D"; "E"; "F"]%byte]
           [("fileName", JStr "a.mov"); ("fileSize", JInt 4)] "a.mov" 4).
  - intros msg. reflexivity.
  - reflexivity.
  - reflexivity.
  - discriminate.
  - reflexivity.
  - reflexivity.
  - reflexivity.
  - reflexivity.
  - reflexivity.
  - reflexivity.
  - repeat constructor.
Defined.

(** X6.  A retrieval whose first read gives anything but four bytes (the
    peer closed, or delivered the length prefix in pieces) returns the
    failure marker and creates no file. *)
Theorem short_length_prefix_fails
    (E : Env) (device_ip : string) (device_port : Z)
    (timestamp : option float) (file_id : option string) (s : State)
    (sock rest : list Delivery) (prefix : list byte) :
  serves E s device_ip device_port sock ->
  recv 4 sock = (Ret prefix, rest) ->
  length prefix <> 4%nat ->
  exists s',
    send_command E device_ip device_port "GET_VIDEO" timestamp file_id s
    = (Ret PyFalse, s') /\
    files s' = files s.
Proof.
  intros Hserves Hrecv Hlen.
  destruct (send_command_get_video E device_ip device_port timestamp file_id s _ Hserves)
    as (s1 & Hfiles & ->).
  unfold _handle_file_download, try_except. rewrite Hrecv.
  apply Nat.eqb_neq in Hlen. rewrite Hlen. cbn [negb].
  exists s1. split; [reflexivity | exact Hfiles].
Qed.

Lemma short_length_prefix_fails_witness :
  exists s',
    send_command (Demo.env Demo.counting_clock
                           (fun _ => Demo.replies [Data ["000"; "000"]%byte;
                                                   Data ["000"; "!"]%byte]))
                 "10.0.0.1" 8080 "GET_VIDEO" None (Some "clip") Demo.s0
    = (Ret PyFalse, s') /\
    files s' = files Demo.s0.
Proof.
  apply (short_length_prefix_fails
           (Demo.env Demo.counting_clock
                     (fun _ => Demo.replies [Data ["000"; "000"]%byte;
                                             Data ["000"; "!"]%byte]))
           "10.0.0.1" 8080 None (Some "clip") Demo.s0
           [Data ["000"; "000"]%byte; Data ["000"; "!"]%byte]
           [Data ["000"; "!"]%byte] ["000"; "000"]%byte).
  - intros msg. reflexivity.
  - reflexivity.
  - discriminate.
Defined.

(** X7.  A retrieval whose metadata block does not decode, or decodes to
    an object without [fileName] or without [fileSize], returns the
    failure marker and creates no file, whatever follows in the stream. *)
Theorem bad_metadata_fails_without_file
    (E : Env) (device_ip : string) (device_port : Z)
    (timestamp : option float) (file_id : option string) (s : State)
    (size4 header : list byte) (body : list Delivery) :
  serves E s device_ip device_port (Data size4 :: Data header :: body) ->
  length size4 = 4%nat ->
  unpack_be32 size4 = Z.of_nat (length header) ->
  header <> [] ->
  (json_loads E header = None \/
   exists o, json_loads E header = Some (JObj o) /\
             (py_lookup "fileName" o = None \/ py_lookup "fileSize" o = None)) ->
  exists s',
    send_command E device_ip device_port "GET_VIDEO" timestamp file_id s
    = (Ret PyFalse, s') /\
    files s' = files s.
Proof.
  intros Hserves H4 Hsize Hheader Hbad.
  destruct (send_command_get_video E device_ip device_port timestamp file_id s _ Hserves)
    as (s1 & Hfiles & ->).
  read_exact_header H4 Hsize Hheader.
  unfold bind, loads, lift, ret, raise, open_wb.
  destruct Hbad as [Hnone | (o & Hloads & Hmissing)].
  - rewrite Hnone. exists s1. split; [reflexivity | exact Hfiles].
  - rewrite Hloads. cbn [py_getitem].
    destruct Hmissing as [Hname | Hfsize].
    + rewrite Hname. exists s1. split; [reflexivity | exact Hfiles].
    + rewrite Hfsize. destruct (py_lookup "fileName" o);
        exists s1; (split; [reflexivity | exact Hfiles]).
Qed.

Lemma bad_metadata_fails_without_file_witness :
  exists s',
    send_command (Demo.env Demo.counting_clock
                           (fun _ => Demo.replies Demo.transfer_without_size))
                 "10.0.0.1" 8080 "GET_VIDEO" None (Some "clip") Demo.s0
    = (Ret PyFalse, s') /\
    files s' = files Demo.s0.
Proof.
  apply (bad_metadata_fails_without_file
           (Demo.env Demo.counting_clock
                     (fun _ => Demo.replies Demo.transfer_without_size))
           "10.0.0.1" 8080 None (Some "clip") Demo.s0
           ["000"; "000"; "000"; "020"]%byte Demo.header_without_size
           [Data ["A"; "B"; "C"]%byte]).
  - intros msg. reflexivity.
  - reflexivity.
  - reflexivity.
  - discriminate.
  - right. exists [("fileName", JStr "a.mov")]. split; [reflexivity|].
    right. reflexivity.
Defined.

(** *** The naming rule *)

Lemma string_length_append (s t : string) :
  String.length (s +:+ t) = (String.length s + String.length t)%nat.
Proof. induction s as [|c s IH]; simpl; [reflexivity | rewrite IH; reflexivity]. Qed.

Lemma string_append_cancel_r (s1 s2 t : string) :
  s1 +:+ t = s2 +:+ t -> s1 = s2.
Proof.
  revert s2. induction s1 as [|c s1 IH]; intros [|c2 s2] Heq; simpl in Heq.
  - reflexivity.
  - apply (f_equal String.length) in Heq.
    rewrite ?string_length_append in Heq. simpl in Heq.
    rewrite ?string_length_append in Heq. lia.
  - apply (f_equal String.length) in Heq.
    rewrite ?string_length_append in Heq. simpl in Heq.
    rewrite ?string_length_append in Heq. lia.
  - injection Heq as -> Heq. f_equal. apply IH. exact Heq.
Qed.

Lemma dots_to_underscores_inj (a b : string) :
  lacks "_" a = true -> lacks "_" b = true ->
  dots_to_underscores a = dots_to_underscores b -> a = b.
Proof.
  revert b. induction a as [|c a IH]; intros [|c2 b] Ha Hb Heq;
    cbn [lacks dots_to_underscores] in *; try discriminate; [reflexivity|].
  apply andb_true_iff in Ha as [Hc Ha]. apply andb_true_iff in Hb as [Hc2 Hb].
  apply negb_true_iff in Hc, Hc2.
  injection Heq as Hhead Htail. f_equal; [|apply IH; assumption].
  destruct (Ascii.eqb_spec c "."%char) as [->|Hdot];
    destruct (Ascii.eqb_spec c2 "."%char) as [->|Hdot2]; try reflexivity.
  - subst c2. rewrite Ascii.eqb_refl in Hc2. discriminate.
  - subst c. rewrite Ascii.eqb_refl in Hc. discriminate.
  - exact Hhead.
Qed.

Lemma local_name_not_absolute (address rest : string) :
  lacks "/" address = true ->
  String.prefix "/" (dots_to_underscores address +:+ "_" +:+ rest) = false.
Proof.
  destruct address as [|c address]; intros Hl; [reflexivity|].
  cbn [lacks] in Hl. apply andb_true_iff in Hl as [Hc _]. apply negb_true_iff in Hc.
  cbn [dots_to_underscores].
  destruct (Ascii.eqb_spec c "."%char) as [->|Hdot]; [reflexivity|].
  change (String.prefix "/" (String c (dots_to_underscores address +:+ "_" +:+ rest))
          = false).
  cbn [String.prefix].
  destruct (ascii_dec "/" c) as [<-|Hne]; [|reflexivity].
  rewrite Ascii.eqb_refl in Hc. discriminate.
Qed.

Lemma path_join_relative_inj (a b1 b2 : string) :
  String.prefix "/" b1 = false -> String.prefix "/" b2 = false ->
  path_join a b1 = path_join a b2 -> b1 = b2.
Proof.
  unfold path_join. intros -> ->.
  destruct (String.eqb a ""); [auto|].
  destruct (String.eqb (substring (String.length a - 1) 1 a) "/").
  - apply String.app_inj.
  - intros Heq. apply String.app_inj in Heq. apply String.app_inj in Heq. exact Heq.
Qed.

(** X8.  The naming rule keeps devices apart: for two different addresses
    without underscores or slashes, the local paths of a file of one and
    the same declared name differ. *)
Theorem local_paths_of_two_devices_differ
    (E : Env) (address1 address2 name : string) :
  plain_address address1 = true ->
  plain_address address2 = true ->
  address1 <> address2 ->
  local_path_for E address1 (JStr name) <> local_path_for E address2 (JStr name).
Proof.
  unfold plain_address, local_path_for. cbn [render].
  intros H1 H2 Hne Heq.
  apply andb_true_iff in H1 as [Hu1 Hs1]. apply andb_true_iff in H2 as [Hu2 Hs2].
  apply path_join_relative_inj in Heq;
    try (apply local_name_not_absolute; assumption).
  apply string_append_cancel_r in Heq.
  apply Hne. apply dots_to_underscores_inj; assumption.
Qed.

Lemma local_paths_of_two_devices_differ_witness :
  local_path_for (Demo.env Demo.counting_clock (fun _ => Demo.closed_port))
                 "10.0.0.1" (JStr "a.mov")
  <> local_path_for (Demo.env Demo.counting_clock (fun _ => Demo.closed_port))
                    "10.0.0.2" (JStr "a.mov").
Proof.
  apply (local_paths_of_two_devices_differ
           (Demo.env Demo.counting_clock (fun _ => Demo.closed_port))
           "10.0.0.1" "10.0.0.2" "a.mov").
  - reflexivity.
  - reflexivity.
  - discriminate.
Defined.

(** Without the condition the rule does collide: a dot and an underscore
    in the address give the same local name. *)
Example underscore_addresses_collide :
  local_path_for (Demo.env Demo.counting_clock (fun _ => Demo.closed_port))
                 "cam.1" (JStr "a.mov")
  = local_path_for (Demo.env Demo.counting_clock (fun _ => Demo.closed_port))
                   "cam_1" (JStr "a.mov").
Proof. reflexivity. Qed.

(** ** Broadcast Coordinator *)

(** X9.  A broadcast given an explicit instant that is not zero never
    reads the clock, whatever the command and the delay, and every
    envelope, one per device, carries the command and that instant. *)
Theorem broadcast_with_explicit_instant
    (E : Env) (devices : gmap string Device) (command : string)
    (t sync_delay : float) (s : State) :
  devices <> ∅ ->
  float_truthy t = true ->
  exists results s' new,
    send_command_to_all E devices command (Some t) sync_delay s
      = (Ret (Some results), s') /\
    ticks s' = ticks s /\
    net_log s' = new ++ net_log s /\
    Forall2 (sent_to command t) (rev new) (map_to_list devices).
Proof.
  intros Hne Htruthy.
  destruct (send_command_to_all_eq E devices command (Some t) sync_delay s Hne)
    as (t' & s1 & results & s' & Hsync & Hfe & Hall).
  unfold sync_instant, or_now in Hsync. rewrite Htruthy in Hsync.
  unfold ret in Hsync. injection Hsync as <- <-.
  destruct (for_each_send E command t (map_to_list devices) ∅ s
              (NoDup_fst_map_to_list devices))
    as (results' & s'' & new & Hfe' & Hl & _ & _ & _ & Htr).
  rewrite Hfe in Hfe'. injection Hfe' as <- <-.
  destruct (Htr Htruthy) as [Ht Hf].
  eexists _, s', new. split; [exact Hall|]. auto.
Qed.

Lemma broadcast_with_explicit_instant_witness :
  exists results s' new,
    send_command_to_all (Demo.env Demo.counting_clock (fun _ => Demo.replies []))
                        Demo.two_cams "DEVICE_STATUS" (Some 42%float) 3%float Demo.s0
      = (Ret (Some results), s') /\
    ticks s' = 0%nat /\
    net_log s' = new ++ [] /\
    Forall2 (sent_to "DEVICE_STATUS" 42%float) (rev new) (map_to_list Demo.two_cams).
Proof.
  apply (broadcast_with_explicit_instant
           (Demo.env Demo.counting_clock (fun _ => Demo.replies []))
           Demo.two_cams "DEVICE_STATUS" 42%float 3%float Demo.s0).
  - intros H. apply (f_equal (fun m : gmap string Device => m !! "cam1")) in H.
    vm_compute in H. discriminate.
  - reflexivity.
Defined.

(** X10.  In a STOP_RECORDING broadcast, a registered device that answers
    in one delivery with an object whose [fileId] is a string that is not
    empty is in the returned mapping, under its name, with that
    identifier, whatever the other devices do. *)
Theorem stop_broadcast_collects_file_ids
    (E : Env) (devices : gmap string Device)
    (timestamp : option float) (sync_delay : float) (s : State)
    (name : string) (d : Device) (data : list byte)
    (o : list (string * json)) (fid : string) :
  devices !! name = Some d ->
  always_serves E (ip d) (port d) [Data data] ->
  data <> [] ->
  Z.of_nat (length data) <= 4096 ->
  json_loads E data = Some (JObj o) ->
  py_lookup "fileId" o = Some (JStr fid) ->
  fid <> "" ->
  exists results s',
    send_command_to_all E devices "STOP_RECORDING" timestamp sync_delay s
      = (Ret (Some results), s') /\
    results !! name = Some (JStr fid).
Proof.
  intros Hd Hserves Hdata Hlen Hloads Hfid Hfidne.
  assert (Hne : devices <> ∅).
  { intros ->. rewrite lookup_empty in Hd. discriminate. }
  destruct (send_command_to_all_eq E devices "STOP_RECORDING" timestamp sync_delay s Hne)
    as (t & s1 & results & s' & _ & Hfe & Hall).
  destruct (for_each_send E "STOP_RECORDING" t (map_to_list devices) ∅ s1
              (NoDup_fst_map_to_list devices))
    as (results' & s'' & new & Hfe' & _ & _ & _ & Hin & _).
  rewrite Hfe in Hfe'. injection Hfe' as <- <-.
  apply elem_of_map_to_list in Hd.
  destruct (Hin name d Hd) as (s0 & v & s2 & Hsend & Hv).
  assert (Hvalue : v = JStr fid).
  { assert (Hs0 : serves E s0 (ip d) (port d) [Data data]) by (intros msg; apply Hserves).
    pose proof (send_command_served E (ip d) (port d) "STOP_RECORDING" (Some t) None s0 _
                  Hs0 ltac:(discriminate)) as Hserved.
    rewrite Hsend in Hserved. cbn [fst] in Hserved.
    unfold read_reply in Hserved.
    cbn [String.eqb Ascii.eqb Bool.eqb recv] in Hserved.
    replace (Z.of_nat (length data) <=? 4096) with true in Hserved
      by (symmetry; apply Z.leb_le; lia).
    cbn [fst] in Hserved. unfold interpret_reply in Hserved.
    destruct data as [|b data]; [contradiction|].
    unfold bind, loads, lift, ret in Hserved. rewrite Hloads in Hserved.
    cbn [String.eqb Ascii.eqb Bool.eqb py_contains py_getitem] in Hserved.
    rewrite Hfid in Hserved.
    rewrite bool_decide_eq_true_2 in Hserved by eauto.
    cbn [truthy] in Hserved.
    apply String.eqb_neq in Hfidne. rewrite Hfidne in Hserved.
    cbn [negb fst] in Hserved. congruence. }
  subst v. eexists _, s'. split; [exact Hall|].
  cbn [String.eqb Ascii.eqb Bool.eqb].
  apply map_lookup_filter_Some. split; [exact Hv | exact I].
Qed.

Lemma stop_broadcast_collects_file_ids_witness :
  exists results s',
    send_command_to_all (Demo.env Demo.counting_clock Demo.one_unreachable)
                        Demo.three_cams "STOP_RECORDING" None 3%float Demo.s0
      = (Ret (Some results), s') /\
    results !! "cam3" = Some (JStr "clip").
Proof.
  apply (stop_broadcast_collects_file_ids
           (Demo.env Demo.counting_clock Demo.one_unreachable)
           Demo.three_cams None 3%float Demo.s0 "cam3" (Demo.cam 3)
           (RefJson.bytes ("{" +:+ RefJson.q "fileId" +:+ ":" +:+ RefJson.q "clip" +:+ "}"))
           [("fileId", JStr "clip")] "clip").
  - reflexivity.
  - intros n msg. reflexivity.
  - discriminate.
  - vm_compute. discriminate.
  - reflexivity.
  - reflexivity.
  - discriminate.
Defined.

(** ** Device Registry *)

Lemma registry_of_dict_set name device (items : list (string * Device)) :
  registry_of (dict_set name device items) = <[name := device]> (registry_of items).
Proof.
  unfold registry_of. induction items as [|[n d] rest IH]; cbn [dict_set].
  - reflexivity.
  - destruct (String.eqb_spec name n) as [->|Hne].
    + rewrite !list_to_map_cons, insert_insert_eq. reflexivity.
    + rewrite !list_to_map_cons, IH. apply insert_insert_ne. congruence.
Qed.

Lemma registry_of_dict_del name (items : list (string * Device)) :
  registry_of (dict_del name items) = delete name (registry_of items).
Proof.
  unfold registry_of. induction items as [|[n d] rest IH]; cbn [dict_del].
  - symmetry. apply delete_id. reflexivity.
  - destruct (String.eqb_spec name n) as [->|Hne].
    + rewrite list_to_map_cons, delete_insert_eq. exact IH.
    + rewrite !list_to_map_cons, IH. symmetry. apply delete_insert_ne. exact Hne.
Qed.

Lemma dict_has_false name (items : list (string * Device)) :
  dict_has name items = false -> name ∉ items.*1.
Proof.
  unfold dict_has. induction items as [|[n d] rest IH]; cbn [fmap list_fmap existsb fst].
  - intros _ Hin. inversion Hin.
  - intros Hor. apply orb_false_iff in Hor as [Hn Hrest].
    apply String.eqb_neq in Hn. apply not_elem_of_cons. split; [exact Hn | exact (IH Hrest)].
Qed.

Lemma registry_of_remove_service devices name :
  registry_of (remove_service devices name) = delete name (registry_of devices).
Proof.
  unfold remove_service. destruct (dict_has name devices) eqn:Hhas.
  - apply registry_of_dict_del.
  - symmetry. apply delete_id. apply not_elem_of_list_to_map_1.
    apply dict_has_false. exact Hhas.
Qed.

Lemma notify_slot (devices : list (string * Device)) (ev : ListenerEvent) (name : string) :
  registry_of (notify devices ev) !! name
  = default (registry_of devices !! name) (slot ev name).
Proof.
  destruct ev as [n info|n|n]; cbn [notify slot].
  - unfold add_service, resolved.
    destruct info as [i|]; [|destruct (decide (name = n)); reflexivity].
    destruct (addresses i) as [|packed l]; [destruct (decide (name = n)); reflexivity|].
    destruct (inet_ntoa packed) as [address|]; [|destruct (decide (name = n)); reflexivity].
    cbn [default from_option id]. rewrite registry_of_dict_set.
    destruct (decide (name = n)) as [->|Hne].
    + apply lookup_insert_eq.
    + apply lookup_insert_ne. congruence.
  - rewrite registry_of_remove_service.
    destruct (decide (name = n)) as [->|Hne]; cbn [default from_option id].
    + apply lookup_delete_eq.
    + apply lookup_delete_ne. congruence.
  - reflexivity.
Qed.

Lemma foldl_notify_slot (events : list ListenerEvent) :
  forall devices name,
    registry_of (foldl notify devices events) !! name
    = foldl (fun x ev => default x (slot ev name)) (registry_of devices !! name) events.
Proof.
  induction events as [|ev events IH]; intros devices name; [reflexivity|].
  cbn [foldl]. rewrite IH, notify_slot. reflexivity.
Qed.

Lemma foldl_slot_constant_or_identity (events : list ListenerEvent) (name : string) :
  (exists c, forall x, foldl (fun x ev => default x (slot ev name)) x events = c) \/
  (forall x, foldl (fun x ev => default x (slot ev name)) x events = x).
Proof.
  induction events as [|ev events IH]; [right; reflexivity|].
  cbn [foldl]. destruct IH as [[c Hc]|Hid].
  - left. exists c. intros x. apply Hc.
  - destruct (slot ev name) as [c|].
    + left. exists c. intros x. apply Hid.
    + right. intros x. apply Hid.
Qed.

(** Every name stays there once. *)
Lemma dict_set_keys name device (items : list (string * Device)) x :
  x ∈ (dict_set name device items).*1 -> x = name \/ x ∈ items.*1.
Proof.
  induction items as [|[n d] rest IH]; cbn [dict_set].
  - cbn [fmap list_fmap fst]. intros Hin.
    apply elem_of_cons in Hin as [->|Hin]; [auto | inversion Hin].
  - destruct (String.eqb_spec name n) as [->|Hne]; cbn [fmap list_fmap fst].
    + intros Hin. right. exact Hin.
    + intros Hin. apply elem_of_cons in Hin as [->|Hin].
      * right. left.
      * destruct (IH Hin) as [->|Hrest]; [auto|]. right. right. exact Hrest.
Qed.

Lemma dict_set_NoDup name device (items : list (string * Device)) :
  NoDup items.*1 -> NoDup (dict_set name device items).*1.
Proof.
  induction items as [|[n d] rest IH]; cbn [dict_set].
  - intros _. cbn [fmap list_fmap fst]. apply NoDup_singleton.
  - cbn [fmap list_fmap fst]. intros Hnd. apply NoDup_cons in Hnd as [Hfresh Hnd].
    destruct (String.eqb_spec name n) as [->|Hne]; cbn [fmap list_fmap fst].
    + apply NoDup_cons. auto.
    + apply NoDup_cons. split; [|exact (IH Hnd)].
      intros Hin. apply dict_set_keys in Hin as [->|Hin]; [congruence | contradiction].
Qed.

Lemma dict_del_keys name (items : list (string * Device)) x :
  x ∈ (dict_del name items).*1 -> x ∈ items.*1.
Proof.
  induction items as [|[n d] rest IH]; cbn [dict_del]; [auto|].
  destruct (String.eqb name n); cbn [fmap list_fmap fst].
  - intros Hin. right. exact (IH Hin).
  - intros Hin. apply elem_of_cons in Hin as [->|Hin]; [left | right; exact (IH Hin)].
Qed.

Lemma dict_del_NoDup name (items : list (string * Device)) :
  NoDup items.*1 -> NoDup (dict_del name items).*1.
Proof.
  induction items as [|[n d] rest IH]; cbn [dict_del]; [auto|].
  cbn [fmap list_fmap fst]. intros Hnd. apply NoDup_cons in Hnd as [Hfresh Hnd].
  destruct (String.eqb name n); cbn [fmap list_fmap fst]; [exact (IH Hnd)|].
  apply NoDup_cons. split; [|exact (IH Hnd)].
  intros Hin. apply Hfresh. exact (dict_del_keys _ _ _ Hin).
Qed.

Lemma foldl_notify_NoDup (events : list ListenerEvent) :
  forall devices, NoDup devices.*1 -> NoDup (foldl notify devices events).*1.
Proof.
  induction events as [|ev events IH]; intros devices Hnd; [exact Hnd|].
  cbn [foldl]. apply IH.
  destruct ev as [n info|n|n]; cbn [notify]; [| |exact Hnd].
  - unfold add_service. destruct info as [i|]; [|exact Hnd].
    destruct (addresses i) as [|packed l]; [exact Hnd|].
    destruct (inet_ntoa packed); [|exact Hnd].
    cbn [default from_option id]. apply dict_set_NoDup. exact Hnd.
  - unfold remove_service. destruct (dict_has n devices); [|exact Hnd].
    apply dict_del_NoDup. exact Hnd.
Qed.

(** X11.  Discovery is idempotent on the registry: when the same
    callbacks arrive in a second round of discovery, every name has the
    entry it had after the first round, and the returned list holds the
    same devices.  It need not hold them in the same order: a name that
    the round removes and announces again moves to the end. *)
Theorem discovery_is_idempotent
    (events : list ListenerEvent) (devices : list (string * Device)) :
  NoDup devices.*1 ->
  registry_of (discover_devices events (discover_devices events devices).2).2
  = registry_of (discover_devices events devices).2 /\
  (discover_devices events (discover_devices events devices).2).1
  ≡ₚ (discover_devices events devices).1.
Proof.
  intros Hnd. unfold discover_devices. cbn [fst snd].
  assert (Heq : registry_of (foldl notify (foldl notify devices events) events)
                = registry_of (foldl notify devices events)).
  { apply map_eq. intros name. rewrite !foldl_notify_slot.
    destruct (foldl_slot_constant_or_identity events name) as [[c Hc]|Hid].
    - rewrite !Hc. reflexivity.
    - rewrite !Hid. reflexivity. }
  split; [exact Heq|].
  apply fmap_Permutation. apply (list_to_map_inj (M := gmap string)).
  - apply foldl_notify_NoDup, foldl_notify_NoDup, Hnd.
  - apply foldl_notify_NoDup, Hnd.
  - exact Heq.
Qed.

Lemma discovery_is_idempotent_witness :
  registry_of (discover_devices
                 [RemoveService "camY";
                  AddService "camY" (Some {| addresses := [["010"; "000"; "000"; "002"]%byte];
                                             info_port := 8080 |});
                  AddService "camX" (Some {| addresses := [["010"; "000"; "000"; "001"]%byte];
                                             info_port := 8080 |})]
                 (discover_devices
                    [RemoveService "camY";
                     AddService "camY"
                       (Some {| addresses := [["010"; "000"; "000"; "002"]%byte];
                                info_port := 8080 |});
                     AddService "camX"
                       (Some {| addresses := [["010"; "000"; "000"; "001"]%byte];
                                info_port := 8080 |})] []).2).2
  = registry_of (discover_devices
                   [RemoveService "camY";
                    AddService "camY"
                      (Some {| addresses := [["010"; "000"; "000"; "002"]%byte];
                               info_port := 8080 |});
                    AddService "camX"
                      (Some {| addresses := [["010"; "000"; "000"; "001"]%byte];
                               info_port := 8080 |})] []).2.
Proof.
  refine (proj1 (discovery_is_idempotent _ [] _)). constructor.
Defined.

(** The order does change: two cameras announced as camY, camX come back
    in that order from the first round, and as camX, camY from a second
    round with the same callbacks. *)
Example second_round_reorders_the_list :
  let events :=
    [RemoveService "camY";
     AddService "camY" (Some {| addresses := [["010"; "000"; "000"; "002"]%byte];
                                info_port := 8080 |});
     AddService "camX" (Some {| addresses := [["010"; "000"; "000"; "001"]%byte];
                                info_port := 8080 |})] in
  (discover_devices events []).1
  = [{| ip := "10.0.0.2"; port := 8080 |}; {| ip := "10.0.0.1"; port := 8080 |}] /\
  (discover_devices events (discover_devices events []).2).1
  = [{| ip := "10.0.0.1"; port := 8080 |}; {| ip := "10.0.0.2"; port := 8080 |}].
Proof. split; reflexivity. Qed.

(** X12.  The last callback about a name decides its entry: after an
    announcement that resolves to a four-byte address, followed by
    callbacks none of which changes that name, the registry has the name
    with the dotted address and the announced port; after a removal
    followed by such callbacks, the name is gone. *)
Theorem last_callback_decides_entry
    (before after : list ListenerEvent) (devices : list (string * Device))
    (name : string) :
  Forall (fun ev => slot ev name = None) after ->
  (forall a b c d (info_port0 : Z) more,
     registry_of
       (discover_devices
          (before ++ AddService name
                       (Some {| addresses := [a; b; c; d] :: more; info_port := info_port0 |})
                  :: after) devices).2 !! name
     = Some {| ip := decimal a +:+ "." +:+ decimal b +:+ "." +:+ decimal c +:+ "."
                     +:+ decimal d;
               port := info_port0 |}) /\
  registry_of (discover_devices (before ++ RemoveService name :: after) devices).2 !! name
  = None.
Proof.
  intros Hafter.
  assert (Hid : forall x, foldl (fun x ev => default x (slot ev name)) x after = x).
  { induction after as [|ev after IH]; intros x; [reflexivity|].
    apply Forall_cons in Hafter as [Hev Hafter]. cbn [foldl]. rewrite Hev.
    apply IH. exact Hafter. }
  unfold discover_devices. cbn [snd]. split.
  - intros a b c d info_port0 more.
    rewrite foldl_notify_slot, foldl_app. cbn [foldl]. rewrite Hid.
    cbn [slot resolved addresses inet_ntoa info_port].
    destruct (decide (name = name)) as [_|Hne]; [reflexivity | contradiction].
  - rewrite foldl_notify_slot, foldl_app. cbn [foldl]. rewrite Hid.
    cbn [slot]. destruct (decide (name = name)) as [_|Hne]; [reflexivity | contradiction].
Qed.

Lemma last_callback_decides_entry_witness :
  registry_of
    (discover_devices
       ([RemoveService "cam1"]
        ++ AddService "cam1" (Some {| addresses := [["010"; "000"; "000"; "007"]%byte];
                                      info_port := 8080 |})
        :: [AddService "cam2" None; UpdateService "cam1"]) []).2 !! "cam1"
  = Some {| ip := "10.0.0.7"; port := 8080 |}.
Proof.
  refine (proj1 (last_callback_decides_entry
                   [RemoveService "cam1"]
                   [AddService "cam2" None; UpdateService "cam1"] [] "cam1" _)
                "010"%byte "000"%byte "000"%byte "007"%byte 8080 []).
  repeat constructor.
Defined.

(** X13.  Manual registration files a device under "manual-" and its
    address: two different addresses give two entries, registering an
    address again replaces its entry, and no other name is touched; a
    retrieval from the registered name opens exactly one socket, to that
    address and port, with GET_VIDEO and, when a file identifier that is
    not empty is given, that identifier in the envelope, while a
    retrieval from a name that is not registered returns the failure
    marker without opening any socket. *)
Theorem manual_connect_then_download
    (E : Env) (devices : gmap string Device) (address : string) (device_port : Z)
    (s : State) :
  (forall address2 port2, address <> address2 ->
     manual_connect (manual_connect devices address device_port) address2 port2
       !! ("manual-" +:+ address)
     = Some {| ip := address; port := device_port |}) /\
  (forall port2,
     manual_connect (manual_connect devices address device_port) address port2
     = manual_connect devices address port2) /\
  (forall name, name <> "manual-" +:+ address ->
     manual_connect devices address device_port !! name = devices !! name) /\
  (forall file_id, exists v s' ev,
     download_file E (manual_connect devices address device_port)
                   ("manual-" +:+ address) file_id s = (Ret v, s') /\
     net_log s' = ev :: net_log s /\
     ev_ip ev = address /\ ev_port ev = device_port /\
     env_command (ev_msg ev) = "GET_VIDEO" /\
     env_deviceId (ev_msg ev) = "controller" /\
     (forall f, file_id = Some f -> f <> "" -> env_fileId (ev_msg ev) = Some f) /\
     (file_id = None \/ file_id = Some "" -> env_fileId (ev_msg ev) = None)) /\
  (forall name file_id, devices !! name = None ->
     download_file E devices name file_id s = (Ret PyFalse, s)).
Proof.
  unfold manual_connect. repeat match goal with |- _ /\ _ => split end.
  - intros address2 port2 Hne. rewrite lookup_insert_ne.
    + apply lookup_insert_eq.
    + intros Heq. apply String.app_inj in Heq. congruence.
  - intros port2. apply insert_insert_eq.
  - intros name Hne. apply lookup_insert_ne. congruence.
  - intros file_id. unfold download_file. rewrite lookup_insert_eq. cbn [ip port].
    destruct (send_command_returns E address device_port "GET_VIDEO" None file_id s)
      as (v & s' & ev & Hsend & Hlog & _ & Hip & Hport & Hmsg).
    exists v, s', ev. rewrite Hmsg. cbn [env_command env_deviceId env_fileId].
    repeat match goal with |- _ /\ _ => split end; auto.
    + intros f -> Hf. cbn [str_truthy]. apply String.eqb_neq in Hf. rewrite Hf.
      reflexivity.
    + intros [-> | ->]; reflexivity.
  - intros name file_id Hnone. unfold download_file. rewrite Hnone. reflexivity.
Qed.

(** ** Retrieval of all files *)

Lemma download_one_effect (E : Env) devices acc (entry : string * string) s :
  exists paths s',
    download_one E devices acc entry s = (Ret (acc ++ paths), s') /\
    Forall (fun p => p <> "") paths /\
    (length paths <= length (registered devices [entry]))%nat /\
    length (net_log s')
    = (length (net_log s) + length (registered devices [entry]))%nat.
Proof.
  unfold download_one, registered. cbn [List.filter].
  destruct (devices !! entry.1) as [device|].
  - rewrite bool_decide_eq_true_2 by eauto. unfold bind.
    destruct (send_command_returns E (ip device) (port device) "GET_VIDEO" None
                (Some entry.2) s) as (v & s' & ev & -> & Hlog & _).
    assert (Hlen : length (net_log s') = (length (net_log s) + 1)%nat)
      by (rewrite Hlog; simpl; lia).
    destruct v; unfold ret;
      try (exists [], s'; rewrite app_nil_r; repeat split; auto; simpl; lia).
    destruct (String.eqb_spec s0 "") as [->|Hne].
    + exists [], s'. rewrite app_nil_r. repeat split; auto; simpl; lia.
    + exists [s0], s'. repeat split; auto; simpl; lia.
  - rewrite bool_decide_eq_false_2 by (intros [? ?]; discriminate).
    unfold ret. exists [], s. rewrite app_nil_r. repeat split; auto; simpl; lia.
Qed.

Lemma registered_cons devices entry entries :
  length (registered devices (entry :: entries))
  = (length (registered devices [entry]) + length (registered devices entries))%nat.
Proof.
  unfold registered. cbn [List.filter].
  destruct (bool_decide (is_Some (devices !! entry.1))); simpl; lia.
Qed.

Lemma for_each_download_effect (E : Env) devices (entries : list (string * string)) :
  forall acc s,
  exists paths s',
    for_each (download_one E devices) entries acc s = (Ret (acc ++ paths), s') /\
    Forall (fun p => p <> "") paths /\
    (length paths <= length (registered devices entries))%nat /\
    length (net_log s')
    = (length (net_log s) + length (registered devices entries))%nat.
Proof.
  induction entries as [|entry entries IH]; intros acc s.
  - exists [], s. cbn [for_each]. unfold ret. rewrite app_nil_r.
    repeat split; auto; simpl; lia.
  - cbn [for_each]. unfold bind.
    destruct (download_one_effect E devices acc entry s)
      as (p1 & s1 & -> & Hne1 & Hlen1 & Hlog1).
    destruct (IH (acc ++ p1) s1) as (p2 & s2 & -> & Hne2 & Hlen2 & Hlog2).
    exists (p1 ++ p2), s2. rewrite app_assoc, registered_cons.
    repeat split.
    + apply Forall_app. auto.
    + rewrite length_app. lia.
    + lia.
Qed.

(** X14.  Retrieving all files opens exactly one socket for every
    identifier whose device is registered and none for the others; there
    are never more paths returned than such identifiers, and no returned
    path is empty. *)
Theorem download_all_files_one_socket_per_registered_id
    (E : Env) (devices : gmap string Device) (file_ids : gmap string string)
    (s : State) :
  exists paths s',
    download_all_files E devices file_ids s = (Ret paths, s') /\
    length (net_log s')
    = (length (net_log s) + length (registered devices (map_to_list file_ids)))%nat /\
    (length paths <= length (registered devices (map_to_list file_ids)))%nat /\
    Forall (fun p => p <> "") paths.
Proof.
  unfold download_all_files.
  destruct (for_each_download_effect E devices (map_to_list file_ids) [] s)
    as (paths & s' & Hfe & Hne & Hlen & Hlog).
  exists paths, s'. auto.
Qed.

(** ** Session Orchestrator *)

Lemma start_recording_accepted (E : Env) (a : App) (s : State) :
  recording_in_progress a = false -> discovered_devices a <> ∅ ->
  exists s',
    start_recording E a s
    = (Ret (Started (size (discovered_devices a)), Recording, set_recording true a), s').
Proof.
  intros Hflag Hne. unfold start_recording, try_except.
  destruct (decide (discovered_devices a = ∅)); [contradiction|].
  rewrite Hflag.
  destruct (send_command_to_all_results E _ "START_RECORDING" None 3%float s Hne)
    as (results & s' & Hall & Hdom & _).
  cbn [String.eqb Ascii.eqb Bool.eqb] in Hall.
  unfold bind. rewrite Hall. unfold results_truthy.
  rewrite bool_decide_eq_false_2.
  - unfold ret. cbn [negb]. eexists. reflexivity.
  - intros ->. rewrite dom_empty_L in Hdom. symmetry in Hdom.
    apply dom_empty_iff_L in Hdom. contradiction.
Qed.

Lemma stop_recording_accepted (E : Env) (a : App) (s : State) :
  recording_in_progress a = true ->
  exists m s',
    stop_recording E a s = (Ret (m, Ready, set_recording false a), s') /\
    m <> NoRecordingInProgress.
Proof.
  intros Hflag. unfold stop_recording, try_except. rewrite Hflag. cbn [negb].
  assert (exists r s1, send_command_to_all E (discovered_devices a) "STOP_RECORDING"
                                           None 3%float s = (Ret r, s1))
    as (r & s1 & Hall).
  { destruct (decide (discovered_devices a = ∅)) as [->|Hne].
    - rewrite send_command_to_all_empty. eauto.
    - destruct (send_command_to_all_results E _ "STOP_RECORDING" None 3%float s Hne)
        as (results & s' & -> & _). eauto. }
  unfold bind at 1. rewrite Hall.
  destruct (results_truthy r); [|unfold ret; eexists _, _; split; [reflexivity|discriminate]].
  unfold bind at 1.
  destruct (for_each_download E (discovered_devices a)
              (map_to_list (omap str_of (default ∅ r))) [] s1)
    as (paths & s2 & Hdl).
  unfold download_all_files. rewrite Hdl.
  destruct paths as [|f paths];
    [unfold ret; eexists _, _; split; [reflexivity|discriminate]|].
  unfold bind.
  pose proof (upload_and_cleanup_not_hang E (f :: paths) None s2) as Hh.
  destruct (upload_and_cleanup E (f :: paths) None s2) as [[rep|e|] s3];
    [| | simpl in Hh; contradiction].
  - unfold ret. eexists _, _. split; [reflexivity|].
    unfold session_message.
    destruct (upload_success rep); [destruct (cleanup_success rep)|]; discriminate.
  - unfold ret. eexists _, _. split; [reflexivity|discriminate].
Qed.

(** X15.  A session in sequence: from idle with a registry that is not
    empty, [start] is accepted; a second [start] is then rejected as
    already in progress and changes nothing; [stop] is then accepted and
    leaves the session idle; and a second [stop] is rejected as a wrong
    state and changes nothing. *)
Theorem start_start_stop_stop (E : Env) (a : App) (s : State) :
  recording_in_progress a = false ->
  discovered_devices a <> ∅ ->
  exists a1 s1 m a2 s2,
    start_recording E a s
    = (Ret (Started (size (discovered_devices a)), Recording, a1), s1) /\
    start_recording E a1 s1 = (Ret (AlreadyInProgress, Recording, a1), s1) /\
    stop_recording E a1 s1 = (Ret (m, Ready, a2), s2) /\
    m <> NoRecordingInProgress /\
    recording_in_progress a2 = false /\
    discovered_devices a2 = discovered_devices a /\
    stop_recording E a2 s2 = (Ret (NoRecordingInProgress, Ready, a2), s2).
Proof.
  intros Hflag Hne.
  destruct (start_recording_accepted E a s Hflag Hne) as (s1 & Hstart).
  destruct (stop_recording_accepted E (set_recording true a) s1 eq_refl)
    as (m & s2 & Hstop & Hm).
  exists (set_recording true a), s1, m, (set_recording false (set_recording true a)), s2.
  repeat split; auto.
  unfold start_recording, try_except. cbn [set_recording discovered_devices recording_in_progress].
  destruct (decide (discovered_devices a = ∅)); [contradiction | reflexivity].
Qed.

Lemma start_start_stop_stop_witness :
  exists a1 s1 m a2 s2,
    start_recording Demo.session_env (set_recording false Demo.recording_app) Demo.s0
    = (Ret (Started 1, Recording, a1), s1) /\
    start_recording Demo.session_env a1 s1 = (Ret (AlreadyInProgress, Recording, a1), s1) /\
    stop_recording Demo.session_env a1 s1 = (Ret (m, Ready, a2), s2) /\
    m <> NoRecordingInProgress /\
    recording_in_progress a2 = false /\
    discovered_devices a2 = discovered_devices Demo.recording_app /\
    stop_recording Demo.session_env a2 s2 = (Ret (NoRecordingInProgress, Ready, a2), s2).
Proof.
  apply (start_start_stop_stop Demo.session_env
           (set_recording false Demo.recording_app) Demo.s0).
  - reflexivity.
  - intros H. apply (f_equal (fun m : gmap string Device => m !! "cam1")) in H.
    vm_compute in H. discriminate.
Defined.

(** X16.  The status handler reports the number of registered devices,
    not of devices that answered: with a registry that is not empty it
    opens one socket per device and reports the size of the registry,
    also when sends failed; with an empty registry it reports that there
    are no devices and opens no socket. *)
Theorem status_counts_every_registered_device (E : Env) (a : App) (s : State) :
  (discovered_devices a = ∅ ->
     app_get_device_status E a s = (Ret NoDevicesForStatus, s)) /\
  (discovered_devices a <> ∅ ->
     exists s',
       app_get_device_status E a s
       = (Ret (GotStatusFrom (size (discovered_devices a))), s') /\
       length (net_log s')
       = (length (net_log s) + size (discovered_devices a))%nat).
Proof.
  split.
  - intros Hempty. unfold app_get_device_status, try_except.
    destruct (decide (discovered_devices a = ∅)); [reflexivity | contradiction].
  - intros Hne. unfold app_get_device_status, try_except, get_device_status.
    destruct (decide (discovered_devices a = ∅)); [contradiction|].
    destruct (send_command_to_all_results E _ "DEVICE_STATUS" None 3%float s Hne)
      as (results & s' & Hall & Hdom & _ & Hlen).
    cbn [String.eqb Ascii.eqb Bool.eqb] in Hall.
    unfold bind. rewrite Hall. unfold results_truthy, ret.
    assert (Hsize : size results = size (discovered_devices a)).
    { rewrite <- !size_dom, Hdom. reflexivity. }
    rewrite bool_decide_eq_false_2.
    + cbn [negb default from_option id]. rewrite Hsize. eauto.
    + intros ->. rewrite dom_empty_L in Hdom. symmetry in Hdom.
      apply dom_empty_iff_L in Hdom. contradiction.
Qed.

Example status_counts_unreachable_devices :
  (app_get_device_status (Demo.env Demo.counting_clock (fun _ => Demo.closed_port))
     {| discovered_devices := Demo.three_cams; recording_in_progress := false |}
     Demo.s0).1
  = Ret (GotStatusFrom 3).
Proof. vm_compute. reflexivity. Qed.

(** ** S3 hand-off *)

Lemma filter_split_length (f : string -> bool) (l : list string) :
  (length (List.filter f l) + length (List.filter (fun p => negb (f p)) l))%nat
  = length l.
Proof.
  induction l as [|p l IH]; [reflexivity|].
  cbn [List.filter]. destruct (f p); cbn [negb length]; lia.
Qed.

(** X17.  A batch upload reports every path of the batch exactly once,
    as uploaded or as failed, each list in the order of the batch; it
    reports success exactly when every path was uploaded; it leaves the
    state, and so every local file, as it was; and its result names a
    session folder exactly when the batch is not empty. *)
Theorem upload_batch_reports_every_path_once
    (E : Env) (file_paths : list string) (custom_folder : option string) (s : State) :
  exists r,
    upload_batch E file_paths custom_folder s = (Ret r, s) /\
    uploaded_files r
    = List.filter (uploads E (default (generated_folder E) (str_truthy custom_folder)) s)
                  file_paths /\
    failed_files r
    = List.filter (fun p => negb (uploads E (default (generated_folder E)
                                                     (str_truthy custom_folder)) s p))
                  file_paths /\
    (length (uploaded_files r) + length (failed_files r))%nat = length file_paths /\
    (success r = true <-> uploaded_files r = file_paths) /\
    (session_folder r = None <-> file_paths = []).
Proof.
  set (folder := default (generated_folder E) (str_truthy custom_folder)).
  destruct file_paths as [|p l].
  - eexists. split; [reflexivity|]. cbn. repeat split; auto.
  - unfold upload_batch. fold folder. unfold bind. rewrite for_each_upload.
    cbn [fst snd app]. unfold ret. eexists. split; [reflexivity|].
    cbn [uploaded_files failed_files success session_folder].
    pose proof (filter_split_length (uploads E folder s) (p :: l)) as Hsplit.
    repeat split; auto; try discriminate.
    + intros Hlen. apply Nat.eqb_eq in Hlen.
      apply filter_all. intros q Hq.
      destruct (uploads E folder s q) eqn:Hq'; [reflexivity|].
      pose proof (filter_some_fails (uploads E folder s) (p :: l) q Hq Hq') as Hne.
      destruct (List.filter (fun p0 => negb (uploads E folder s p0)) (p :: l));
        [contradiction | discriminate].
    + intros Heq. apply Nat.eqb_eq. rewrite Heq in Hsplit. lia.
Qed.

Lemma for_each_delete_missing (E : Env) (l : list string) :
  forall acc s,
    (forall p, p ∈ l -> files s !! p = None) ->
    for_each (delete_step E) l acc s = (Ret acc, s).
Proof.
  induction l as [|p l IH]; intros acc s Hgone; [reflexivity|].
  cbn [for_each]. unfold bind, delete_step at 1, exists_on_disk.
  rewrite (Hgone p) by (left).
  rewrite bool_decide_eq_false_2 by (intros [? ?]; discriminate).
  apply IH. intros q Hq. apply Hgone. right. exact Hq.
Qed.

(** X18.  Local deletion is idempotent: after a deletion that reported
    success, deleting the same paths again reports success, deletes
    nothing and leaves the state as it is; a path that is already missing
    is never a failure. *)
Theorem delete_local_files_twice
    (E : Env) (file_paths : list string) (s s' : State) (r : DeleteResult) :
  delete_local_files E file_paths s = (Ret r, s') ->
  del_success r = true ->
  delete_local_files E file_paths s'
  = (Ret {| del_success := true; deleted_files := []; failed_deletions := [] |}, s').
Proof.
  unfold delete_local_files, bind at 1. intros Hrun Hok.
  destruct (for_each_delete E file_paths ([], []) s)
    as (deleted & failed & s1 & Hfe & _ & _ & _ & _ & _ & Hiff).
  rewrite Hfe in Hrun. cbn [fst snd app] in Hrun. unfold ret in Hrun.
  injection Hrun as <- <-. cbn [del_success] in Hok.
  apply Nat.eqb_eq in Hok.
  assert (Hgone : forall p, p ∈ file_paths -> files s1 !! p = None).
  { apply Hiff. destruct failed; [reflexivity | discriminate]. }
  unfold bind. rewrite (for_each_delete_missing E file_paths _ s1 Hgone).
  reflexivity.
Qed.

Lemma delete_local_files_twice_witness :
  let s := {| ticks := 0; net_log := [];
              files := <["/tmp/a.mov" := []]> (<["/tmp/b.mov" := []]> ∅) |} in
  let s' := {| ticks := 0; net_log := []; files := ∅ |} in
  delete_local_files (Demo.env Demo.counting_clock (fun _ => Demo.closed_port))
                     ["/tmp/a.mov"; "/tmp/b.mov"; "/tmp/a.mov"] s'
  = (Ret {| del_success := true; deleted_files := []; failed_deletions := [] |}, s').
Proof.
  intros s s'.
  apply (delete_local_files_twice
           (Demo.env Demo.counting_clock (fun _ => Demo.closed_port))
           ["/tmp/a.mov"; "/tmp/b.mov"; "/tmp/a.mov"] s s'
           {| del_success := true; deleted_files := ["/tmp/a.mov"; "/tmp/b.mov"];
              failed_deletions := [] |}).
  - vm_compute. reflexivity.
  - reflexivity.
Defined.

(** X19.  The upload-and-cleanup step raises exactly on the empty batch:
    with no paths it raises [KeyError] (the result of the batch upload has
    no session folder to read) and changes nothing; with any path it
    returns a report, whose total is the size of the batch and whose
    upload count does not exceed it. *)
Theorem upload_and_cleanup_raises_on_empty_batch
    (E : Env) (file_paths : list string) (custom_folder : option string) (s : State) :
  upload_and_cleanup E [] custom_folder s = (Raise KeyError, s) /\
  (file_paths <> [] ->
   exists r s',
     upload_and_cleanup E file_paths custom_folder s = (Ret r, s') /\
     total_files r = length file_paths /\
     (uploaded_count r <= total_files r)%nat).
Proof.
  split; [reflexivity|].
  intros Hne. destruct file_paths as [|p l]; [contradiction|].
  set (folder := default (generated_folder E) (str_truthy custom_folder)).
  pose proof (filter_split_length (uploads E folder s) (p :: l)) as Hsplit.
  unfold upload_and_cleanup, bind at 1, upload_batch, bind at 1.
  fold folder. rewrite for_each_upload. cbn [fst snd app]. unfold ret at 1.
  cbn [success uploaded_files session_folder failed_files].
  destruct (length (List.filter (fun q => negb (uploads E folder s q)) (p :: l)) =? 0)%nat.
  - unfold bind at 1, delete_local_files, bind at 1.
    match goal with |- context [for_each (delete_step E) ?l0 ?a ?t] =>
      destruct (for_each_delete E l0 a t) as (deleted & failed & s' & -> & _)
    end.
    unfold ret. eexists _, s'. split; [reflexivity|].
    cbn [total_files uploaded_count]. split; [reflexivity | lia].
  - unfold ret. eexists _, s. split; [reflexivity|].
    cbn [total_files uploaded_count]. split; [reflexivity | lia].
Qed.

(** ** Single-instance enforcement *)

Lemma try_remove_frame (H : Host) (s : State) (path : string) :
  path <> get_pid_file_path ->
  files (try_remove H get_pid_file_path s) !! path = files s !! path.
Proof.
  intros Hne. unfold try_remove.
  destruct (can_unlink H get_pid_file_path); [|reflexivity].
  cbn [set_files files]. apply lookup_delete_ne. congruence.
Qed.

Lemma write_pid_files (H : Host) (s : State) :
  can_write H get_pid_file_path = true ->
  files (write_pid H s) !! get_pid_file_path = Some (pid_text H (getpid H)) /\
  (forall path, path <> get_pid_file_path ->
                files (write_pid H s) !! path = files s !! path) /\
  ticks (write_pid H s) = ticks s /\ net_log (write_pid H s) = net_log s.
Proof.
  intros Hw. unfold write_pid. rewrite Hw. cbn [set_files files ticks net_log].
  repeat split.
  - apply lookup_insert_eq.
  - intros path Hne. apply lookup_insert_ne. congruence.
Qed.

Lemma try_remove_log (H : Host) (s : State) (path : string) :
  ticks (try_remove H path s) = ticks s /\ net_log (try_remove H path s) = net_log s.
Proof. unfold try_remove. destruct (can_unlink H path); auto. Qed.

(** What a launch that goes on has done to the files. *)
Lemma launch_proceeds_files (H : Host) (s s' : State) :
  is_subprocess_call (argv H) = false ->
  can_write H get_pid_file_path = true ->
  check_single_instance H s = (Proceed, s') ->
  files s' !! get_pid_file_path = Some (pid_text H (getpid H)) /\
  (forall path, path <> get_pid_file_path -> files s' !! path = files s !! path) /\
  ticks s' = ticks s /\ net_log s' = net_log s.
Proof.
  intros Hsub Hw. unfold check_single_instance. rewrite Hsub.
  assert (Hgen : forall s0,
            (forall path, path <> get_pid_file_path -> files s0 !! path = files s !! path) ->
            ticks s0 = ticks s -> net_log s0 = net_log s ->
            (Proceed, write_pid H s0) = (Proceed, s') ->
            files s' !! get_pid_file_path = Some (pid_text H (getpid H)) /\
            (forall path, path <> get_pid_file_path -> files s' !! path = files s !! path) /\
            ticks s' = ticks s /\ net_log s' = net_log s).
  { intros s0 Hframe Ht Hl [= <-].
    destruct (write_pid_files H s0 Hw) as (Hpid & Hother & Ht' & Hl').
    repeat split; [exact Hpid | | congruence | congruence].
    intros path Hne. rewrite (Hother path Hne). apply Hframe. exact Hne. }
  assert (Hrm : forall path, path <> get_pid_file_path ->
            files (try_remove H get_pid_file_path s) !! path = files s !! path)
    by (intros path Hne; apply try_remove_frame; exact Hne).
  destruct (try_remove_log H s get_pid_file_path) as [Hrt Hrl].
  destruct (files s !! get_pid_file_path) as [content|].
  - destruct (can_read H get_pid_file_path); cbn [negb]; [|apply Hgen; assumption].
    destruct (pid_of_text H content) as [p|]; [|apply Hgen; assumption].
    destruct (kill0 H p); try discriminate.
    fold (try_remove H get_pid_file_path s).
    destruct (can_unlink H get_pid_file_path) eqn:Hu.
    + replace (set_files s (delete get_pid_file_path (files s)))
        with (try_remove H get_pid_file_path s)
        by (unfold try_remove; rewrite Hu; reflexivity).
      apply Hgen; assumption.
    + apply Hgen; assumption.
  - apply Hgen; auto.
Qed.

(** X20.  A launch exits as already running exactly when it is not a
    subprocess call and the PID file exists, can be read, holds a number,
    and a signal can be delivered to the process of that number; and a
    launch that exits or crashes has changed nothing. *)
Theorem launch_exits_exactly_on_live_instance (H : Host) (s : State) (p : Z) :
  ((check_single_instance H s).1 = ExitAlreadyRunning p <->
   is_subprocess_call (argv H) = false /\
   exists content,
     files s !! get_pid_file_path = Some content /\
     can_read H get_pid_file_path = true /\
     pid_of_text H content = Some p /\
     kill0 H p = Delivered) /\
  ((check_single_instance H s).1 <> Proceed -> (check_single_instance H s).2 = s).
Proof.
  unfold check_single_instance.
  destruct (is_subprocess_call (argv H)).
  { cbn [fst snd]. split; [|auto]. split; [discriminate | intros [? _]; discriminate]. }
  destruct (files s !! get_pid_file_path) as [content|].
  2:{ cbn [fst snd]. split; [|intros Hc; contradiction].
      split; [discriminate | intros (_ & c & Hc & _); discriminate]. }
  destruct (can_read H get_pid_file_path); cbn [negb].
  2:{ cbn [fst snd]. split; [|intros Hc; contradiction].
      split; [discriminate | intros (_ & c & _ & Hc & _); discriminate]. }
  destruct (pid_of_text H content) as [q|] eqn:Hq.
  2:{ cbn [fst snd]. split; [|intros Hc; contradiction].
      split; [discriminate|]. intros (_ & c & [= <-] & _ & Hc & _). congruence. }
  destruct (kill0 H q) eqn:Hk; cbn [fst snd].
  - split; [|auto]. split.
    + intros [= <-]. split; [reflexivity|]. exists content. auto.
    + intros (_ & c & [= <-] & _ & Hc & _). congruence.
  - split; [|intros Hc; contradiction]. split; [discriminate|].
    intros (_ & c & [= <-] & _ & Hc & Hd). congruence.
  - split; [|auto]. split; [discriminate|].
    intros (_ & c & [= <-] & _ & Hc & Hd). congruence.
Qed.

(** X21.  A launch that goes on and may write the PID file leaves it
    holding the text of its own PID, whatever was in it before (nothing, a
    stale PID, text that is no number, a file it cannot read) and whether
    or not the old file could be removed; no other file is touched. *)
Theorem launch_records_own_pid (H : Host) (s : State) :
  is_subprocess_call (argv H) = false ->
  can_write H get_pid_file_path = true ->
  (check_single_instance H s).1 = Proceed ->
  files (check_single_instance H s).2 !! get_pid_file_path
  = Some (pid_text H (getpid H)) /\
  (forall path, path <> get_pid_file_path ->
     files (check_single_instance H s).2 !! path = files s !! path).
Proof.
  intros Hsub Hw Hp.
  destruct (check_single_instance H s) as [r s'] eqn:Hrun. cbn [fst snd] in *. subst r.
  destruct (launch_proceeds_files H s s' Hsub Hw Hrun) as (Hpid & Hother & _).
  auto.
Qed.

Lemma launch_records_own_pid_witness :
  files (check_single_instance (Demo.host 4343)
           {| ticks := 0; net_log := [];
              files := <[get_pid_file_path := RefJson.bytes "not a number"]> ∅ |}).2
    !! get_pid_file_path
  = Some (RefJson.bytes "4343").
Proof.
  refine (proj1 (launch_records_own_pid (Demo.host 4343)
                   {| ticks := 0; net_log := [];
                      files := <[get_pid_file_path := RefJson.bytes "not a number"]> ∅ |}
                   _ _ _)).
  - reflexivity.
  - reflexivity.
  - reflexivity.
Defined.

(** X22.  Single-instance enforcement, end to end: after a first launch
    went on and wrote its PID, a second launch that reads that text back
    as the same number and finds the process alive exits as already
    running and changes nothing; once the first instance has cleaned up
    its PID file, the file is gone and a second launch goes on and
    records its own PID. *)
Theorem second_instance_is_refused_until_cleanup (H1 H2 : Host) (s s1 : State) :
  is_subprocess_call (argv H1) = false ->
  is_subprocess_call (argv H2) = false ->
  can_write H1 get_pid_file_path = true ->
  check_single_instance H1 s = (Proceed, s1) ->
  can_read H2 get_pid_file_path = true ->
  pid_of_text H2 (pid_text H1 (getpid H1)) = Some (getpid H1) ->
  kill0 H2 (getpid H1) = Delivered ->
  check_single_instance H2 s1 = (ExitAlreadyRunning (getpid H1), s1) /\
  (can_unlink H1 get_pid_file_path = true ->
   can_write H2 get_pid_file_path = true ->
   files (cleanup_pid_file H1 s1) !! get_pid_file_path = None /\
   (check_single_instance H2 (cleanup_pid_file H1 s1)).1 = Proceed /\
   files (check_single_instance H2 (cleanup_pid_file H1 s1)).2 !! get_pid_file_path
   = Some (pid_text H2 (getpid H2))).
Proof.
  intros Hsub1 Hsub2 Hw1 Hrun Hr2 Hround Halive.
  destruct (launch_proceeds_files H1 s s1 Hsub1 Hw1 Hrun) as (Hpid & _).
  split.
  - unfold check_single_instance. rewrite Hsub2, Hpid, Hr2. cbn [negb].
    rewrite Hround, Halive. reflexivity.
  - intros Hu1 Hw2.
    assert (Hgone : files (cleanup_pid_file H1 s1) !! get_pid_file_path = None).
    { unfold cleanup_pid_file. rewrite Hpid. unfold try_remove. rewrite Hu1.
      cbn [set_files files]. apply lookup_delete_eq. }
    split; [exact Hgone|].
    unfold check_single_instance. rewrite Hsub2, Hgone. cbn [fst snd].
    split; [reflexivity|].
    apply write_pid_files. exact Hw2.
Qed.

Lemma second_instance_is_refused_until_cleanup_witness :
  exists s1,
    check_single_instance (Demo.host 4242) Demo.s0 = (Proceed, s1) /\
    check_single_instance (Demo.host 4343) s1 = (ExitAlreadyRunning 4242, s1).
Proof.
  eexists. split; [reflexivity|].
  refine (proj1 (second_instance_is_refused_until_cleanup
                   (Demo.host 4242) (Demo.host 4343) Demo.s0 _ _ _ _ _ _ _ _)).
  - reflexivity.
  - reflexivity.
  - reflexivity.
  - reflexivity.
  - reflexivity.
  - reflexivity.
  - reflexivity.
Defined.

(** ** Addresses of discovered devices *)

Lemma lacks_append (c : ascii) (s t : string) :
  lacks c (s +:+ t) = lacks c s && lacks c t.
Proof.
  induction s as [|c' s IH]; [reflexivity|].
  change (lacks c (String c' (s +:+ t)) = lacks c (String c' s) && lacks c t).
  cbn [lacks]. rewrite IH. apply andb_assoc.
Qed.

Lemma lacks_decimal (c : ascii) (b : byte) :
  c = "_"%char \/ c = "/"%char -> lacks c (decimal b) = true.
Proof.
  intros Hc. unfold decimal.
  assert (Hd : forall d, lacks c (NilEmpty.string_of_uint d) = true).
  { induction d; cbn [NilEmpty.string_of_uint lacks]; try rewrite IHd;
      destruct Hc as [-> | ->]; reflexivity. }
  unfold NilZero.string_of_uint.
  destruct (N.to_uint (Byte.to_N b)); try apply Hd.
  destruct Hc as [-> | ->]; reflexivity.
Qed.

(** X23.  A device that the [add_service] callback registers is filed
    under the announced name with the announced port and with an address
    that has no underscore and no slash; and two devices so registered
    at different addresses get different local paths for a file of one
    and the same declared name.  (Two names announced at one address
    share the path.) *)
Theorem discovered_devices_get_distinct_paths (E : Env) :
  (forall devices name i devices',
     add_service devices name (Some i) = Some devices' ->
     exists d, registry_of devices' !! name = Some d /\
               port d = info_port i /\
               Some (ip d) = head (addresses i) ≫= inet_ntoa /\
               plain_address (ip d) = true) /\
  (forall devices1 name1 i1 registry1 d1 devices2 name2 i2 registry2 d2 file_name,
     add_service devices1 name1 (Some i1) = Some registry1 ->
     registry_of registry1 !! name1 = Some d1 ->
     add_service devices2 name2 (Some i2) = Some registry2 ->
     registry_of registry2 !! name2 = Some d2 ->
     ip d1 <> ip d2 ->
     local_path_for E (ip d1) (JStr file_name)
     <> local_path_for E (ip d2) (JStr file_name)) /\
  (forall devices name1 name2 i registry1 registry2 d1 d2 file_name,
     add_service devices name1 (Some i) = Some registry1 ->
     registry_of registry1 !! name1 = Some d1 ->
     add_service registry1 name2 (Some i) = Some registry2 ->
     registry_of registry2 !! name2 = Some d2 ->
     local_path_for E (ip d1) (JStr file_name)
     = local_path_for E (ip d2) (JStr file_name)).
Proof.
  assert (Hreg : forall devices name i devices',
             add_service devices name (Some i) = Some devices' ->
             exists d, registry_of devices' !! name = Some d /\
                       port d = info_port i /\
                       Some (ip d) = head (addresses i) ≫= inet_ntoa /\
                       plain_address (ip d) = true).
  { intros devices name i devices'. unfold add_service.
    destruct (addresses i) as [|packed more]; [discriminate|].
    cbn [head mbind option_bind].
    destruct (inet_ntoa packed) as [address|] eqn:Hnt; [|discriminate].
    intros [= <-]. rewrite registry_of_dict_set, lookup_insert_eq.
    eexists. split; [reflexivity|]. cbn [ip port]. repeat split.
    destruct packed as [|a [|b [|c [|d [|e packed]]]]]; cbn [inet_ntoa] in Hnt;
      try discriminate.
    injection Hnt as <-. unfold plain_address.
    rewrite !lacks_append, !lacks_decimal by auto. reflexivity. }
  split; [exact Hreg|]. split.
  - intros devices1 name1 i1 registry1 d1 devices2 name2 i2 registry2 d2 file_name
           Ha1 Hd1 Ha2 Hd2 Hne Heq.
    destruct (Hreg _ _ _ _ Ha1) as (d1' & Hd1' & _ & _ & Hp1).
    destruct (Hreg _ _ _ _ Ha2) as (d2' & Hd2' & _ & _ & Hp2).
    rewrite Hd1 in Hd1'. injection Hd1' as <-.
    rewrite Hd2 in Hd2'. injection Hd2' as <-.
    unfold plain_address, local_path_for in *. cbn [render] in Heq.
    apply andb_true_iff in Hp1 as [Hu1 Hs1]. apply andb_true_iff in Hp2 as [Hu2 Hs2].
    apply path_join_relative_inj in Heq;
      try (apply local_name_not_absolute; assumption).
    apply string_append_cancel_r in Heq.
    apply Hne. apply dots_to_underscores_inj; assumption.
  - intros devices name1 name2 i registry1 registry2 d1 d2 file_name Ha1 Hd1 Ha2 Hd2.
    destruct (Hreg _ _ _ _ Ha1) as (d1' & Hd1' & _ & Hip1 & _).
    destruct (Hreg _ _ _ _ Ha2) as (d2' & Hd2' & _ & Hip2 & _).
    rewrite Hd1 in Hd1'. injection Hd1' as <-.
    rewrite Hd2 in Hd2'. injection Hd2' as <-.
    rewrite <- Hip1 in Hip2. injection Hip2 as ->. reflexivity.
Qed.

Example two_discovered_cameras :
  add_service [] "camA" (Some {| addresses := [["010"; "000"; "000"; "007"]%byte];
                                 info_port := 8080 |})
  = Some [("camA", {| ip := "10.0.0.7"; port := 8080 |})] /\
  add_service [("camA", {| ip := "10.0.0.7"; port := 8080 |})] "camB"
              (Some {| addresses := [["192"; "168"; "001"; "255"]%byte];
                       info_port := 9000 |})
  = Some [("camA", {| ip := "10.0.0.7"; port := 8080 |});
          ("camB", {| ip := "192.168.1.255"; port := 9000 |})] /\
  add_service [] "camC" (Some {| addresses := [["010"; "000"; "000"]%byte];
                                 info_port := 8080 |}) = None.
Proof. repeat split. Qed.

(** ** A listing that is cut off *)

(** X24.  A LIST_FILES reply that is cut off is a failure, not a partial
    listing: when deliveries arrive of which no accumulated prefix
    decodes, and then the stream ends or the read times out, the send
    returns the failure marker. *)
Theorem cut_off_listing_fails
    (E : Env) (device_ip : string) (device_port : Z)
    (timestamp : option float) (file_id : option string) (s : State)
    (chunks : list (list byte)) (tail : list Delivery) :
  serves E s device_ip device_port (map Data chunks ++ tail) ->
  chunks <> [] ->
  Forall (fun c => c <> [] /\ Z.of_nat (length c) <= 8192) chunks ->
  (forall k, (0 < k <= length chunks)%nat ->
             json_loads E (concat (take k chunks)) = None) ->
  (tail = [] \/ exists rest, tail = TimedOut :: rest) ->
  (send_command E device_ip device_port "LIST_FILES" timestamp file_id s).1
  = Ret PyFalse.
Proof.
  intros Hserves Hne Hall Hnone Htail.
  rewrite (send_command_served E device_ip device_port "LIST_FILES" timestamp file_id s _
             Hserves ltac:(discriminate)).
  unfold read_reply. cbn [String.eqb Ascii.eqb Bool.eqb].
  pose proof (weight_data_chunks chunks tail) as Hw.
  destruct (recv_until_json_undecoded E chunks [] tail
              (S (weight (map Data chunks ++ tail))) Hall Hnone ltac:(lia))
    as [(e & ->) | ->]; [reflexivity|].
  destruct (S (weight (map Data chunks ++ tail)) - length chunks)%nat
    as [|fuel] eqn:Hfuel; [lia|].
  assert (Hend : (recv_until_json E (S fuel) ([] ++ concat chunks) tail).1
                 = Ret (concat chunks)).
  { destruct Htail as [-> | (rest & ->)]; reflexivity. }
  rewrite Hend. unfold interpret_reply.
  pose proof (Hnone (length chunks) ltac:(destruct chunks; [contradiction | cbn [length]; lia]))
    as Hall_none.
  rewrite take_ge in Hall_none by lia.
  destruct (concat chunks) as [|b data] eqn:Hcat.
  - destruct chunks as [|c cs]; [contradiction|].
    apply Forall_cons in Hall as [[Hc _] _].
    destruct c; [contradiction | discriminate].
  - unfold bind, loads, raise. rewrite Hall_none. reflexivity.
Qed.

Lemma cut_off_listing_fails_witness :
  (send_command (Demo.env Demo.counting_clock
                          (fun _ => Demo.replies [Data (RefJson.bytes "[1, 2,"); TimedOut]))
                "10.0.0.1" 8080 "LIST_FILES" None None Demo.s0).1
  = Ret PyFalse.
Proof.
  apply (cut_off_listing_fails
           (Demo.env Demo.counting_clock
                     (fun _ => Demo.replies [Data (RefJson.bytes "[1, 2,"); TimedOut]))
           "10.0.0.1" 8080 None None Demo.s0 [RefJson.bytes "[1, 2,"] [TimedOut]).
  - intros msg. reflexivity.
  - discriminate.
  - repeat constructor; [discriminate | vm_compute; discriminate].
  - intros k Hk. assert (k = 1%nat) as -> by (cbn [length] in Hk; lia). reflexivity.
  - right. exists []. reflexivity.
Defined.
